(** * screen.vision: capture / change-detection pipeline and task orchestrator

    A shallow embedding of [src/hooks/screenshare.tsx] (the [useScreenShare]
    store with its pure helpers) and of the [TaskProvider] component, followed
    by the properties of the specification that are settled on it.

    Conventions of the embedding.
    - JavaScript numbers that hold pixel bytes, pixel counts, canvas
      dimensions and counters are integers [Z]; fractions (the difference
      percentage, thresholds, overlay coordinates) are exact rationals [Q].
      Arithmetic is exact: IEEE-754 rounding is not part of the model.
    - A typed array is a [list Z]; reading past the end gives [None]
      (JavaScript [undefined]), writing past the end is ignored, as for a
      [Uint8ClampedArray].
    - An [await] is a call whose outcome (resolved value or rejection) is
      supplied by the environment; every external call is recorded in a trace.
    - [setTimeout]/[clearTimeout] act on a finite map of pending timers; the
      environment chooses which pending timer fires next. *)

From Stdlib Require Import ZArith QArith Qround List String Ascii Bool Lia.
From Stdlib Require Import Reals Lra.
From stdpp Require Import gmap list strings.

Local Open Scope Z_scope.

(* ===================================================================== *)
(** * Part I. Definitions                                                 *)
(* ===================================================================== *)

(** ** Rasters *)

(** [ImageData]: dimensions and the flat RGBA byte array. *)
Record ImageData := mkImageData {
  width : Z;
  height : Z;
  data : list Z
}.

(** The platform only hands out [ImageData] of positive dimensions whose
    array has four bytes per pixel ([getImageData] throws on a zero size). *)
Definition wf_image (img : ImageData) : Prop :=
  0 < width img /\ 0 < height img /\
  length (data img) = Z.to_nat (4 * (width img * height img)).

(** ** Frame Scaler: [getScaledDimensions] *)

(** [Math.floor(x * Math.sqrt(n / d))] for integers [0 <= x], [0 <= n],
    [0 < d]: the floor of [x * sqrt (n/d)] is the integer square root of
    the floor of [x*x*n / d] (see [floorMulSqrt_spec] and, over the reals,
    [floorMulSqrt_real]). *)
Definition floorMulSqrt (x n d : Z) : Z := Z.sqrt (x * x * n / d).

Definition getScaledDimensions (width height maxPixels : Z) : Z * Z :=
  let currentPixels := width * height in
  if maxPixels <? currentPixels then
    (floorMulSqrt width maxPixels currentPixels,
     floorMulSqrt height maxPixels currentPixels)
  else (width, height).

(** The same function read over the real numbers, as the source is
    written; [Math.floor] is [Int_part].  [getScaledDimensions_real] shows
    that the integer version computes it. *)
Definition getScaledDimensionsR (width height maxPixels : R) : R * R :=
  let currentPixels := (width * height)%R in
  if Rgt_dec currentPixels maxPixels then
    let scaleFactor := sqrt (maxPixels / currentPixels) in
    (IZR (Int_part (width * scaleFactor)), IZR (Int_part (height * scaleFactor)))
  else (width, height).

(** ** Frame Differ: [calculateImageDifference] *)

Definition pixelThreshold : Z := 10.

(** [Math.abs(data1[i] - data2[i])]; an index past the end reads
    [undefined] and the difference is [NaN], here [None]. *)
Definition channelDiff (data1 data2 : list Z) (i : nat) : option Z :=
  match data1 !! i, data2 !! i with
  | Some x, Some y => Some (Z.abs (x - y))
  | _, _ => None
  end.

(** [diff > limit]; a comparison with [NaN] is false. *)
Definition exceeds (diff : option Z) (limit : Z) : bool :=
  match diff with
  | Some v => limit <? v
  | None => false
  end.

(** The body of [for (let i = 0; i < data1.length; i += 4)], started at
    index [i] with the running count [differentPixels]. *)
Fixpoint diffLoop (fuel i : nat) (data1 data2 : list Z) (differentPixels : Z) : Z :=
  match fuel with
  | O => differentPixels
  | S fuel' =>
      if (i <? length data1)%nat then
        let rDiff := channelDiff data1 data2 i in
        let gDiff := channelDiff data1 data2 (i + 1) in
        let bDiff := channelDiff data1 data2 (i + 2) in
        diffLoop fuel' (i + 4) data1 data2
          (if exceeds rDiff pixelThreshold
              || exceeds gDiff pixelThreshold
              || exceeds bDiff pixelThreshold
           then differentPixels + 1
           else differentPixels)
      else differentPixels
  end.

(** The loop makes at most [length data1] iterations. *)
Definition countDifferentPixels (data1 data2 : list Z) : Z :=
  diffLoop (length data1) 0 data1 data2 0.

Definition calculateImageDifference (imageData1 imageData2 : ImageData) : Q :=
  let data1 := data imageData1 in
  let data2 := data imageData2 in
  let differentPixels := countDifferentPixels data1 data2 in
  let totalPixels := width imageData1 * height imageData1 in
  (inject_Z differentPixels / inject_Z totalPixels * 100)%Q.

(** *** The differ as the specification words it *)

(** A pixel counts as changed iff one of its three colour channels differs
    by more than 10; the alpha byte (offset 3) is not looked at. *)
Definition pixelChanged_spec (a b : ImageData) (p : nat) : bool :=
  existsb (fun c => exceeds (channelDiff (data a) (data b) (4 * p + c)) 10)
          (0 :: 1 :: 2 :: nil)%nat.

Definition changedCount_spec (a b : ImageData) : Z :=
  Z.of_nat (length (List.filter (pixelChanged_spec a b)
                                (seq 0 (Z.to_nat (width a * height a))))).

(** [100 * changedCount / totalPixels]. *)
Definition diffPercent_spec (a b : ImageData) : Q :=
  (100 * inject_Z (changedCount_spec a b) / inject_Z (width a * height a))%Q.

(** ** Masking Engine *)

(** [data[idx] = 0; data[idx + 1] = 0; data[idx + 2] = 0]. *)
Definition blackoutPixel (data : list Z) (idx : Z) : list Z :=
  let i := Z.to_nat idx in
  <[(i + 2)%nat := 0]> (<[(i + 1)%nat := 0]> (<[i := 0]> data)).

(** The rectangle [detectAndMaskPopup] blacks out in a [width] x [height]
    raster: columns [startX, endX), rows [startY, endY). *)
Definition bannerRect (width height : Z) : Z * Z * Z * Z :=
  let maskWidth := width * 3 / 10 in        (* Math.floor(width * 0.3) *)
  let maskHeight := 100 in
  let maskX := (width - maskWidth) / 2 in   (* Math.floor((width - maskWidth) / 2) *)
  let maskY := height * 85 / 100 in         (* Math.floor(height * 0.85) *)
  let startX := Z.max 0 maskX in
  let endX := Z.min width (maskX + maskWidth) in
  let startY := Z.max 0 maskY in
  let endY := Z.min height (startY + maskHeight) in
  (startX, endX, startY, endY).

Definition detectAndMaskPopup (data : list Z) (width height : Z) : list Z :=
  let '(startX, endX, startY, endY) := bannerRect width height in
  foldl (fun data y =>
           foldl (fun data x => blackoutPixel data ((y * width + x) * 4))
                 data (seqZ startX (endX - startX)))
        data (seqZ startY (endY - startY)).

(** The banner mask applied to an [ImageData] in place. *)
Definition maskBanner (img : ImageData) : ImageData :=
  mkImageData (width img) (height img)
              (detectAndMaskPopup (data img) (width img) (height img)).



(** The floating overlay window as reported by [pipDetailsGetter]. *)
Record PipDetails := mkPipDetails {
  pip_x : Q;
  pip_y : Q;
  pip_width : Q;
  pip_height : Q;
  isActive : bool;
  isVisible : bool
}.

(** ** The hidden [<video>] element and the canvas *)

(** What the detection video shows at one instant: its intrinsic size and
    the bytes [drawImage(video, 0, 0, w, h)] puts on a [w] x [h] canvas. *)
Record VideoFrame := mkVideoFrame {
  videoWidth : Z;
  videoHeight : Z;
  render : Z -> Z -> list Z
}.

Definition drawImage (video : VideoFrame) (w h : Z) : ImageData :=
  mkImageData w h (render video w h).

(** [ctx.getImageData(0, 0, w, h)] throws [IndexSizeError] on an empty
    rectangle; [None] stands for the exception. *)
Definition getImageData (canvas : ImageData) : option ImageData :=
  if (0 <? width canvas) && (0 <? height canvas) then Some canvas else None.

(** [canvas.toDataURL("image/jpeg")]: the payload is identified with the
    raster it encodes; [EmptyUrl] is the empty string. *)
Inductive DataUrl :=
| EmptyUrl
| Jpeg (canvas : ImageData).

(** What the environment presents while one timer callback runs: the current
    video frame, the value of [get().pipDetailsGetter?.()], and whether each
    [getContext("2d")] of the callback succeeds. *)
Record Snapshot := mkSnapshot {
  snap_video : VideoFrame;
  snap_pip : option PipDetails;
  snap_ctx : bool;            (* the detection canvas / the capture canvas *)
  snap_nonScaledCtx : bool;   (* the full-resolution canvas *)
  snap_resetCtx : bool        (* the canvas that re-reads the baseline *)
}.

(** What the store takes from the browser: [window.screen.width],
    [window.screen.height] and the rasteriser behind
    [ctx.fillStyle = "black"; ctx.fillRect(x, y, w, h)]. *)
Record Platform := mkPlatform {
  screenWidth : Z;
  screenHeight : Z;
  fillRect : ImageData -> Q -> Q -> Q -> Q -> ImageData
}.

Section Platform.

Variable platform : Platform.

Definition maskPipWindow (ctx : ImageData) (pipDetails : PipDetails)
    (canvasWidth canvasHeight : Z) : ImageData :=
  if negb (isActive pipDetails) || negb (isVisible pipDetails) then ctx
  else
    let scaleX := (inject_Z canvasWidth / inject_Z (screenWidth platform))%Q in
    let scaleY := (inject_Z canvasHeight / inject_Z (screenHeight platform))%Q in
    fillRect platform ctx
      (pip_x pipDetails * scaleX)%Q (pip_y pipDetails * scaleY)%Q
      (pip_width pipDetails * scaleX)%Q (pip_height pipDetails * scaleY)%Q.

(** [if (pipDetails) maskPipWindow(ctx, pipDetails, w, h)]. *)
Definition maskOverlay (ctx : ImageData) (pipDetails : option PipDetails)
    (w h : Z) : ImageData :=
  match pipDetails with
  | Some p => maskPipWindow ctx p w h
  | None => ctx
  end.

(** Draw the video on a [w] x [h] canvas, mask the overlay with
    [pipDetails], read the pixels back and mask the banner. [None]: the read
    threw. *)
Definition grabMasked (video : VideoFrame) (pipDetails : option PipDetails)
    (w h : Z) : option ImageData :=
  let canvas := drawImage video w h in
  let canvas := maskOverlay canvas pipDetails w h in
  match getImageData canvas with
  | Some imageData => Some (maskBanner imageData)
  | None => None
  end.

(** ** The [useScreenShare] store *)

Definition imagePixelSize : Z := 1500000.
Definition imageSizeForChangeDetection : Z := 800000.

Record ChangeDetectionOptions := mkOptions {
  opt_threshold : option Q;
  opt_checkIntervalMs : option Z;
  opt_scaleFactor : option Q;
  opt_captureDelayMs : option Z
}.

(** The variables a running loop closes over: its video element and the
    destructured options. *)
Record DetectionLoop := mkLoop {
  loop_video : nat;
  threshold : Q;
  checkIntervalMs : Z;
  scaleFactor : Q;
  captureDelayMs : Z
}.

Definition loopOf (video : nat) (options : ChangeDetectionOptions) : DetectionLoop :=
  mkLoop video
    (default 1%Q (opt_threshold options))
    (default 200 (opt_checkIntervalMs options))
    (default (1 # 10)%Q (opt_scaleFactor options))
    (default 100 (opt_captureDelayMs options)).

(** The functions handed to [setTimeout]. *)
Inductive TimerCallback :=
| RunDetection (loop : DetectionLoop)
| CaptureAfterChange (loop : DetectionLoop) (width height : Z)
                     (pipDetails : option PipDetails)
| TemporaryResume.

Record ScreenShare := mkScreenShare {
  stream : option nat;
  isSharing : bool;
  changeDetectionEnabled : bool;
  isChangeDetectionPaused : bool;
  isAnalyzingScreenChange : bool;
  (* variables of the store's closure *)
  changeDetectionTimer : option nat;
  previousImageData : option ImageData;
  temporaryPauseTimer : option nat;
  (* the event loop: pending timeouts with their delay; handles are positive *)
  timers : gmap nat (TimerCallback * Z);
  nextTimer : nat;
  (* the document: hidden video elements, and the [onloadedmetadata]
     handlers that have not run yet *)
  hiddenVideos : list nat;
  awaitingMetadata : gmap nat DetectionLoop;
  nextVideo : nat;
  (* invocations of the change callback, oldest first *)
  onChangeCalls : list (DataUrl * DataUrl)
}.

Definition initialStore : ScreenShare :=
  mkScreenShare None false false false false None None None ∅ 1 [] ∅ 0 [].

Definition set_flags (enabled paused : bool) (s : ScreenShare) : ScreenShare :=
  mkScreenShare (stream s) (isSharing s) enabled paused
    (isAnalyzingScreenChange s) (changeDetectionTimer s) (previousImageData s)
    (temporaryPauseTimer s) (timers s) (nextTimer s) (hiddenVideos s)
    (awaitingMetadata s) (nextVideo s) (onChangeCalls s).

Definition set_paused (paused : bool) (s : ScreenShare) : ScreenShare :=
  set_flags (changeDetectionEnabled s) paused s.

Definition set_stream (st : option nat) (sharing : bool) (s : ScreenShare)
  : ScreenShare :=
  mkScreenShare st sharing (changeDetectionEnabled s)
    (isChangeDetectionPaused s) (isAnalyzingScreenChange s)
    (changeDetectionTimer s) (previousImageData s) (temporaryPauseTimer s)
    (timers s) (nextTimer s) (hiddenVideos s) (awaitingMetadata s)
    (nextVideo s) (onChangeCalls s).

Definition set_analyzing (v : bool) (s : ScreenShare) : ScreenShare :=
  mkScreenShare (stream s) (isSharing s) (changeDetectionEnabled s)
    (isChangeDetectionPaused s) v (changeDetectionTimer s)
    (previousImageData s) (temporaryPauseTimer s) (timers s) (nextTimer s)
    (hiddenVideos s) (awaitingMetadata s) (nextVideo s) (onChangeCalls s).

Definition set_changeDetectionTimer (t : option nat) (s : ScreenShare) : ScreenShare :=
  mkScreenShare (stream s) (isSharing s) (changeDetectionEnabled s)
    (isChangeDetectionPaused s) (isAnalyzingScreenChange s) t
    (previousImageData s) (temporaryPauseTimer s) (timers s) (nextTimer s)
    (hiddenVideos s) (awaitingMetadata s) (nextVideo s) (onChangeCalls s).

Definition set_previousImageData (p : option ImageData) (s : ScreenShare) : ScreenShare :=
  mkScreenShare (stream s) (isSharing s) (changeDetectionEnabled s)
    (isChangeDetectionPaused s) (isAnalyzingScreenChange s)
    (changeDetectionTimer s) p (temporaryPauseTimer s) (timers s)
    (nextTimer s) (hiddenVideos s) (awaitingMetadata s) (nextVideo s)
    (onChangeCalls s).

Definition set_temporaryPauseTimer (t : option nat) (s : ScreenShare) : ScreenShare :=
  mkScreenShare (stream s) (isSharing s) (changeDetectionEnabled s)
    (isChangeDetectionPaused s) (isAnalyzingScreenChange s)
    (changeDetectionTimer s) (previousImageData s) t (timers s) (nextTimer s)
    (hiddenVideos s) (awaitingMetadata s) (nextVideo s) (onChangeCalls s).

Definition set_timers (ts : gmap nat (TimerCallback * Z)) (next : nat)
    (s : ScreenShare) : ScreenShare :=
  mkScreenShare (stream s) (isSharing s) (changeDetectionEnabled s)
    (isChangeDetectionPaused s) (isAnalyzingScreenChange s)
    (changeDetectionTimer s) (previousImageData s) (temporaryPauseTimer s)
    ts next (hiddenVideos s) (awaitingMetadata s) (nextVideo s)
    (onChangeCalls s).

Definition set_document (videos : list nat) (handlers : gmap nat DetectionLoop)
    (next : nat) (s : ScreenShare) : ScreenShare :=
  mkScreenShare (stream s) (isSharing s) (changeDetectionEnabled s)
    (isChangeDetectionPaused s) (isAnalyzingScreenChange s)
    (changeDetectionTimer s) (previousImageData s) (temporaryPauseTimer s)
    (timers s) (nextTimer s) videos handlers next (onChangeCalls s).

Definition set_onChangeCalls (calls : list (DataUrl * DataUrl))
    (s : ScreenShare) : ScreenShare :=
  mkScreenShare (stream s) (isSharing s) (changeDetectionEnabled s)
    (isChangeDetectionPaused s) (isAnalyzingScreenChange s)
    (changeDetectionTimer s) (previousImageData s) (temporaryPauseTimer s)
    (timers s) (nextTimer s) (hiddenVideos s) (awaitingMetadata s)
    (nextVideo s) calls.

(** [setTimeout(callback, ms)]: the new timer's handle and the store with
    the timer pending. *)
Definition setTimeout (callback : TimerCallback) (ms : Z) (s : ScreenShare)
    : nat * ScreenShare :=
  let id := nextTimer s in
  (id, set_timers (<[id := (callback, ms)]> (timers s)) (S id) s).

Definition clearTimeout (id : nat) (s : ScreenShare) : ScreenShare :=
  set_timers (delete id (timers s)) (nextTimer s) s.

(** [changeDetectionTimer = setTimeout(callback, ms)]. *)
Definition armDetectionTimer (callback : TimerCallback) (ms : Z)
    (s : ScreenShare) : ScreenShare :=
  let '(id, s) := setTimeout callback ms s in
  set_changeDetectionTimer (Some id) s.

(** [callback(scaledImageDataUrl, nonScaledImageDataUrl)]. *)
Definition invokeOnChange (scaled nonScaled : DataUrl) (s : ScreenShare) : ScreenShare :=
  set_onChangeCalls (onChangeCalls s ++ [(scaled, nonScaled)]) s.

(** *** [stopChangeDetection], [pause...], [resume...] *)

Definition stopChangeDetection (s : ScreenShare) : ScreenShare :=
  let s :=
    match changeDetectionTimer s with
    | Some id => set_changeDetectionTimer None (clearTimeout id s)
    | None => s
    end in
  let s := set_previousImageData None s in
  let s := set_flags false false s in
  (* document.querySelectorAll('video[style*="display: none"]').forEach(v => v.remove()) *)
  set_document [] (awaitingMetadata s) (nextVideo s) s.

Definition pauseChangeDetection (s : ScreenShare) : ScreenShare :=
  if negb (changeDetectionEnabled s) then s
  else set_paused true s.

Definition resumeChangeDetection (s : ScreenShare) : ScreenShare :=
  if negb (changeDetectionEnabled s) then s
  else set_previousImageData None (set_paused false s).

Definition pauseChangeDetectionTemporarily (durationMs : option Z)
    (s : ScreenShare) : ScreenShare :=
  let durationMs := default 200 durationMs in
  if negb (changeDetectionEnabled s) then s
  else
    let s :=
      match temporaryPauseTimer s with
      | Some id => clearTimeout id s
      | None => s
      end in
    let s := set_paused true s in
    let '(id, s) := setTimeout TemporaryResume durationMs s in
    set_temporaryPauseTimer (Some id) s.

(** The function given to [setTimeout] by [pauseChangeDetectionTemporarily]. *)
Definition temporaryResume (s : ScreenShare) : ScreenShare :=
  let s := set_paused false s in
  let s := set_previousImageData None s in
  set_temporaryPauseTimer None s.

(** *** [startChangeDetection] and the detection loop *)

Definition startChangeDetection (options : ChangeDetectionOptions)
    (s : ScreenShare) : ScreenShare :=
  match stream s with
  | None => s
  | Some _ =>
      let s := stopChangeDetection s in
      let s := set_flags true false s in
      let video := nextVideo s in
      (* document.body.appendChild(video); video.onloadedmetadata = ... *)
      set_document (hiddenVideos s ++ [video])
                   (<[video := loopOf video options]> (awaitingMetadata s))
                   (S video) s
  end.

(** [video.onloadedmetadata]: starts the loop. *)
Definition onloadedmetadata (video : nat) (s : ScreenShare) : ScreenShare :=
  match awaitingMetadata s !! video with
  | Some loop =>
      let s := set_document (hiddenVideos s) (delete video (awaitingMetadata s))
                            (nextVideo s) s in
      armDetectionTimer (RunDetection loop) (checkIntervalMs loop) s
  | None => s
  end.

(** [Math.floor(video.videoWidth * scaleFactor)] and likewise the height. *)
Definition analysisWidth (loop : DetectionLoop) (video : VideoFrame) : Z :=
  Qfloor (inject_Z (videoWidth video) * scaleFactor loop).

Definition analysisHeight (loop : DetectionLoop) (video : VideoFrame) : Z :=
  Qfloor (inject_Z (videoHeight video) * scaleFactor loop).

(** The down-scaled, masked frame one polling tick compares. *)
Definition analysisFrame (loop : DetectionLoop) (env : Snapshot) : option ImageData :=
  grabMasked (snap_video env) (snap_pip env)
             (analysisWidth loop (snap_video env))
             (analysisHeight loop (snap_video env)).

(** [changePercent >= threshold]. *)
Definition changeDetectedBetween (loop : DetectionLoop)
    (previous : option ImageData) (current : ImageData) : bool :=
  match previous with
  | Some previousImageData =>
      Qle_bool (threshold loop) (calculateImageDifference previousImageData current)
  | None => false
  end.

(** [runDetection]: one polling tick. *)
Definition runDetection (loop : DetectionLoop) (env : Snapshot)
    (s : ScreenShare) : ScreenShare :=
  if negb (changeDetectionEnabled s) then s
  else if isChangeDetectionPaused s then
    armDetectionTimer (RunDetection loop) (checkIntervalMs loop) s
  else
    let video := snap_video env in
    let width := analysisWidth loop video in
    let height := analysisHeight loop video in
    if negb (snap_ctx env) then
      armDetectionTimer (RunDetection loop) (checkIntervalMs loop) s
    else
      let pipDetails := snap_pip env in
      match grabMasked video pipDetails width height with
      | None => s   (* getImageData threw: the callback is abandoned *)
      | Some currentImageData =>
          if changeDetectedBetween loop (previousImageData s) currentImageData then
            let s := set_analyzing true s in
            armDetectionTimer (CaptureAfterChange loop width height pipDetails)
                              (captureDelayMs loop) s
          else
            let s := set_previousImageData (Some currentImageData) s in
            armDetectionTimer (RunDetection loop) (checkIntervalMs loop) s
      end.

(** The confirmation frame of the capture window: the video drawn at the
    [imageSizeForChangeDetection] budget, overlay and banner masked. *)
Definition confirmationFrame (env : Snapshot) : option ImageData :=
  let video := snap_video env in
  let '(captureWidth, captureHeight) :=
    getScaledDimensions (videoWidth video) (videoHeight video)
                        imageSizeForChangeDetection in
  grabMasked video (snap_pip env) captureWidth captureHeight.

(** The full-resolution frame of the capture window: the video drawn at its
    own size and encoded as it is, or the empty string without a context. *)
Definition archivalUrl (env : Snapshot) : DataUrl :=
  let video := snap_video env in
  if snap_nonScaledCtx env then
    Jpeg (drawImage video (videoWidth video) (videoHeight video))
  else EmptyUrl.

(** The function given to [setTimeout] once a change is detected.  [width],
    [height] and [pipDetails] are the values of the tick that detected it. *)
Definition captureAfterChange (loop : DetectionLoop) (width height : Z)
    (pipDetails : option PipDetails) (env : Snapshot) (s : ScreenShare)
    : ScreenShare :=
  let video := snap_video env in
  let captured :=
    if snap_ctx env then
      match confirmationFrame env with
      | Some captureImageData =>
          Some (invokeOnChange (Jpeg captureImageData) (archivalUrl env) s)
      | None => None
      end
    else Some s in
  match captured with
  | None => s   (* getImageData threw before the callback was reached *)
  | Some s =>
      let reset :=
        if snap_resetCtx env then
          match grabMasked video pipDetails width height with
          | Some newSmallData => Some (set_previousImageData (Some newSmallData) s)
          | None => None
          end
        else Some s in
      match reset with
      | None => s   (* getImageData threw: no timer is armed *)
      | Some s => armDetectionTimer (RunDetection loop) (captureDelayMs loop) s
      end
  end.

(** *** [startSharing], [stopSharing] *)

Definition startSharing (newStream : nat) (s : ScreenShare) : ScreenShare :=
  set_stream (Some newStream) true s.

Definition stopSharing (s : ScreenShare) : ScreenShare :=
  set_stream None false (stopChangeDetection s).

(** *** Runs of the store *)

Inductive Event :=
| StartSharing (newStream : nat)
| StopSharing
| StartChangeDetection (options : ChangeDetectionOptions)
| StopChangeDetection
| PauseChangeDetection
| ResumeChangeDetection
| PauseChangeDetectionTemporarily (durationMs : option Z)
| SetIsAnalyzingScreenChange (value : bool)
| LoadedMetadata (video : nat)
| Fire (timer : nat) (env : Snapshot).

(** A pending timer fires: it leaves the pending set and its function runs. *)
Definition fire (timer : nat) (env : Snapshot) (s : ScreenShare) : ScreenShare :=
  match timers s !! timer with
  | None => s
  | Some (callback, _) =>
      let s := set_timers (delete timer (timers s)) (nextTimer s) s in
      match callback with
      | RunDetection loop => runDetection loop env s
      | CaptureAfterChange loop width height pipDetails =>
          captureAfterChange loop width height pipDetails env s
      | TemporaryResume => temporaryResume s
      end
  end.

Definition step (s : ScreenShare) (e : Event) : ScreenShare :=
  match e with
  | StartSharing newStream => startSharing newStream s
  | StopSharing => stopSharing s
  | StartChangeDetection options => startChangeDetection options s
  | StopChangeDetection => stopChangeDetection s
  | PauseChangeDetection => pauseChangeDetection s
  | ResumeChangeDetection => resumeChangeDetection s
  | PauseChangeDetectionTemporarily durationMs =>
      pauseChangeDetectionTemporarily durationMs s
  | SetIsAnalyzingScreenChange value => set_analyzing value s
  | LoadedMetadata video => onloadedmetadata video s
  | Fire timer env => fire timer env s
  end.

Definition run (events : list Event) (s : ScreenShare) : ScreenShare :=
  foldl step s events.

End Platform.

(** ** Strings *)

(** White space as [String.prototype.trim] and the regular expression
    class [\s] see it, within the 8-bit characters of [string]. *)
Definition isWhiteSpace (c : ascii) : bool :=
  let n := nat_of_ascii c in
  ((9 <=? n) && (n <=? 13) || (n =? 32) || (n =? 160))%nat.

Definition isDigit (c : ascii) : bool :=
  let n := nat_of_ascii c in
  ((48 <=? n) && (n <=? 57))%nat.

Fixpoint trimStartChars (s : list ascii) : list ascii :=
  match s with
  | c :: rest => if isWhiteSpace c then trimStartChars rest else s
  | [] => []
  end.

(** [s.trim()]. *)
Definition trim (s : string) : string :=
  string_of_list_ascii
    (rev (trimStartChars (rev (trimStartChars (list_ascii_of_string s))))).

Definition lowerChar (c : ascii) : ascii :=
  let n := nat_of_ascii c in
  if ((65 <=? n) && (n <=? 90))%nat then ascii_of_nat (n + 32) else c.

(** [s.toLowerCase()] on the letters A to Z. *)
Definition toLowerCase (s : string) : string :=
  string_of_list_ascii (map lowerChar (list_ascii_of_string s)).

(** [s.startsWith(p)]. *)
Definition startsWith (s p : string) : bool := String.prefix p s.

(** Truthiness of a string: only the empty string is falsy. *)
Definition truthy (s : string) : bool := negb (String.eqb s "").

(** [-?\d+] at the head of [s]: the rest after the longest match. *)
Fixpoint skipDigits (s : list ascii) : list ascii :=
  match s with
  | c :: rest => if isDigit c then skipDigits rest else s
  | [] => []
  end.

Definition matchInteger (s : list ascii) : option (list ascii) :=
  let s := match s with
           | c :: rest => if Ascii.eqb c "-" then rest else s
           | [] => s
           end in
  match s with
  | c :: rest => if isDigit c then Some (skipDigits rest) else None
  | [] => None
  end.

(** [/^-?\d+,\s*-?\d+$/.test(s)]. *)
Definition coordinatePattern (s : string) : bool :=
  match matchInteger (list_ascii_of_string s) with
  | Some (c :: rest) =>
      if Ascii.eqb c "," then
        match matchInteger (trimStartChars rest) with
        | Some [] => true
        | _ => false
        end
      else false
  | _ => false
  end.

(** ** The task orchestrator: [TaskProvider] *)

Definition MAX_STEPS : Z := 150.

Record FollowUpItem := mkFollowUp {
  question : string;
  answer : string
}.

Record TaskHistoryItem := mkTask {
  text : string;
  previewImage : option string;
  followUps : option (list FollowUpItem)
}.

Record FollowUpContext := mkFollowUpContext {
  previousImage : string;
  previousInstruction : string;
  followUpMessage : string
}.

Record CapturedImage := mkCaptured {
  scaledImageDataUrl : string;
  nonScaledImageDataUrl : string
}.

(** Calls that leave the component, in the order they are made. *)
Inductive Effect :=
| CaptureImageFromStream (isLocalLlm : bool)
| GenerateAction (goal image : string) (history : list string)
                 (osName : string) (followUpContext : option FollowUpContext)
| GenerateCoordinate (instruction image : string)
| CreateCoordinateSnapshot (image coordinates : string)
| GenerateHelpResponse (goal image question currentTaskText : string)
| StartChangeDetectionCall
| PauseChangeDetectionTemporarilyCall (durationMs : Z)
| SetIsAnalyzingScreenChangeCall (value : bool)
| TrackFollowupQuestionAsked (question : string)
| TrackFollowupResponseReceived (question : string)
| TrackMaxStepsExceeded
| ConsoleError.

Record TaskProvider := mkTaskProvider {
  goal : string;
  tasks : list TaskHistoryItem;          (* the state consumers render *)
  tasksRef : list TaskHistoryItem;       (* tasksRef.current *)
  totalTaskCount : Z;
  totalTaskGeneration : Z;
  isLoading : bool;
  isLoadingFollowUp : bool;
  isLoadingPreviewImage : bool;
  lastScreenshotRef : string;
  pendingFollowUpRef : string;
  isTriggeringRef : bool;
  changeDetectionStartedRef : bool;
  isCheckingStepRef : bool;
  pendingCheckImageRef : option string;
  trace : list Effect                    (* oldest first *)
}.

Definition initialTaskProvider : TaskProvider :=
  mkTaskProvider "" [] [] 0 0 false false false "" "" false false false None [].

Definition set_tasks (v : list TaskHistoryItem) (st : TaskProvider) : TaskProvider :=
  mkTaskProvider (goal st) v (tasksRef st) (totalTaskCount st)
    (totalTaskGeneration st) (isLoading st) (isLoadingFollowUp st)
    (isLoadingPreviewImage st) (lastScreenshotRef st) (pendingFollowUpRef st)
    (isTriggeringRef st) (changeDetectionStartedRef st) (isCheckingStepRef st)
    (pendingCheckImageRef st) (trace st).

Definition set_tasksRef (v : list TaskHistoryItem) (st : TaskProvider) : TaskProvider :=
  mkTaskProvider (goal st) (tasks st) v (totalTaskCount st)
    (totalTaskGeneration st) (isLoading st) (isLoadingFollowUp st)
    (isLoadingPreviewImage st) (lastScreenshotRef st) (pendingFollowUpRef st)
    (isTriggeringRef st) (changeDetectionStartedRef st) (isCheckingStepRef st)
    (pendingCheckImageRef st) (trace st).

Definition set_totalTaskCount (v : Z) (st : TaskProvider) : TaskProvider :=
  mkTaskProvider (goal st) (tasks st) (tasksRef st) v
    (totalTaskGeneration st) (isLoading st) (isLoadingFollowUp st)
    (isLoadingPreviewImage st) (lastScreenshotRef st) (pendingFollowUpRef st)
    (isTriggeringRef st) (changeDetectionStartedRef st) (isCheckingStepRef st)
    (pendingCheckImageRef st) (trace st).

Definition set_totalTaskGeneration (v : Z) (st : TaskProvider) : TaskProvider :=
  mkTaskProvider (goal st) (tasks st) (tasksRef st) (totalTaskCount st) v
    (isLoading st) (isLoadingFollowUp st) (isLoadingPreviewImage st)
    (lastScreenshotRef st) (pendingFollowUpRef st) (isTriggeringRef st)
    (changeDetectionStartedRef st) (isCheckingStepRef st)
    (pendingCheckImageRef st) (trace st).

Definition set_isLoading (v : bool) (st : TaskProvider) : TaskProvider :=
  mkTaskProvider (goal st) (tasks st) (tasksRef st) (totalTaskCount st)
    (totalTaskGeneration st) v (isLoadingFollowUp st)
    (isLoadingPreviewImage st) (lastScreenshotRef st) (pendingFollowUpRef st)
    (isTriggeringRef st) (changeDetectionStartedRef st) (isCheckingStepRef st)
    (pendingCheckImageRef st) (trace st).

Definition set_isLoadingFollowUp (v : bool) (st : TaskProvider) : TaskProvider :=
  mkTaskProvider (goal st) (tasks st) (tasksRef st) (totalTaskCount st)
    (totalTaskGeneration st) (isLoading st) v
    (isLoadingPreviewImage st) (lastScreenshotRef st) (pendingFollowUpRef st)
    (isTriggeringRef st) (changeDetectionStartedRef st) (isCheckingStepRef st)
    (pendingCheckImageRef st) (trace st).

Definition set_isLoadingPreviewImage (v : bool) (st : TaskProvider) : TaskProvider :=
  mkTaskProvider (goal st) (tasks st) (tasksRef st) (totalTaskCount st)
    (totalTaskGeneration st) (isLoading st) (isLoadingFollowUp st) v
    (lastScreenshotRef st) (pendingFollowUpRef st)
    (isTriggeringRef st) (changeDetectionStartedRef st) (isCheckingStepRef st)
    (pendingCheckImageRef st) (trace st).

Definition set_lastScreenshotRef (v : string) (st : TaskProvider) : TaskProvider :=
  mkTaskProvider (goal st) (tasks st) (tasksRef st) (totalTaskCount st)
    (totalTaskGeneration st) (isLoading st) (isLoadingFollowUp st)
    (isLoadingPreviewImage st) v (pendingFollowUpRef st)
    (isTriggeringRef st) (changeDetectionStartedRef st) (isCheckingStepRef st)
    (pendingCheckImageRef st) (trace st).

Definition set_pendingFollowUpRef (v : string) (st : TaskProvider) : TaskProvider :=
  mkTaskProvider (goal st) (tasks st) (tasksRef st) (totalTaskCount st)
    (totalTaskGeneration st) (isLoading st) (isLoadingFollowUp st)
    (isLoadingPreviewImage st) (lastScreenshotRef st) v
    (isTriggeringRef st) (changeDetectionStartedRef st) (isCheckingStepRef st)
    (pendingCheckImageRef st) (trace st).

Definition set_isTriggeringRef (v : bool) (st : TaskProvider) : TaskProvider :=
  mkTaskProvider (goal st) (tasks st) (tasksRef st) (totalTaskCount st)
    (totalTaskGeneration st) (isLoading st) (isLoadingFollowUp st)
    (isLoadingPreviewImage st) (lastScreenshotRef st) (pendingFollowUpRef st)
    v (changeDetectionStartedRef st) (isCheckingStepRef st)
    (pendingCheckImageRef st) (trace st).

Definition set_changeDetectionStartedRef (v : bool) (st : TaskProvider) : TaskProvider :=
  mkTaskProvider (goal st) (tasks st) (tasksRef st) (totalTaskCount st)
    (totalTaskGeneration st) (isLoading st) (isLoadingFollowUp st)
    (isLoadingPreviewImage st) (lastScreenshotRef st) (pendingFollowUpRef st)
    (isTriggeringRef st) v (isCheckingStepRef st)
    (pendingCheckImageRef st) (trace st).

Definition set_checking (checking : bool) (pendingImage : option string)
    (st : TaskProvider) : TaskProvider :=
  mkTaskProvider (goal st) (tasks st) (tasksRef st) (totalTaskCount st)
    (totalTaskGeneration st) (isLoading st) (isLoadingFollowUp st)
    (isLoadingPreviewImage st) (lastScreenshotRef st) (pendingFollowUpRef st)
    (isTriggeringRef st) (changeDetectionStartedRef st) checking
    pendingImage (trace st).

Definition set_trace (v : list Effect) (st : TaskProvider) : TaskProvider :=
  mkTaskProvider (goal st) (tasks st) (tasksRef st) (totalTaskCount st)
    (totalTaskGeneration st) (isLoading st) (isLoadingFollowUp st)
    (isLoadingPreviewImage st) (lastScreenshotRef st) (pendingFollowUpRef st)
    (isTriggeringRef st) (changeDetectionStartedRef st) (isCheckingStepRef st)
    (pendingCheckImageRef st) v.

(** *** Asynchronous code as state passing *)

(** How an awaited call ends. *)
Inductive Outcome (A : Type) :=
| Resolved (a : A)
| Rejected.
Arguments Resolved {A} a.
Arguments Rejected {A}.

(** How a block of statements ends: it falls through with a value, throws,
    or executes [return]. *)
Inductive Completion (A : Type) :=
| Normal (a : A)
| Thrown
| Returned.
Arguments Normal {A} a.
Arguments Thrown {A}.
Arguments Returned {A}.

Definition Async (A : Type) : Type := TaskProvider -> Completion A * TaskProvider.

#[global] Instance Async_ret : MRet Async :=
  fun A a st => (Normal a, st).

#[global] Instance Async_bind : MBind Async :=
  fun A B f m st =>
    match m st with
    | (Normal a, st') => f a st'
    | (Thrown, st') => (Thrown, st')
    | (Returned, st') => (Returned, st')
    end.

Definition gets {A} (f : TaskProvider -> A) : Async A :=
  fun st => (Normal (f st), st).

Definition modify (f : TaskProvider -> TaskProvider) : Async unit :=
  fun st => (Normal tt, f st).

(** A call to a collaborator that returns nothing. *)
Definition perform (e : Effect) : Async unit :=
  modify (fun st => set_trace (trace st ++ [e]) st).

(** [await call]: the call is made, then its outcome is delivered. *)
Definition await {A} (call : Effect) (outcome : Outcome A) : Async A :=
  fun st =>
    let st := set_trace (trace st ++ [call]) st in
    match outcome with
    | Resolved a => (Normal a, st)
    | Rejected => (Thrown, st)
    end.

(** [return;]. *)
Definition returnNow {A} : Async A := fun st => (Returned, st).

(** [try { body } catch (e) { handler }]. *)
Definition tryCatch {A} (body handler : Async A) : Async A :=
  fun st =>
    match body st with
    | (Thrown, st') => handler st'
    | done => done
    end.

(** [try { body } finally { cleanup }]. *)
Definition tryFinally {A} (body : Async A) (cleanup : Async unit) : Async A :=
  fun st =>
    let '(completion, st') := body st in
    match cleanup st' with
    | (Normal _, st'') => (completion, st'')
    | (Thrown, st'') => (Thrown, st'')
    | (Returned, st'') => (Returned, st'')
    end.

(** [if (condition) { body }] without an [else]. *)
Definition whenever (condition : bool) (body : Async unit) : Async unit :=
  if condition then body else mret tt.

(** [if (condition) return;]. *)
Definition returnIf (condition : bool) : Async unit :=
  fun st => if condition then (Returned, st) else (Normal tt, st).

(** The body of a function: [return] ends the function, not its caller. *)
Definition function (body : Async unit) : Async unit :=
  fun st =>
    match body st with
    | (Returned, st') => (Normal tt, st')
    | done => done
    end.

(** What the environment answers to the awaited calls of one
    action-generation cycle. *)
Record GenerationReplies := mkGenerationReplies {
  reply_capture : Outcome CapturedImage;
  reply_action : Outcome string;
  reply_coordinate : Outcome (option string);
  reply_snapshot : Outcome (option string)
}.

(** What the environment answers during one [sendFollowUpMessage]: the
    capture, the successive values of [streamedMessage], the final text, and
    the answers to the regeneration it may start. *)
Record FollowUpReplies := mkFollowUpReplies {
  reply_followUpCapture : Outcome CapturedImage;
  reply_stream : list string;
  reply_help : Outcome string;
  reply_regeneration : GenerationReplies
}.

Section Orchestrator.

(** Values of the surrounding contexts: [isUsingLocalProvider] of the
    settings and [getSystemInfo().os.osName]. *)
Variable isUsingLocalProvider : bool.
Variable osName : string.

Definition hasExceededMaxSteps (st : TaskProvider) : bool :=
  MAX_STEPS <=? totalTaskGeneration st.

(** [setTasks(tasksRef.current)] / [setTasks([...tasksRef.current])]. *)
Definition publishTasks : Async unit :=
  current ← gets tasksRef;
  modify (set_tasks current).

(** The block that merges a pending follow-up into the coming call and
    retracts the step it supersedes. *)
Definition mergePendingFollowUp : Async (option FollowUpContext) :=
  history ← gets tasksRef;
  pendingFollowUp ← gets pendingFollowUpRef;
  lastScreenshot ← gets lastScreenshotRef;
  match last history with
  | Some currentTask =>
      if truthy pendingFollowUp && truthy lastScreenshot then
        modify (set_pendingFollowUpRef "");;
        modify (set_tasksRef (removelast history));;
        publishTasks;;
        modify (fun st => set_totalTaskCount (Z.max 0 (totalTaskCount st - 1)) st);;
        mret (Some (mkFollowUpContext lastScreenshot (text currentTask) pendingFollowUp))
      else mret None
  | None => mret None
  end.

(** Whether the block above merges: the value of
    [pendingFollowUpRef.current && lastScreenshotRef.current && currentTask]. *)
Definition mergesFollowUp (st : TaskProvider) : bool :=
  truthy (pendingFollowUpRef st) && truthy (lastScreenshotRef st)
  && bool_decide (is_Some (last (tasksRef st))).

(** The history as that block leaves it. *)
Definition retractedHistory (st : TaskProvider) : list TaskHistoryItem :=
  if mergesFollowUp st then removelast (tasksRef st) else tasksRef st.

(** [tasksRef.current[lastIndex] = {...tasksRef.current[lastIndex], previewImage}]. *)
Definition attachPreviewImage (generatedPreviewImage : string) : Async unit :=
  history ← gets tasksRef;
  let lastIndex := Z.of_nat (length history) - 1 in
  if 0 <=? lastIndex then
    match history !! Z.to_nat lastIndex with
    | Some item =>
        modify (set_tasksRef
                  (<[Z.to_nat lastIndex :=
                       mkTask (text item) (Some generatedPreviewImage) (followUps item)]>
                     history));;
        publishTasks
    | None => mret tt
    end
  else mret tt.

Definition isStandardizedInstruction (textLower : string) : bool :=
  String.eqb textLower "done" || String.eqb textLower "done."
  || String.eqb textLower "wait" || String.eqb textLower "wait."
  || startsWith textLower "scroll down" || startsWith textLower "scroll up".

(** The preview of the step just appended: ask for a coordinate and, when
    a well-formed pair comes back, attach the annotated snapshot. *)
Definition requestPreview (actionText nonScaledImage : string)
    (r : GenerationReplies) : Async unit :=
  coordinates ← await (GenerateCoordinate actionText nonScaledImage)
                      (reply_coordinate r);
  match coordinates with
  | Some coordinates =>
      if truthy coordinates && coordinatePattern (trim coordinates) then
        generatedPreviewImage ←
          await (CreateCoordinateSnapshot nonScaledImage coordinates)
                (reply_snapshot r);
        match generatedPreviewImage with
        | Some image => whenever (truthy image) (attachPreviewImage image)
        | None => mret tt
        end
      else mret tt
  | None => mret tt
  end.

(** The statements of the [try] block of [triggerGenerateTaskDescription]
    that follow the appended step: the preview, and the start of change
    detection on the first step that is not "done". *)
Definition announceStep (actionText nonScaledImage : string)
    (r : GenerationReplies) : Async unit :=
  let isLink := startsWith actionText "https://" in
  let textLower := toLowerCase actionText in
  modify (set_isLoadingPreviewImage true);;
  whenever (negb isLink && negb (isStandardizedInstruction textLower)
            && truthy actionText)
    (requestPreview actionText nonScaledImage r);;
  modify (set_isLoadingPreviewImage false);;
  started ← gets changeDetectionStartedRef;
  whenever (negb started && truthy actionText
            && negb (String.eqb textLower "done")
            && negb (String.eqb textLower "done."))
    (modify (set_changeDetectionStartedRef true);;
     perform StartChangeDetectionCall).

(** The statements of the [try] block of [triggerGenerateTaskDescription]
    that follow the capture. *)
Definition generateStep (captured : CapturedImage) (r : GenerationReplies)
    : Async unit :=
  let imageDataUrl := scaledImageDataUrl captured in
  let nonScaledImage := nonScaledImageDataUrl captured in
  followUpContext ← mergePendingFollowUp;
  history ← gets tasksRef;
  currentGoal ← gets goal;
  action ← await (GenerateAction currentGoal imageDataUrl
                                 (map text history) osName followUpContext)
                 (reply_action r);
  modify (set_lastScreenshotRef imageDataUrl);;
  modify (fun st => set_totalTaskGeneration (totalTaskGeneration st + 1) st);;
  let actionText := trim action in
  modify (fun st => set_totalTaskCount (totalTaskCount st + 1) st);;
  history ← gets tasksRef;
  let newTaskItem := mkTask actionText None None in
  let newTasks :=
    List.filter (fun item => truthy (text item)) (history ++ [newTaskItem]) in
  modify (set_tasksRef newTasks);;
  modify (set_tasks newTasks);;
  modify (set_isLoading false);;
  announceStep actionText nonScaledImage r.

(** The [finally] block of [triggerGenerateTaskDescription]. *)
Definition releaseGeneration : Async unit :=
  modify (set_isTriggeringRef false);;
  modify (set_isLoading false);;
  modify (set_isLoadingPreviewImage false).

Definition triggerGenerateTaskDescription (hasExceededMaxSteps : bool)
    (r : GenerationReplies) : Async unit :=
  function (
    isTriggering ← gets isTriggeringRef;
    returnIf (hasExceededMaxSteps || isTriggering);;
    modify (set_isTriggeringRef true);;
    modify (set_isLoading true);;
    tryFinally
      (tryCatch
         (captured ← await (CaptureImageFromStream isUsingLocalProvider)
                           (reply_capture r);
          generateStep captured r)
         (perform ConsoleError))
      releaseGeneration).

(** The state in which the appended step is announced, when the action
    resolved to [action] in the state [merged] the merge left. *)
Definition appended (captured : CapturedImage) (action : string)
    (context : option FollowUpContext) (merged : TaskProvider) : TaskProvider :=
  let newTasks :=
    List.filter (fun item => truthy (text item))
                (tasksRef merged ++ [mkTask (trim action) None None]) in
  set_isLoading false
    (set_tasks newTasks
       (set_tasksRef newTasks
          (set_totalTaskCount (totalTaskCount merged + 1)
             (set_totalTaskGeneration (totalTaskGeneration merged + 1)
                (set_lastScreenshotRef (scaledImageDataUrl captured)
                   (set_trace
                      (trace merged ++
                       [GenerateAction (goal merged) (scaledImageDataUrl captured)
                          (map text (tasksRef merged)) osName context])
                      merged)))))).

(** The state the [try] block and its [catch] leave when the guard let the
    generation pass and the capture resolved to [captured]. *)
Definition attempt (captured : CapturedImage) (r : GenerationReplies)
    (st : TaskProvider) : TaskProvider :=
  snd (tryCatch (generateStep captured r) (perform ConsoleError)
         (set_trace (trace st ++ [CaptureImageFromStream isUsingLocalProvider])
            (set_isLoading true (set_isTriggeringRef true st)))).

Definition onNextTask (r : GenerationReplies) : Async unit :=
  function (
    exceeded ← gets hasExceededMaxSteps;
    returnIf exceeded;;
    triggerGenerateTaskDescription exceeded r).

Definition onRefreshTask (r : GenerationReplies) : Async unit :=
  function (
    exceeded ← gets hasExceededMaxSteps;
    returnIf exceeded;;
    history ← gets tasksRef;
    whenever (0 <? length history)%nat
      (modify (set_tasksRef (removelast history));;
       publishTasks;;
       modify (fun st => set_totalTaskCount (Z.max 0 (totalTaskCount st - 1)) st));;
    triggerGenerateTaskDescription exceeded r).

Definition triggerFirstTask (r : GenerationReplies) : Async unit :=
  function (
    exceeded ← gets hasExceededMaxSteps;
    returnIf exceeded;;
    triggerGenerateTaskDescription exceeded r).

Definition returnToTask (taskIndex : Z) : Async unit :=
  function (
    exceeded ← gets hasExceededMaxSteps;
    returnIf exceeded;;
    history ← gets tasksRef;
    returnIf ((taskIndex <? 0) || (Z.of_nat (length history) <=? taskIndex));;
    modify (set_isTriggeringRef false);;
    modify (set_checking false None);;
    modify (set_isLoading false);;
    modify (set_isLoadingPreviewImage false);;
    perform (SetIsAnalyzingScreenChangeCall false);;
    perform (PauseChangeDetectionTemporarilyCall 2000);;
    let newTasks := take (Z.to_nat (taskIndex + 1)) history in
    modify (set_tasksRef newTasks);;
    modify (set_tasks newTasks);;
    modify (set_totalTaskCount (Z.of_nat (length newTasks)))).

(** [currentTask.followUps ?? []]. *)
Definition followUpsOf (item : TaskHistoryItem) : list FollowUpItem :=
  default [] (followUps item).

(** Replace the follow-ups of the last step by [f] of them, when the
    history is not empty and [guard] accepts the present follow-ups. *)
Definition updateLastFollowUps (guard : list FollowUpItem -> bool)
    (f : list FollowUpItem -> list FollowUpItem) : Async unit :=
  history ← gets tasksRef;
  let lastIndex := Z.of_nat (length history) - 1 in
  if 0 <=? lastIndex then
    match history !! Z.to_nat lastIndex with
    | Some currentTask =>
        if guard (followUpsOf currentTask) then
          modify (set_tasksRef
                    (<[Z.to_nat lastIndex :=
                         mkTask (text currentTask) (previewImage currentTask)
                                (Some (f (followUpsOf currentTask)))]>
                       history));;
          publishTasks
        else mret tt
    | None => mret tt
    end
  else mret tt.

Definition addFollowUpToCurrentTask (followUp : FollowUpItem) : Async unit :=
  updateLastFollowUps (fun _ => true) (fun followUps => followUps ++ [followUp]).

Definition updateCurrentFollowUpAnswer (newAnswer : string) : Async unit :=
  updateLastFollowUps
    (fun followUps => (0 <? length followUps)%nat)
    (fun followUps =>
       let lastFollowUpIndex := (length followUps - 1)%nat in
       match followUps !! lastFollowUpIndex with
       | Some item =>
           <[lastFollowUpIndex := mkFollowUp (question item) newAnswer]> followUps
       | None => followUps
       end).

Definition removeLastFollowUpFromCurrentTask : Async unit :=
  updateLastFollowUps
    (fun followUps => (0 <? length followUps)%nat)
    (fun followUps => removelast followUps).

(** The callback [sendFollowUpMessage] gives to [generateHelpResponse].
    [locals] holds the closure variables
    [(hasAddedFollowUp, isRegenerating)]; the result is their new value. *)
Definition onStreamedMessage (question : string) (locals : bool * bool)
    (streamedMessage : string) : Async (bool * bool) :=
  let '(hasAddedFollowUp, isRegenerating) := locals in
  if isRegenerating then mret locals
  else if startsWith "Regenerate" streamedMessage then mret locals
  else if String.eqb (trim streamedMessage) "Regenerate" then
    whenever hasAddedFollowUp removeLastFollowUpFromCurrentTask;;
    mret (false, true)
  else if negb hasAddedFollowUp then
    addFollowUpToCurrentTask (mkFollowUp question streamedMessage);;
    mret (true, isRegenerating)
  else
    updateCurrentFollowUpAnswer streamedMessage;;
    mret locals.

(** The streaming phase of [generateHelpResponse]: the callback runs once
    per partial message. *)
Fixpoint streamPartials (question : string) (locals : bool * bool)
    (stream : list string) : Async (bool * bool) :=
  match stream with
  | [] => mret locals
  | streamedMessage :: rest =>
      locals ← onStreamedMessage question locals streamedMessage;
      streamPartials question locals rest
  end.

(** The settlement of a call whose request was already recorded. *)
Definition settle {A} (outcome : Outcome A) : Async A :=
  fun st =>
    match outcome with
    | Resolved a => (Normal a, st)
    | Rejected => (Thrown, st)
    end.

(** [sendFollowUpMessage].  The source has one [try]/[catch] whose handler
    reads [hasAddedFollowUp]: the variable is still [false] when the capture
    rejects, and holds what the stream left when [generateHelpResponse]
    rejects; the two handlers below are that one handler at these two
    points.  The regeneration is started with the [hasExceededMaxSteps] this
    closure was created with. *)
Definition sendFollowUpMessage (question : option string)
    (r : FollowUpReplies) : Async unit :=
  function (
    match question with
    | None => returnNow
    | Some question =>
        returnIf (negb (truthy question));;
        exceeded ← gets hasExceededMaxSteps;
        perform (TrackFollowupQuestionAsked question);;
        modify (set_isLoadingFollowUp true);;
        tryCatch
          (captured ← await (CaptureImageFromStream isUsingLocalProvider)
                            (reply_followUpCapture r);
           let imageDataUrl := scaledImageDataUrl captured in
           history ← gets tasksRef;
           let currentTaskText :=
             match last history with
             | Some item => text item
             | None => ""
             end in
           currentGoal ← gets goal;
           perform (GenerateHelpResponse currentGoal imageDataUrl question
                                         currentTaskText);;
           '(hasAddedFollowUp, _) ←
             streamPartials question (false, false) (reply_stream r);
           tryCatch
             (helpText ← settle (reply_help r);
              if String.eqb (trim helpText) "Regenerate" then
                whenever hasAddedFollowUp removeLastFollowUpFromCurrentTask;;
                modify (set_pendingFollowUpRef question);;
                modify (set_isLoadingFollowUp false);;
                triggerGenerateTaskDescription exceeded (reply_regeneration r);;
                returnNow
              else
                whenever (negb hasAddedFollowUp)
                  (addFollowUpToCurrentTask (mkFollowUp question helpText));;
                perform (TrackFollowupResponseReceived question))
             (perform ConsoleError;;
              whenever hasAddedFollowUp removeLastFollowUpFromCurrentTask))
          (perform ConsoleError);;
        modify (set_isLoadingFollowUp false)
    end).

(** *** The ceiling effect and runs of the component *)

(** The body of the effect that reports the ceiling. *)
Definition maxStepsEffect : Async unit :=
  exceeded ← gets hasExceededMaxSteps;
  generation ← gets totalTaskGeneration;
  if exceeded && (generation =? MAX_STEPS) then perform TrackMaxStepsExceeded
  else mret tt.

(** The dependencies of the effect that change from render to render. *)
Definition effectDeps (st : TaskProvider) : bool * Z :=
  (hasExceededMaxSteps st, totalTaskGeneration st).

Definition sameDeps (a b : bool * Z) : bool :=
  Bool.eqb (fst a) (fst b) && (snd a =? snd b).

(** A render followed by its effects: React runs the effect after the
    first render and after each render whose dependencies differ from those
    of the render before. *)
Definition commitRender (previous : option (bool * Z)) (st : TaskProvider)
    : (bool * Z) * TaskProvider :=
  let deps := effectDeps st in
  let runs := match previous with
              | Some old => negb (sameDeps old deps)
              | None => true
              end in
  (deps, if runs then snd (maxStepsEffect st) else st).

(** What a consumer may do between two renders. *)
Inductive Op :=
| OnNextTask (r : GenerationReplies)
| OnRefreshTask (r : GenerationReplies)
| TriggerFirstTask (r : GenerationReplies)
| ReturnToTask (taskIndex : Z)
| SendFollowUpMessage (question : option string) (r : FollowUpReplies).

Definition handler (op : Op) : Async unit :=
  match op with
  | OnNextTask r => onNextTask r
  | OnRefreshTask r => onRefreshTask r
  | TriggerFirstTask r => triggerFirstTask r
  | ReturnToTask taskIndex => returnToTask taskIndex
  | SendFollowUpMessage question r => sendFollowUpMessage question r
  end.

(** One handler of the latest render runs, then the component renders. *)
Definition stepOp (acc : (bool * Z) * TaskProvider) (op : Op)
    : (bool * Z) * TaskProvider :=
  let '(deps, st) := acc in
  commitRender (Some deps) (snd (handler op st)).

(** The component after mounting for a goal and serving [ops]. *)
Definition runOps (ops : list Op) : (bool * Z) * TaskProvider :=
  foldl stepOp (commitRender None initialTaskProvider) ops.


End Orchestrator.

(** ** Vocabulary of the properties *)

Section ChangeDetectionVocabulary.

Variable platform : Platform.

(** The rasteriser paints inside the canvas: it keeps its dimensions and
    the length of its array. *)
Definition keepsShape : Prop :=
  forall canvas x y w h,
    width (fillRect platform canvas x y w h) = width canvas /\
    height (fillRect platform canvas x y w h) = height canvas /\
    length (data (fillRect platform canvas x y w h)) = length (data canvas).

(** The one analysis frame, and the snapshots the run presents. *)
Variable F : ImageData.
Variable fed : Snapshot -> Prop.

(** A loop with a positive threshold that samples [F] from every snapshot. *)
Definition goodLoop (loop : DetectionLoop) : Prop :=
  (0 < threshold loop)%Q /\
  forall env img, fed env ->
    analysisFrame platform loop env = Some img -> img = F.

Definition goodCallback (entry : TimerCallback * Z) : Prop :=
  match fst entry with
  | RunDetection loop => goodLoop loop
  | CaptureAfterChange _ _ _ _ => False
  | TemporaryResume => True
  end.

(** What holds of the store all along such a run. *)
Definition quiet (s : ScreenShare) : Prop :=
  onChangeCalls s = [] /\
  (forall p, previousImageData s = Some p -> p = F) /\
  map_Forall (fun _ entry => goodCallback entry) (timers s) /\
  map_Forall (fun _ loop => goodLoop loop) (awaitingMetadata s).

Definition goodEvent (e : Event) : Prop :=
  match e with
  | StartChangeDetection options => forall video, goodLoop (loopOf video options)
  | Fire _ env => fed env
  | _ => True
  end.

End ChangeDetectionVocabulary.




(** What a consumer reads of a step: its text, its preview and its
    follow-ups, an absent list reading as the empty one. *)
Definition summary (item : TaskHistoryItem)
    : string * option string * list FollowUpItem :=
  (text item, previewImage item, followUpsOf item).

Definition sameHistory (l1 l2 : list TaskHistoryItem) : Prop :=
  map summary l1 = map summary l2.


Definition withFollowUps (item : TaskHistoryItem) (l : list FollowUpItem)
    : TaskHistoryItem :=
  mkTask (text item) (previewImage item) (Some l).


(** ** Concrete inputs used by the examples *)

Module Examples.

(** A rasteriser without anti-aliasing: [fillRect] paints opaque black the
    pixels whose centre lies in the rectangle. *)
Definition fillRectPixels (canvas : ImageData) (x y w h : Q) : ImageData :=
  let covered (px py : Z) : bool :=
    let cx := (inject_Z px + (1 # 2))%Q in
    let cy := (inject_Z py + (1 # 2))%Q in
    Qle_bool x cx && negb (Qle_bool (x + w) cx)
    && Qle_bool y cy && negb (Qle_bool (y + h) cy) in
  mkImageData (width canvas) (height canvas)
    (foldl (fun data py =>
              foldl (fun data px =>
                       if covered px py
                       then blackoutPixel data ((py * width canvas + px) * 4)
                       else data)
                    data (seqZ 0 (width canvas)))
           (data canvas) (seqZ 0 (height canvas))).

(** A 20 x 20 source showing one colour, drawn at any canvas size. *)
Definition solidVideo (byte : Z) : VideoFrame :=
  mkVideoFrame 20 20 (fun w h => replicate (Z.to_nat (4 * (w * h))) byte).

Definition whiteVideo : VideoFrame := solidVideo 255.

(** An overlay window over the top-left quarter of a 20 x 20 screen. *)
Definition overlay : PipDetails := mkPipDetails 0 0 10 10 true true.

Definition showing (video : VideoFrame) (pip : option PipDetails) : Snapshot :=
  mkSnapshot video pip true true true.

Definition defaultOptions : ChangeDetectionOptions :=
  mkOptions None None None None.

(** A 20 x 20 screen with the rasteriser above, and a session on it. *)
Definition browser : Platform := mkPlatform 20 20 fillRectPixels.

Definition runExample : list Event -> ScreenShare -> ScreenShare :=
  run browser.


(** The source never changes: every tick sees white. *)
Definition stillScenario : list Event :=
  [StartSharing 0; StartChangeDetection defaultOptions; LoadedMetadata 0;
   Fire 1 (showing whiteVideo (Some overlay));
   Fire 2 (showing whiteVideo (Some overlay));
   PauseChangeDetection;
   Fire 3 (showing whiteVideo (Some overlay));
   ResumeChangeDetection;
   Fire 4 (showing whiteVideo (Some overlay));
   Fire 5 (showing whiteVideo (Some overlay))].

(** A temporary pause is armed, then detection is stopped. *)
Definition pauseThenStop : list Event :=
  [StartSharing 0; StartChangeDetection defaultOptions; LoadedMetadata 0;
   PauseChangeDetectionTemporarily (Some 2000); StopChangeDetection].

(** Detection is started again, records a baseline and is paused. *)
Definition restartAndPause : list Event :=
  [StartChangeDetection defaultOptions; LoadedMetadata 1;
   Fire 3 (showing whiteVideo None); PauseChangeDetection].

End Examples.

(** ** Concrete replies used by the examples *)

Module OrchestratorExamples.

(** Replies of the collaborators. *)
Definition capturedFrame : CapturedImage := mkCaptured "frame" "frame-full".

Definition gearReplies : GenerationReplies :=
  mkGenerationReplies (Resolved capturedFrame) (Resolved "Click the gear icon")
                      (Resolved (Some "10, 20")) (Resolved (Some "preview")).

Definition failingReplies : GenerationReplies :=
  mkGenerationReplies (Resolved capturedFrame) Rejected
                      (Resolved None) (Resolved None).

Definition blankReplies : GenerationReplies :=
  mkGenerationReplies (Resolved capturedFrame) (Resolved "   ")
                      (Resolved None) (Resolved None).

(** The help stream spells the sentinel and the final text is the sentinel;
    the regeneration it starts is answered by [regeneration]. *)
Definition regenerateReplies (regeneration : GenerationReplies) : FollowUpReplies :=
  mkFollowUpReplies (Resolved capturedFrame) ["Reg"; "Regen"; "Regenerate"]
                    (Resolved "Regenerate") regeneration.


End OrchestratorExamples.

(** ** Chat messages: [convertToOpenAIMessages] *)

Module Messages.

(** [data?: unknown] of a part is never read and is left out. *)
Record ClientMessagePart := mkPart {
  type : string;
  text : option string;
  contentType : option string;
  mediaType : option string;
  url : option string
}.

(** [ClientAttachment]: its [contentType] and [url]. *)
Record ClientAttachment := mkAttachment {
  attachmentContentType : string;
  attachmentUrl : string
}.

Record ClientMessage := mkMessage {
  role : string;
  content : option string;
  parts : option (list ClientMessagePart);
  experimental_attachments : option (list ClientAttachment)
}.

(** An element of [messageParts]: [{type: "text", text}] or
    [{type: "image_url", image_url: {url}}]. *)
Inductive MessagePart :=
| TextPart (text : string)
| ImageUrlPart (url : string).

(** [content]: a string or the array of parts. *)
Inductive ContentPayload :=
| PayloadText (s : string)
| PayloadParts (messageParts : list MessagePart).

Record ChatCompletionMessageParam := mkParam {
  paramRole : string;
  paramContent : ContentPayload
}.

(** Truthiness of an optional string: [undefined] and [""] are falsy. *)
Definition truthyOption (s : option string) : bool :=
  match s with
  | Some s => truthy s
  | None => false
  end.

(** [s || ""]. *)
Definition orEmpty (s : option string) : string :=
  match s with
  | Some s => if truthy s then s else ""
  | None => ""
  end.

(** [s && s.startsWith(p)]. *)
Definition startsWithOption (s : option string) (p : string) : bool :=
  match s with
  | Some s => truthy s && startsWith s p
  | None => false
  end.

(** The body of [for (const part of message.parts)]. *)
Definition pushPart (messageParts : list MessagePart) (part : ClientMessagePart)
    : list MessagePart :=
  if String.eqb (type part) "text" then
    messageParts ++ [TextPart (orEmpty (text part))]
  else if String.eqb (type part) "file" then
    let isImage :=
      startsWithOption (contentType part) "image"
      || startsWithOption (mediaType part) "image" in
    if isImage && truthyOption (url part) then
      messageParts ++ [ImageUrlPart (orEmpty (url part))]
    else if truthyOption (url part) then
      messageParts ++ [TextPart (orEmpty (url part))]
    else messageParts
  else messageParts.

(** The body of [for (const attachment of message.experimental_attachments)]. *)
Definition pushAttachment (messageParts : list MessagePart)
    (attachment : ClientAttachment) : list MessagePart :=
  if startsWith (attachmentContentType attachment) "image" then
    messageParts ++ [ImageUrlPart (attachmentUrl attachment)]
  else if startsWith (attachmentContentType attachment) "text" then
    messageParts ++ [TextPart (attachmentUrl attachment)]
  else messageParts.

(** [messageParts] when the two loops are over.  An array, empty or not, is
    truthy. *)
Definition messagePartsOf (message : ClientMessage) : list MessagePart :=
  let messageParts :=
    match parts message with
    | Some ps => foldl pushPart [] ps
    | None =>
        match content message with
        | Some c => [TextPart c]
        | None => []
        end
    end in
  match parts message, experimental_attachments message with
  | None, Some attachments => foldl pushAttachment messageParts attachments
  | _, _ => messageParts
  end.

Definition contentPayload (messageParts : list MessagePart) : ContentPayload :=
  if (0 <? length messageParts)%nat then
    match messageParts with
    | [TextPart t] => PayloadText (if truthy t then t else "")
    | _ => PayloadParts messageParts
    end
  else PayloadText "".

(** The body of [for (const message of messages)]: what is pushed. *)
Definition convertMessage (message : ClientMessage) : ChatCompletionMessageParam :=
  mkParam (role message) (contentPayload (messagePartsOf message)).

Definition convertToOpenAIMessages (messages : list ClientMessage)
    : list ChatCompletionMessageParam :=
  foldl (fun openaiMessages message => openaiMessages ++ [convertMessage message])
        [] messages.

(** A message of the plain form [{role, content}]. *)
Definition plainMessage (m : string * string) : ClientMessage :=
  mkMessage (fst m) (Some (snd m)) None None.

(** What a well-formed array payload looks like: two parts or more, or one
    image. *)
Definition properPayload (c : ContentPayload) : Prop :=
  match c with
  | PayloadText _ => True
  | PayloadParts l => (2 <= length l)%nat \/ exists u, l = [ImageUrlPart u]
  end.

(** The image addresses a payload carries, in order. *)
Definition imageUrls (c : ContentPayload) : list string :=
  match c with
  | PayloadText _ => []
  | PayloadParts l =>
      omap (fun p => match p with
                     | ImageUrlPart u => Some u
                     | TextPart _ => None
                     end) l
  end.

(** A part that is an image file with an address. *)
Definition imageFile (part : ClientMessagePart) : option string :=
  match url part with
  | Some u =>
      if String.eqb (type part) "file" && truthy u
         && (startsWithOption (contentType part) "image"
             || startsWithOption (mediaType part) "image")
      then Some u else None
  | None => None
  end.

End Messages.

(** ** Product analytics: [AnalyticsProvider] *)

Module Analytics.

Record QuestionSession := mkSession {
  id : string;
  questionText : string;
  startTime : Z;
  stepsCompleted : Z
}.

Inductive SessionOutcome := completed | abandoned | max_steps | started_over.

Inductive FeedbackType := positive | negative.

(** The value of [getSessionProperties()]: the empty object, or
    [{question_session_id, question_text}]. *)
Definition SessionProperties := option (string * string).

(** [posthog.capture(event, properties)]: the event with its properties;
    [session] stands for the spread [...getSessionProperties()]. *)
Inductive Capture :=
| question_session_started (question_session_id question_text : string)
| question_session_ended (question_session_id question_text : string)
    (total_duration_ms steps_completed : Z) (outcome : SessionOutcome)
| suggested_action_clicked (session : SessionProperties) (action : string)
| screenshare_accepted (session : SessionProperties)
| screenshare_declined (session : SessionProperties)
| screenshare_started (session : SessionProperties)
| task_refreshed (session : SessionProperties) (task_text : string) (step_number : Z)
| task_completed (session : SessionProperties) (task_text : string) (step_number : Z)
| all_tasks_completed (session : SessionProperties)
    (steps_completed total_duration_ms : Z)
| followup_question_asked (session : SessionProperties) (followup_question : string)
| followup_response_received (session : SessionProperties)
    (followup_question : string)
| max_steps_exceeded (session : SessionProperties) (steps_completed : Z)
| start_over_clicked (session : SessionProperties)
    (steps_completed total_duration_ms : Z)
| feedback_submitted (session : SessionProperties) (feedback_type : FeedbackType)
    (feedback_text : string).

(** [sessionRef.current] and what was handed to [posthog.capture], oldest
    first. *)
Record Analytics := mkAnalytics {
  sessionRef : option QuestionSession;
  captured : list Capture
}.

Definition initialAnalytics : Analytics := mkAnalytics None [].

Definition capture (event : Capture) (a : Analytics) : Analytics :=
  mkAnalytics (sessionRef a) (captured a ++ [event]).

Definition getSessionProperties (a : Analytics) : SessionProperties :=
  match sessionRef a with
  | None => None
  | Some session => Some (id session, questionText session)
  end.

(** [sessionRef.current?.stepsCompleted ?? 0]. *)
Definition stepsSoFar (a : Analytics) : Z :=
  match sessionRef a with
  | Some session => stepsCompleted session
  | None => 0
  end.

(** [sessionRef.current ? Date.now() - sessionRef.current.startTime : 0]. *)
Definition durationSoFar (now : Z) (a : Analytics) : Z :=
  match sessionRef a with
  | Some session => now - startTime session
  | None => 0
  end.

(** Each [now] below is the value one call of [Date.now()] returns. *)
Definition endQuestionSession (outcome : SessionOutcome) (now : Z)
    (a : Analytics) : Analytics :=
  match sessionRef a with
  | None => a
  | Some session =>
      let totalDuration := now - startTime session in
      let a := capture (question_session_ended (id session) (questionText session)
                          totalDuration (stepsCompleted session) outcome) a in
      mkAnalytics None (captured a)
  end.

(** [sessionId] is the value of [crypto.randomUUID()]; the result is the
    returned identifier and the new state. *)
Definition startQuestionSession (questionText sessionId : string)
    (nowEnded nowStarted : Z) (a : Analytics) : string * Analytics :=
  let a :=
    match sessionRef a with
    | Some _ => endQuestionSession started_over nowEnded a
    | None => a
    end in
  let a := mkAnalytics (Some (mkSession sessionId questionText nowStarted 0))
                       (captured a) in
  (sessionId, capture (question_session_started sessionId questionText) a).

Definition trackSuggestedActionClicked (action : string) (a : Analytics) : Analytics :=
  capture (suggested_action_clicked (getSessionProperties a) action) a.

Definition trackScreenshareAccepted (a : Analytics) : Analytics :=
  capture (screenshare_accepted (getSessionProperties a)) a.

Definition trackScreenshareDeclined (a : Analytics) : Analytics :=
  capture (screenshare_declined (getSessionProperties a)) a.

Definition trackScreenshareStarted (a : Analytics) : Analytics :=
  capture (screenshare_started (getSessionProperties a)) a.

Definition trackTaskRefreshed (taskText : string) (stepNumber : Z)
    (a : Analytics) : Analytics :=
  capture (task_refreshed (getSessionProperties a) taskText stepNumber) a.

Definition trackTaskCompleted (taskText : string) (stepNumber : Z)
    (a : Analytics) : Analytics :=
  let a :=
    match sessionRef a with
    | Some session =>
        mkAnalytics (Some (mkSession (id session) (questionText session)
                                     (startTime session)
                                     (stepsCompleted session + 1)))
                    (captured a)
    | None => a
    end in
  capture (task_completed (getSessionProperties a) taskText stepNumber) a.

Definition trackAllTasksCompleted (now nowEnded : Z) (a : Analytics) : Analytics :=
  let a := capture (all_tasks_completed (getSessionProperties a) (stepsSoFar a)
                                        (durationSoFar now a)) a in
  endQuestionSession completed nowEnded a.

Definition trackFollowupQuestionAsked (question : string) (a : Analytics) : Analytics :=
  capture (followup_question_asked (getSessionProperties a) question) a.

Definition trackFollowupResponseReceived (question : string)
    (a : Analytics) : Analytics :=
  capture (followup_response_received (getSessionProperties a) question) a.

Definition trackMaxStepsExceeded (nowEnded : Z) (a : Analytics) : Analytics :=
  let a := capture (max_steps_exceeded (getSessionProperties a) (stepsSoFar a)) a in
  endQuestionSession max_steps nowEnded a.

Definition trackStartOverClicked (now nowEnded : Z) (a : Analytics) : Analytics :=
  let a := capture (start_over_clicked (getSessionProperties a) (stepsSoFar a)
                                       (durationSoFar now a)) a in
  endQuestionSession started_over nowEnded a.

Definition trackFeedbackSubmit (type : FeedbackType) (feedbackText : string)
    (a : Analytics) : Analytics :=
  capture (feedback_submitted (getSessionProperties a) type feedbackText) a.

Definition getCurrentSessionId (a : Analytics) : option string :=
  match sessionRef a with
  | Some session => Some (id session)
  | None => None
  end.

(** The [beforeunload] listener. *)
Definition handleBeforeUnload (now : Z) (a : Analytics) : Analytics :=
  match sessionRef a with
  | Some _ => endQuestionSession abandoned now a
  | None => a
  end.

(** What a consumer of the context, or the window, may do. *)
Inductive Call :=
| StartQuestionSession (questionText sessionId : string) (nowEnded nowStarted : Z)
| EndQuestionSession (outcome : SessionOutcome) (now : Z)
| TrackSuggestedActionClicked (action : string)
| TrackScreenshareAccepted
| TrackScreenshareDeclined
| TrackScreenshareStarted
| TrackTaskRefreshed (taskText : string) (stepNumber : Z)
| TrackTaskCompleted (taskText : string) (stepNumber : Z)
| TrackAllTasksCompleted (now nowEnded : Z)
| TrackFollowupQuestionAsked (question : string)
| TrackFollowupResponseReceived (question : string)
| TrackMaxStepsExceeded (nowEnded : Z)
| TrackStartOverClicked (now nowEnded : Z)
| TrackFeedbackSubmit (type : FeedbackType) (feedbackText : string)
| BeforeUnload (now : Z).

Definition call (a : Analytics) (c : Call) : Analytics :=
  match c with
  | StartQuestionSession questionText sessionId nowEnded nowStarted =>
      snd (startQuestionSession questionText sessionId nowEnded nowStarted a)
  | EndQuestionSession outcome now => endQuestionSession outcome now a
  | TrackSuggestedActionClicked action => trackSuggestedActionClicked action a
  | TrackScreenshareAccepted => trackScreenshareAccepted a
  | TrackScreenshareDeclined => trackScreenshareDeclined a
  | TrackScreenshareStarted => trackScreenshareStarted a
  | TrackTaskRefreshed taskText stepNumber => trackTaskRefreshed taskText stepNumber a
  | TrackTaskCompleted taskText stepNumber => trackTaskCompleted taskText stepNumber a
  | TrackAllTasksCompleted now nowEnded => trackAllTasksCompleted now nowEnded a
  | TrackFollowupQuestionAsked question => trackFollowupQuestionAsked question a
  | TrackFollowupResponseReceived question => trackFollowupResponseReceived question a
  | TrackMaxStepsExceeded nowEnded => trackMaxStepsExceeded nowEnded a
  | TrackStartOverClicked now nowEnded => trackStartOverClicked now nowEnded a
  | TrackFeedbackSubmit type feedbackText => trackFeedbackSubmit type feedbackText a
  | BeforeUnload now => handleBeforeUnload now a
  end.

(** The provider after mounting and serving [calls]. *)
Definition calls (cs : list Call) : Analytics := foldl call initialAnalytics cs.

(** *** Reading the captured events back *)

(** The session properties an event was captured with, for the events that
    spread [getSessionProperties()]. *)
Definition filedUnder (event : Capture) : option SessionProperties :=
  match event with
  | question_session_started _ _ => None
  | question_session_ended _ _ _ _ _ => None
  | suggested_action_clicked session _ => Some session
  | screenshare_accepted session => Some session
  | screenshare_declined session => Some session
  | screenshare_started session => Some session
  | task_refreshed session _ _ => Some session
  | task_completed session _ _ => Some session
  | all_tasks_completed session _ _ => Some session
  | followup_question_asked session _ => Some session
  | followup_response_received session _ => Some session
  | max_steps_exceeded session _ => Some session
  | start_over_clicked session _ _ => Some session
  | feedback_submitted session _ _ => Some session
  end.

Definition sameSession (a b : SessionProperties) : bool :=
  bool_decide (a = b).

(** Replays the events from the open session [open] (none at first): a
    session starts only when none is open, an end closes the open session
    and names it, every other event is filed under the open session or,
    when none is open, under none.  [None]: some event breaks this;
    [Some open']: none does, and [open'] is open at the end. *)
Fixpoint replay (open : SessionProperties) (events : list Capture)
    : option SessionProperties :=
  match events with
  | [] => Some open
  | question_session_started i q :: rest =>
      match open with
      | None => replay (Some (i, q)) rest
      | Some _ => None
      end
  | question_session_ended i q _ _ _ :: rest =>
      if sameSession open (Some (i, q)) then replay None rest else None
  | event :: rest =>
      if sameSession (default None (filedUnder event)) open
      then replay open rest else None
  end.

(** The step count an event reports, for the events that report one. *)
Definition reportedSteps (event : Capture) : option Z :=
  match event with
  | question_session_ended _ _ _ steps _ => Some steps
  | all_tasks_completed _ steps _ => Some steps
  | max_steps_exceeded _ steps => Some steps
  | start_over_clicked _ steps _ => Some steps
  | _ => None
  end.

(** Counts the [task_completed] events of the open session and compares
    every reported step count with the count so far (0 outside a session).
    [count] is the count of the open session, if one is open. *)
Fixpoint recount (count : option Z) (events : list Capture) : option (option Z) :=
  match events with
  | [] => Some count
  | event :: rest =>
      if match reportedSteps event with
         | Some steps => steps =? default 0 count
         | None => true
         end
      then
        match event with
        | question_session_started _ _ => recount (Some 0) rest
        | question_session_ended _ _ _ _ _ => recount None rest
        | task_completed _ _ _ => recount ((fun n => n + 1) <$> count) rest
        | _ => recount count rest
        end
      else None
  end.

End Analytics.

(** ** One-off captures: [captureImageFromStream] *)

Module Capture.

Inductive ImageSize := sm | md | lg.

Record CaptureImageOptions := mkCaptureImageOptions {
  whiteout : option bool;
  size : option ImageSize;
  isLocalLlm : option bool
}.

(** [maxPixels]: the pixel budget the options select. *)
Definition maxPixelsOf (options : option CaptureImageOptions) : Z :=
  match options with
  | Some o =>
      match size o with
      | Some sm => 800000
      | _ => if default false (isLocalLlm o) then 1000000 else imagePixelSize
      end
  | None => imagePixelSize
  end.

(** [options?.whiteout]. *)
Definition wantsWhiteout (options : option CaptureImageOptions) : bool :=
  match options with
  | Some o => default false (whiteout o)
  | None => false
  end.

(** How the returned promise stands when the capture is over: resolved
    with the two data URLs, rejected, or never settled (an exception thrown
    inside the timer callback reaches neither [resolve] nor [reject]). *)
Inductive Settlement :=
| Resolves (scaledImageDataUrl nonScaledImageDataUrl : DataUrl)
| Rejects
| NeverSettles.

(** What the capture's own video element meets: [onloadedmetadata] and then
    the 100 ms timer, which runs in the snapshot [env]; or [onerror]. *)
Inductive VideoOutcome :=
| MetadataLoaded (env : Snapshot)
| VideoError.

(** What the capture leaves in the document of what it appended. *)
Record Leftovers := mkLeftovers {
  videoLeft : bool;
  overlayLeft : bool
}.

Section Capture.

Variable platform : Platform.

Definition captureImageFromStream (options : option CaptureImageOptions)
    (outcome : VideoOutcome) (s : ScreenShare) : Settlement * Leftovers :=
  match stream s with
  | None => (Resolves EmptyUrl EmptyUrl, mkLeftovers false false)
  | Some _ =>
      (* the video is appended, and the overlay if [whiteout] is asked for *)
      match outcome with
      | VideoError =>
          (* video.remove(); reject(...) *)
          (Rejects, mkLeftovers false (wantsWhiteout options))
      | MetadataLoaded env =>
          let video := snap_video env in
          let maxPixels := maxPixelsOf options in
          let '(width, height) :=
            getScaledDimensions (videoWidth video) (videoHeight video) maxPixels in
          if negb (snap_ctx env) then
            (Rejects, mkLeftovers true (wantsWhiteout options))
          else
            match grabMasked platform video (snap_pip env) width height with
            | None => (NeverSettles, mkLeftovers true (wantsWhiteout options))
            | Some imageData =>
                (Resolves (Jpeg imageData) (archivalUrl env),
                 mkLeftovers false false)
            end
      end
  end.

End Capture.

End Capture.

(** ** Vocabulary of the store invariants *)

(** Every pending timer that ends a temporary pause is the one the store
    remembers. *)
Definition pauseTimerKnown (s : ScreenShare) : Prop :=
  forall id ms,
    timers s !! id = Some (TemporaryResume, ms) -> temporaryPauseTimer s = Some id.

(** [s'] has the temporary-pause timers of [s] at most, and remembers the
    same one. *)
Definition pauseTimersKept (s s' : ScreenShare) : Prop :=
  temporaryPauseTimer s' = temporaryPauseTimer s /\
  forall id ms,
    timers s' !! id = Some (TemporaryResume, ms) ->
    timers s !! id = Some (TemporaryResume, ms).

(** A stream is held exactly when [isSharing] is set, and detection is
    enabled only then. *)
Definition sharingConsistent (s : ScreenShare) : Prop :=
  isSharing s = bool_decide (is_Some (stream s)) /\
  (changeDetectionEnabled s = true -> is_Some (stream s)).

Definition isStartSharing (e : Event) : bool :=
  match e with
  | StartSharing _ => true
  | _ => false
  end.

(** The store before anything was shared. *)
Definition dormant (s : ScreenShare) : Prop :=
  stream s = None /\ changeDetectionEnabled s = false /\
  isChangeDetectionPaused s = false /\ timers s = ∅ /\
  awaitingMetadata s = ∅ /\ hiddenVideos s = [] /\ onChangeCalls s = [] /\
  previousImageData s = None.

(** ** Concrete inputs for the store and the capture *)

Module StoreExamples.

(** The 20 x 20 white source with the overlay window shown. *)
Definition whiteScreen : Snapshot :=
  Examples.showing Examples.whiteVideo (Some Examples.overlay).

(** A store that holds a stream. *)
Definition sharing : ScreenShare := startSharing 0 initialStore.


(** Calls and events on a store that was never given a stream. *)
Definition neverShared : list Event :=
  [StartChangeDetection Examples.defaultOptions;
   PauseChangeDetectionTemporarily None; LoadedMetadata 0;
   Fire 1 whiteScreen; ResumeChangeDetection; StopSharing].

End StoreExamples.

(** ** Step-completion checks and [reset]: the rest of [TaskProvider] *)

Module Watch.

(** The calls [handleScreenChange], [processScreenChange] and [reset] make
    outside the component. *)
Inductive WatchCall :=
| CheckStepCompletion (taskDescription lastScreenshot scaledImage : string)
| SetIsAnalyzingScreenChange (value : bool)
| StopChangeDetection
| ConsoleErrorCall.

(** The component with the state these functions add to what
    [TaskProvider] holds: the counter [autoCompleteTriggered], and the calls
    above, oldest first. *)
Record Watcher := mkWatcher {
  provider : TaskProvider;
  autoCompleteTriggered : Z;
  watchCalls : list WatchCall
}.

Definition initialWatcher : Watcher := mkWatcher initialTaskProvider 0 [].

Definition withProvider (f : TaskProvider -> TaskProvider) (w : Watcher) : Watcher :=
  mkWatcher (f (provider w)) (autoCompleteTriggered w) (watchCalls w).

Definition log (c : WatchCall) (w : Watcher) : Watcher :=
  mkWatcher (provider w) (autoCompleteTriggered w) (watchCalls w ++ [c]).

(** [isCheckingStepRef.current = v]. *)
Definition setChecking (v : bool) (w : Watcher) : Watcher :=
  withProvider (fun st => set_checking v (pendingCheckImageRef st) st) w.

(** [pendingCheckImageRef.current = v]. *)
Definition setPending (v : option string) (w : Watcher) : Watcher :=
  withProvider (fun st => set_checking (isCheckingStepRef st) v st) w.

(** [setIsAnalyzingScreenChange(false)]. *)
Definition analysisOver (w : Watcher) : Watcher :=
  log (SetIsAnalyzingScreenChange false) w.

(** What the environment does while one [checkStepCompletion] is awaited:
    the frames the change detector hands to [handleScreenChange] meanwhile,
    in order, and then how the check ends. *)
Record CheckReply := mkCheckReply {
  arrivals : list string;
  verdict : Outcome bool
}.

(** Where an asynchronous function stands when the replies are used up:
    settled, or still awaiting a check that was not answered. *)
Inductive Progress :=
| Settled (w : Watcher)
| Awaiting (w : Watcher).

Definition watcherOf (p : Progress) : Watcher :=
  match p with
  | Settled w => w
  | Awaiting w => w
  end.

(** The branch of [handleScreenChange] taken while a check is running. *)
Definition queueFrame (scaledImage : string) (w : Watcher) : Watcher :=
  setPending (Some scaledImage) w.

(** [taskDescription]. *)
Definition taskDescriptionOf (currentTaskText : string) : string :=
  let taskLower := toLowerCase currentTaskText in
  let isLink := startsWith currentTaskText "https://" in
  let isWait := String.eqb taskLower "wait" in
  if isLink then "Navigate to " ++ currentTaskText
  else if isWait then "Wait for the window to finish loading"
  else currentTaskText.

(** [tasksRef.current[tasksRef.current.length - 1]?.text]. *)
Definition currentTaskTextOf (st : TaskProvider) : option string :=
  match last (tasksRef st) with
  | Some item => Some (text item)
  | None => None
  end.

(** [processScreenChange].  While the check is awaited [isCheckingStepRef]
    is set, so every frame that arrives is queued by [handleScreenChange];
    the call on the pending frame is answered by the next reply. *)
Fixpoint processScreenChange (replies : list CheckReply) (scaledImage : string)
    (w : Watcher) : Progress :=
  let st := provider w in
  match currentTaskTextOf st with
  | None => Settled (analysisOver w)
  | Some currentTaskText =>
      if negb (truthy currentTaskText) || isTriggeringRef st then
        Settled (analysisOver w)
      else
        let taskLower := toLowerCase currentTaskText in
        if String.eqb taskLower "done" || String.eqb taskLower "done." then
          Settled (analysisOver w)
        else
          let taskDescription := taskDescriptionOf currentTaskText in
          let w := setChecking true w in
          if negb (truthy (lastScreenshotRef st)) then
            Settled (analysisOver (setChecking false w))
          else
            let w := log (CheckStepCompletion taskDescription
                            (lastScreenshotRef st) scaledImage) w in
            match replies with
            | [] => Awaiting w
            | reply :: rest =>
                let w := foldl (fun w image => queueFrame image w) w
                               (arrivals reply) in
                match verdict reply with
                | Rejected =>
                    Settled (analysisOver (setChecking false (log ConsoleErrorCall w)))
                | Resolved isCompleted =>
                    let w := setChecking false w in
                    let pendingImage := pendingCheckImageRef (provider w) in
                    let w := setPending None w in
                    if isCompleted then
                      let w := analysisOver w in
                      Settled (mkWatcher (provider w) (autoCompleteTriggered w + 1)
                                         (watchCalls w))
                    else
                      match pendingImage with
                      | Some image =>
                          if truthy image then processScreenChange rest image w
                          else Settled (analysisOver w)
                      | None => Settled (analysisOver w)
                      end
                end
            end
  end.

Definition handleScreenChange (replies : list CheckReply) (scaledImage : string)
    (w : Watcher) : Progress :=
  if isCheckingStepRef (provider w) then Settled (queueFrame scaledImage w)
  else processScreenChange replies scaledImage w.

(** [reset]: everything goes back to its initial value but the counter
    [autoCompleteTriggered]; the trace of the calls made so far stays. *)
Definition reset (w : Watcher) : Watcher :=
  let w := log StopChangeDetection w in
  withProvider
    (fun st =>
       mkTaskProvider "" [] [] 0 0 false false false "" "" false false false None
                      (trace st))
    w.

(** Whether a check can be made on the current step: there is a step, it
    is not "done", no generation is in flight and a screenshot of the step is
    held. *)
Definition checkable (st : TaskProvider) : bool :=
  match currentTaskTextOf st with
  | Some currentTaskText =>
      truthy currentTaskText && negb (isTriggeringRef st)
      && negb (String.eqb (toLowerCase currentTaskText) "done"
               || String.eqb (toLowerCase currentTaskText) "done.")
      && truthy (lastScreenshotRef st)
  | None => false
  end.

(** The component but for the two references of the check. *)
Definition besidesCheck (st : TaskProvider) : TaskProvider :=
  set_checking false None st.

(** What holds of a settled check [w'] against the state [w] it started
    from: the lock is released, the last call cleared the analysing flag,
    nothing of the component but the two references of the check changed,
    and the completion counter grew by one at most. *)
Definition released (w w' : Watcher) : Prop :=
  isCheckingStepRef (provider w') = false /\
  last (watchCalls w') = Some (SetIsAnalyzingScreenChange false) /\
  besidesCheck (provider w') = besidesCheck (provider w) /\
  (autoCompleteTriggered w' = autoCompleteTriggered w \/
   autoCompleteTriggered w' = autoCompleteTriggered w + 1).

(** The checks made, oldest first: their three arguments. *)
Definition checksMade (w : Watcher) : list (string * string * string) :=
  omap (fun c => match c with
                 | CheckStepCompletion d before after => Some (d, before, after)
                 | _ => None
                 end) (watchCalls w).

End Watch.

(** ** Concrete inputs for the checks *)

Module WatchExamples.

(** One step is shown and a screenshot of it is held. *)
Definition oneStep : Watch.Watcher :=
  Watch.withProvider
    (fun st => set_lastScreenshotRef "before"
                 (set_tasks [mkTask "Click the gear icon" None None]
                    (set_tasksRef [mkTask "Click the gear icon" None None] st)))
    Watch.initialWatcher.

(** The first check says "not completed" while two more frames arrive; the
    check of the later one says "completed". *)
Definition twoChecks : list Watch.CheckReply :=
  [Watch.mkCheckReply ["frame 2"; "frame 3"] (Resolved false);
   Watch.mkCheckReply [] (Resolved true)].

(** The step shown is "Done". *)
Definition finished : Watch.Watcher :=
  Watch.withProvider
    (fun st => set_lastScreenshotRef "before"
                 (set_tasks [mkTask "Done" None None]
                    (set_tasksRef [mkTask "Done" None None] st)))
    Watch.initialWatcher.

End WatchExamples.

(** ** Runs of the whole component *)

Module Session.

Import Watch.

(** What can happen to the mounted component: a consumer calls one of the
    five handlers, or [reset]; the change detector hands a frame to
    [handleScreenChange].  A check that is not answered within the action
    stays unanswered. *)
Inductive Action :=
| Handle (op : Op)
| CallReset
| ScreenChange (scaledImage : string) (replies : list CheckReply).

Section Running.

Variable isUsingLocalProvider : bool.
Variable osName : string.

Definition dispatch (a : Action) (w : Watcher) : Watcher :=
  match a with
  | Handle op => withProvider (fun st => snd (handler isUsingLocalProvider osName op st)) w
  | CallReset => reset w
  | ScreenChange scaledImage replies =>
      watcherOf (handleScreenChange replies scaledImage w)
  end.

(** One action on the latest render, then the component renders. *)
Definition act (acc : (bool * Z) * Watcher) (a : Action) : (bool * Z) * Watcher :=
  let w := dispatch a (snd acc) in
  let rendered := commitRender (Some (fst acc)) (provider w) in
  (fst rendered, mkWatcher (snd rendered) (autoCompleteTriggered w) (watchCalls w)).

(** The component after mounting and going through [actions]. *)
Definition runActions (actions : list Action) : Watcher :=
  snd (foldl act
         (fst (commitRender None initialTaskProvider),
          mkWatcher (snd (commitRender None initialTaskProvider)) 0 [])
         actions).

End Running.

(** [keeps I m]: the code [m] leaves the component in a state of [I] when
    it starts in one, however it completes. *)
Definition keeps (I : TaskProvider -> Prop) {A} (m : Async A) : Prop :=
  forall st, I st -> I (snd (m st)).

(** [neverReturns m]: the code [m] does not execute [return]. *)
Definition neverReturns {A} (m : Async A) : Prop :=
  forall st, fst (m st) <> Returned.

(** [triple P m Q]: started in a state of [P], the code [m] completes as
    [c] in a state [st] with [Q c st]. *)
Definition triple (P : TaskProvider -> Prop) {A} (m : Async A)
    (Q : Completion A -> TaskProvider -> Prop) : Prop :=
  forall st, P st -> Q (fst (m st)) (snd (m st)).

(** The history is published, every step has a text that is not empty and
    carries no white space at its ends, and the public counter is not below
    the number of steps. *)
Definition historyInvariant (st : TaskProvider) : Prop :=
  tasks st = tasksRef st /\
  Forall (fun item => truthy (text item) = true /\ trim (text item) = text item)
         (tasksRef st) /\
  Z.of_nat (length (tasksRef st)) <= totalTaskCount st.

(** No busy flag is up and the generation lock is free. *)
Definition atRest (st : TaskProvider) : Prop :=
  isTriggeringRef st = false /\ isLoading st = false /\
  isLoadingPreviewImage st = false /\ isLoadingFollowUp st = false.

(** The same but for the flag of the follow-up, which is up while
    [sendFollowUpMessage] runs. *)
Definition generationAtRest (st : TaskProvider) : Prop :=
  isTriggeringRef st = false /\ isLoading st = false /\
  isLoadingPreviewImage st = false.

(** How [sendFollowUpMessage] leaves its [try] statement: never by an
    exception, and by [return] only with the follow-up flag down. *)
Definition followUpSettled (c : Completion unit) (st : TaskProvider) : Prop :=
  generationAtRest st /\ c <> Thrown /\
  (c = Returned -> isLoadingFollowUp st = false).

(** How often [startChangeDetection] was called. *)
Definition detectionStarts (st : TaskProvider) : nat :=
  length (List.filter (fun e => match e with
                                | StartChangeDetectionCall => true
                                | _ => false
                                end) (trace st)).

(** How often [reset] stopped the detection. *)
Definition detectionStops (w : Watcher) : nat :=
  length (List.filter (fun c => match c with
                                | StopChangeDetection => true
                                | _ => false
                                end) (watchCalls w)).

(** [startChangeDetection] was called [k] times at most, plus once if the
    component remembers having started it. *)
Definition startedWithin (k : nat) (st : TaskProvider) : Prop :=
  (detectionStarts st <= k + (if changeDetectionStartedRef st then 1 else 0))%nat.

(** The history is [base] followed by one step of text [t] that has no
    follow-up yet, it is published, and the counters and the screenshot are
    as given. *)
Definition stepAppended (base : list TaskHistoryItem) (t : string)
    (count generation : Z) (screenshot : string) (st : TaskProvider) : Prop :=
  (exists preview, tasksRef st = base ++ [mkTask t preview None]) /\
  tasks st = tasksRef st /\
  totalTaskCount st = count /\ totalTaskGeneration st = generation /\
  lastScreenshotRef st = screenshot.

End Session.

(** ** Concrete states of the component *)

Module SessionExamples.

(** One step was generated from the replies of the gear example. *)
Definition afterOneStep : TaskProvider :=
  snd (onNextTask false "macOS" OrchestratorExamples.gearReplies initialTaskProvider).

(** Two steps were generated. *)
Definition afterTwoSteps : TaskProvider :=
  snd (onNextTask false "macOS" OrchestratorExamples.gearReplies afterOneStep).

End SessionExamples.

(** ** Settings: [SettingsProvider] and [SettingsModal] *)

Module Settings.

Inductive Provider := ollama | lmstudio.

Record ApiSettings := mkApiSettings {
  provider : option Provider;
  model : string
}.

Definition DEFAULT_SETTINGS : ApiSettings := mkApiSettings None "".

(** [Partial<ApiSettings>]: [None] stands for a key that is absent. *)
Record PartialSettings := mkPartialSettings {
  newProvider : option (option Provider);
  newModel : option string
}.

(** [{...prev, ...newSettings}]. *)
Definition updateSettings (newSettings : PartialSettings) (prev : ApiSettings)
    : ApiSettings :=
  mkApiSettings (default (provider prev) (newProvider newSettings))
                (default (model prev) (newModel newSettings)).

(** A complete settings object passed where a partial one is expected. *)
Definition complete (s : ApiSettings) : PartialSettings :=
  mkPartialSettings (Some (provider s)) (Some (model s)).

(** [Boolean(settings.provider && settings.model)]. *)
Definition isUsingLocalProvider (s : ApiSettings) : bool :=
  match provider s with
  | Some _ => truthy (model s)
  | None => false
  end.

(** [s.includes(sub)]. *)
Fixpoint includes (s sub : string) : bool :=
  String.prefix sub s ||
  match s with
  | EmptyString => false
  | String _ rest => includes rest sub
  end.

Record OllamaModel := mkOllamaModel {
  name : string;
  ollamaModel : string                (* [model] *)
}.

Record LMStudioModel := mkLMStudioModel {
  id : string;
  object : string;
  owned_by : string
}.

(** The body [response.json()] resolves to: [data.models] and [data.data],
    each an array or missing. *)
Record Body := mkBody {
  bodyModels : option (list OllamaModel);
  bodyData : option (list LMStudioModel)
}.

(** What [fetch] and [response.json()] answer: the request fails, or a
    response comes with its [ok] flag and a body, [None] when the body is not
    JSON. *)
Inductive FetchReply :=
| NetworkError
| Response (ok : bool) (body : option Body).

(** [ConnectionError]: the provider that could not be reached; its
    [message] is [PROVIDER_ERRORS[provider].message], a constant of the
    provider, and is left out. *)
Definition ConnectionError := Provider.

(** The context values the modal reads, and its own state. *)
Record Modal := mkModal {
  settings : ApiSettings;
  isSettingsOpen : bool;
  localSettings : ApiSettings;
  models : list string;
  isLoadingModels : bool;
  connectionError : option ConnectionError
}.

(** The modal as it mounts under a provider holding [initial]. *)
Definition mount (initial : ApiSettings) : Modal :=
  mkModal initial false initial [] false None.

Definition setLocalSettings (v : ApiSettings) (m : Modal) : Modal :=
  mkModal (settings m) (isSettingsOpen m) v (models m) (isLoadingModels m)
          (connectionError m).

Definition setModels (v : list string) (m : Modal) : Modal :=
  mkModal (settings m) (isSettingsOpen m) (localSettings m) v (isLoadingModels m)
          (connectionError m).

Definition setIsLoadingModels (v : bool) (m : Modal) : Modal :=
  mkModal (settings m) (isSettingsOpen m) (localSettings m) (models m) v
          (connectionError m).

Definition setConnectionError (v : option ConnectionError) (m : Modal) : Modal :=
  mkModal (settings m) (isSettingsOpen m) (localSettings m) (models m)
          (isLoadingModels m) v.

Definition setContext (s : ApiSettings) (open : bool) (m : Modal) : Modal :=
  mkModal s open (localSettings m) (models m) (isLoadingModels m)
          (connectionError m).

(** The [try] block of [fetchModels]: the list to show, or [None] when
    something was thrown (a failed request, a response that is not [ok], a
    body that is not JSON, or [.map] on a missing array). *)
Definition listModels (p : Provider) (reply : FetchReply) : option (list string) :=
  match reply with
  | NetworkError => None
  | Response ok body =>
      if negb ok then None
      else
        match body with
        | None => None
        | Some data =>
            match p with
            | ollama =>
                match bodyModels data with
                | Some l => Some (map name l)
                | None => None
                end
            | lmstudio =>
                match bodyData data with
                | Some l =>
                    Some (List.filter (fun s => negb (includes s "embedding"))
                                      (map id l))
                | None => None
                end
            end
        end
  end.

Definition fetchModels (p : Provider) (reply : FetchReply) (m : Modal) : Modal :=
  let m := setIsLoadingModels true m in
  let m := setConnectionError None m in
  let m := setModels [] m in
  let m :=
    match listModels p reply with
    | Some l => setModels l m
    | None => setConnectionError (Some p) m
    end in
  setIsLoadingModels false m.

(** The effect on [isSettingsOpen], [settings]: it runs when the modal is
    opened. *)
Definition openedEffect (reply : FetchReply) (m : Modal) : Modal :=
  if isSettingsOpen m then
    let m := setLocalSettings (settings m) m in
    let m := setConnectionError None m in
    match provider (settings m) with
    | Some p => fetchModels p reply m
    | None => setModels [] m
    end
  else m.

Definition handleProviderChange (p : Provider) (reply : FetchReply) (m : Modal)
    : Modal :=
  fetchModels p reply (setLocalSettings (mkApiSettings (Some p) "") m).

(** [closeSettings()]. *)
Definition closeSettings (m : Modal) : Modal := setContext (settings m) false m.

(** [handleSave]: [updateSettings(localSettings); closeSettings()]. *)
Definition handleSave (m : Modal) : Modal :=
  closeSettings
    (setContext (updateSettings (complete (localSettings m)) (settings m))
                (isSettingsOpen m) m).

Definition handleClear (m : Modal) : Modal :=
  setConnectionError None
    (setModels [] (setLocalSettings (mkApiSettings None "") m)).

(** [canSave = localSettings.provider && localSettings.model]. *)
Definition canSave (m : Modal) : bool :=
  match provider (localSettings m) with
  | Some _ => truthy (model (localSettings m))
  | None => false
  end.

(** The [onChange] of the model [<select>]. *)
Definition selectModel (value : string) (m : Modal) : Modal :=
  setLocalSettings (mkApiSettings (provider (localSettings m)) value) m.

(** Whether the [<select>] is rendered and offers [value]. *)
Definition offers (value : string) (m : Modal) : bool :=
  bool_decide (is_Some (provider (localSettings m)))
  && bool_decide (connectionError m = None)
  && negb (isLoadingModels m)
  && negb (bool_decide (models m = []))
  && bool_decide (value ∈ "" :: models m).

(** What the user can do to the modal.  A disabled button does not fire,
    and a [<select>] only reports one of its options. *)
Inductive Gesture :=
| OpenSettings (reply : FetchReply)
| ClickProvider (p : Provider) (reply : FetchReply)
| SelectModel (value : string)
| ClickSave
| ClickClear
| ClickClose.

Definition gesture (m : Modal) (g : Gesture) : Modal :=
  match g with
  | OpenSettings reply =>
      if isSettingsOpen m then m
      else openedEffect reply (setContext (settings m) true m)
  | ClickProvider p reply =>
      if isSettingsOpen m then handleProviderChange p reply m else m
  | SelectModel value =>
      if isSettingsOpen m && offers value m then selectModel value m else m
  | ClickSave =>
      if isSettingsOpen m && canSave m then handleSave m else m
  | ClickClear => if isSettingsOpen m then handleClear m else m
  | ClickClose => if isSettingsOpen m then closeSettings m else m
  end.

Definition gestures (initial : ApiSettings) (gs : list Gesture) : Modal :=
  foldl gesture (mount initial) gs.


End Settings.

(** ** The "For Teams" form: [ForTeamsModal] *)

Module ForTeams.

(** What is handed to [posthog.capture("for_teams_inquiry", ...)]. *)
Record Inquiry := mkInquiry {
  inquiryEmail : string;
  inquiryRole : string
}.

Record Form := mkForm {
  email : string;
  role : string;
  isSubmitting : bool;
  isSubmitted : bool;
  inquiries : list Inquiry;     (* captured, oldest first *)
  pendingTimers : nat;          (* 500 ms timers that have not elapsed *)
  closed : nat                  (* calls of [onClose] *)
}.

Definition initialForm : Form := mkForm "" "" false false [] 0 0.

(** [handleSubmit] up to its [await]. *)
Definition handleSubmit (f : Form) : Form :=
  if negb (truthy (trim (email f))) || negb (truthy (trim (role f))) then f
  else
    mkForm (email f) (role f) true (isSubmitted f)
           (inquiries f ++ [mkInquiry (trim (email f)) (trim (role f))])
           (S (pendingTimers f)) (closed f).

(** [handleSubmit] after its [await]: the timer has elapsed. *)
Definition submitted (f : Form) : Form :=
  mkForm (email f) (role f) false true (inquiries f) (pred (pendingTimers f))
         (closed f).

Definition handleClose (f : Form) : Form :=
  mkForm "" "" (isSubmitting f) false (inquiries f) (pendingTimers f)
         (S (closed f)).

(** [canSubmit]. *)
Definition canSubmit (f : Form) : bool :=
  truthy (trim (email f)) && truthy (trim (role f)) && negb (isSubmitting f).

Inductive Gesture :=
| TypeEmail (value : string)
| TypeRole (value : string)
| ClickSubmit
| ClickClose
| TimerElapsed.

(** The inputs and the submit button are replaced by the thanks once the
    form is submitted, and a disabled button does not fire. *)
Definition gesture (f : Form) (g : Gesture) : Form :=
  match g with
  | TypeEmail value =>
      if isSubmitted f then f
      else mkForm value (role f) (isSubmitting f) (isSubmitted f) (inquiries f)
                  (pendingTimers f) (closed f)
  | TypeRole value =>
      if isSubmitted f then f
      else mkForm (email f) value (isSubmitting f) (isSubmitted f) (inquiries f)
                  (pendingTimers f) (closed f)
  | ClickSubmit =>
      if negb (isSubmitted f) && canSubmit f then handleSubmit f else f
  | ClickClose => handleClose f
  | TimerElapsed =>
      match pendingTimers f with
      | O => f
      | S _ => submitted f
      end
  end.

Definition gestures (gs : list Gesture) : Form := foldl gesture initialForm gs.

(** An inquiry worth sending: both fields are filled in and trimmed. *)
Definition wellFormed (i : Inquiry) : Prop :=
  truthy (inquiryEmail i) = true /\ trim (inquiryEmail i) = inquiryEmail i /\
  truthy (inquiryRole i) = true /\ trim (inquiryRole i) = inquiryRole i.

(** What holds of the form all along: the inquiries sent are well formed,
    a timer is pending exactly while the form is submitting, and the thanks
    and a pending timer come after an inquiry. *)
Definition sound (f : Form) : Prop :=
  Forall wellFormed (inquiries f) /\
  pendingTimers f = (if isSubmitting f then 1 else 0)%nat /\
  (isSubmitted f = true -> inquiries f <> []) /\
  (pendingTimers f <> 0%nat -> inquiries f <> []).

End ForTeams.

(* ===================================================================== *)
(** * Part II. Properties                                                 *)
(* ===================================================================== *)

(** ** Frame Scaler *)

(** [floorMulSqrt x n d] is the floor of [x * sqrt (n / d)]: it is the
    integer [k >= 0] with [k <= x * sqrt (n/d) < k + 1], the two bounds
    squared and cleared of the denominator. *)
Lemma floorMulSqrt_spec (x n d : Z) :
  0 <= x -> 0 <= n -> 0 < d ->
  0 <= floorMulSqrt x n d /\
  floorMulSqrt x n d * floorMulSqrt x n d * d <= x * x * n /\
  x * x * n < (floorMulSqrt x n d + 1) * (floorMulSqrt x n d + 1) * d.
Proof.
  intros Hx Hn Hd. unfold floorMulSqrt.
  set (q := x * x * n / d).
  assert (Hq : 0 <= q) by (apply Z.div_pos; nia).
  pose proof (Z.sqrt_spec q Hq) as Hs. cbv zeta in Hs.
  pose proof (Z.sqrt_nonneg q) as Hk.
  pose proof (Z.mul_div_le (x * x * n) d Hd) as Hlo.
  pose proof (Z.mul_succ_div_gt (x * x * n) d Hd) as Hhi.
  fold q in Hlo, Hhi.
  set (k := Z.sqrt q) in *.
  split; [exact Hk|]. split; nia.
Qed.

(** Over the reals, [floorMulSqrt x n d] is [Math.floor(x * Math.sqrt(n / d))]. *)
Lemma floorMulSqrt_real (x n d : Z) :
  0 <= x -> 0 <= n -> 0 < d ->
  Int_part (IZR x * sqrt (IZR n / IZR d)) = floorMulSqrt x n d.
Proof.
  intros Hx Hn Hd.
  destruct (floorMulSqrt_spec x n d Hx Hn Hd) as (Hk & Hlo & Hhi).
  set (k := floorMulSqrt x n d) in *.
  symmetry. apply Int_part_spec.
  assert (HdR : (0 < IZR d)%R) by now apply IZR_lt.
  assert (HxR : (0 <= IZR x)%R) by now apply IZR_le.
  assert (HnR : (0 <= IZR n)%R) by now apply IZR_le.
  assert (HkR : (0 <= IZR k)%R) by now apply IZR_le.
  assert (Hq : (0 <= IZR n / IZR d)%R).
  { apply Rmult_le_pos; [exact HnR|]. left. now apply Rinv_0_lt_compat. }
  set (r := (IZR x * sqrt (IZR n / IZR d))%R).
  assert (Hr : (0 <= r)%R) by (apply Rmult_le_pos; [exact HxR | apply sqrt_pos]).
  assert (Hr2 : (r * r = IZR (x * x * n) / IZR d)%R).
  { unfold r. rewrite !mult_IZR.
    replace (IZR x * sqrt (IZR n / IZR d) * (IZR x * sqrt (IZR n / IZR d)))%R
      with (IZR x * IZR x * (sqrt (IZR n / IZR d) * sqrt (IZR n / IZR d)))%R by ring.
    rewrite sqrt_sqrt by exact Hq. field. lra. }
  assert (Hlo' : (IZR k * IZR k <= r * r)%R).
  { rewrite Hr2. apply (Rmult_le_reg_r (IZR d)); [exact HdR|].
    replace (IZR (x * x * n) / IZR d * IZR d)%R with (IZR (x * x * n)) by (field; lra).
    rewrite <- !mult_IZR. now apply IZR_le. }
  assert (Hhi' : (r * r < (IZR k + 1) * (IZR k + 1))%R).
  { rewrite Hr2. apply (Rmult_lt_reg_r (IZR d)); [exact HdR|].
    replace (IZR (x * x * n) / IZR d * IZR d)%R with (IZR (x * x * n)) by (field; lra).
    replace ((IZR k + 1) * (IZR k + 1) * IZR d)%R with (IZR ((k + 1) * (k + 1) * d))
      by (rewrite !mult_IZR, plus_IZR; reflexivity).
    now apply IZR_lt. }
  split; [|nra]. nra.
Qed.

(** On integer sides and budget the integer function is the real one. *)
Lemma getScaledDimensions_real (w h b : Z) :
  0 <= w -> 0 <= h -> 0 < b ->
  getScaledDimensionsR (IZR w) (IZR h) (IZR b) =
  (IZR (fst (getScaledDimensions w h b)), IZR (snd (getScaledDimensions w h b))).
Proof.
  intros Hw Hh Hb. unfold getScaledDimensionsR, getScaledDimensions.
  rewrite <- mult_IZR.
  destruct (Rgt_dec (IZR (w * h)) (IZR b)) as [Hgt|Hle];
    destruct (Z.ltb_spec b (w * h)) as [Hlt|Hge]; cbn [fst snd].
  - rewrite !floorMulSqrt_real by lia. reflexivity.
  - apply lt_IZR in Hgt. lia.
  - exfalso. apply Hle. now apply IZR_lt.
  - reflexivity.
Qed.







(** ** Frame Differ *)

Lemma channelDiff_same (d : list Z) (i : nat) :
  exceeds (channelDiff d d i) pixelThreshold = false.
Proof.
  unfold channelDiff. destruct (d !! i) as [x|]; [|reflexivity].
  cbn. rewrite Z.sub_diag. reflexivity.
Qed.

Lemma channelDiff_sym (d1 d2 : list Z) (i : nat) :
  channelDiff d1 d2 i = channelDiff d2 d1 i.
Proof.
  unfold channelDiff.
  destruct (d1 !! i) as [x|], (d2 !! i) as [y|]; try reflexivity.
  f_equal. rewrite <- Z.abs_opp. f_equal. lia.
Qed.

(** On one and the same array the loop never counts a pixel. *)
Lemma diffLoop_same (fuel i : nat) (d : list Z) (acc : Z) :
  diffLoop fuel i d d acc = acc.
Proof.
  revert i acc. induction fuel as [|fuel IH]; intros i acc; [reflexivity|].
  cbn [diffLoop]. destruct (i <? length d)%nat; [|reflexivity].
  rewrite !channelDiff_same. cbn. apply IH.
Qed.

(** Swapping the arrays does not change the count when they are as long. *)
Lemma diffLoop_sym (fuel i : nat) (d1 d2 : list Z) (acc : Z) :
  length d1 = length d2 ->
  diffLoop fuel i d1 d2 acc = diffLoop fuel i d2 d1 acc.
Proof.
  intros Hlen. revert i acc.
  induction fuel as [|fuel IH]; intros i acc; [reflexivity|].
  cbn [diffLoop]. rewrite <- Hlen.
  destruct (i <? length d1)%nat; [|reflexivity].
  rewrite (channelDiff_sym d2 d1 i), (channelDiff_sym d2 d1 (i + 1)),
          (channelDiff_sym d2 d1 (i + 2)).
  apply IH.
Qed.

(** One pass of the loop body is the specification's test of one pixel. *)
Lemma pixelChanged_spec_unfold (a b : ImageData) (p : nat) :
  pixelChanged_spec a b p =
  exceeds (channelDiff (data a) (data b) (4 * p)) pixelThreshold
  || exceeds (channelDiff (data a) (data b) (4 * p + 1)) pixelThreshold
  || exceeds (channelDiff (data a) (data b) (4 * p + 2)) pixelThreshold.
Proof.
  unfold pixelChanged_spec, pixelThreshold. cbn [existsb].
  rewrite Nat.add_0_r, orb_false_r, orb_assoc. reflexivity.
Qed.

(** With enough fuel the loop started at pixel [k] adds the number of
    changed pixels among [k, k+1, ..., n-1]. *)
Lemma diffLoop_counts (a b : ImageData) (n : nat) :
  length (data a) = (4 * n)%nat ->
  forall (m k fuel : nat) (acc : Z),
    (k + m = n)%nat -> (m <= fuel)%nat ->
    diffLoop fuel (4 * k) (data a) (data b) acc =
    acc + Z.of_nat (length (List.filter (pixelChanged_spec a b) (seq k m))).
Proof.
  intros Hlen. induction m as [|m IH]; intros k fuel acc Hk Hfuel.
  - cbn [seq List.filter length]. rewrite Z.add_0_r.
    destruct fuel as [|fuel]; [reflexivity|]. cbn [diffLoop].
    destruct (Nat.ltb_spec (4 * k) (length (data a))); [lia | reflexivity].
  - destruct fuel as [|fuel]; [lia|]. cbn [diffLoop].
    destruct (Nat.ltb_spec (4 * k) (length (data a))); [|lia].
    replace (4 * k + 4)%nat with (4 * S k)%nat by lia.
    rewrite IH by lia.
    cbn [seq List.filter]. rewrite pixelChanged_spec_unfold.
    destruct (exceeds _ _ || exceeds _ _ || exceeds _ _);
      cbn [length]; lia.
Qed.

(** On well-formed frames the loop counts what the specification counts. *)
Lemma countDifferentPixels_spec (a b : ImageData) :
  wf_image a ->
  countDifferentPixels (data a) (data b) = changedCount_spec a b.
Proof.
  intros (Hw & Hh & Hlen). unfold countDifferentPixels, changedCount_spec.
  set (n := Z.to_nat (width a * height a)).
  assert (Hn : length (data a) = (4 * n)%nat) by (rewrite Hlen; unfold n; nia).
  rewrite <- (Nat.mul_0_r 4) at 1.
  rewrite (diffLoop_counts a b n Hn n 0 (length (data a)) 0); [reflexivity | lia | lia].
Qed.

Lemma percent_of_none (t : Z) : (inject_Z 0 / inject_Z t * 100 == 0)%Q.
Proof. unfold Qdiv. ring. Qed.

Lemma percent_of_all (t : Z) : 0 < t -> (inject_Z t / inject_Z t * 100 == 100)%Q.
Proof.
  intros Ht. unfold Qdiv. rewrite Qmult_inv_r; [ring|].
  unfold Qeq, inject_Z. cbn. lia.
Qed.

(** Identical frames differ by 0 percent, whatever the frame. *)
Lemma calculateImageDifference_same (F : ImageData) :
  (calculateImageDifference F F == 0)%Q.
Proof.
  unfold calculateImageDifference, countDifferentPixels.
  rewrite diffLoop_same. apply percent_of_none.
Qed.

(** C8. For frames [a], [b] of the same dimensions: the difference of a
    frame with itself is 0; the difference is symmetric; if the red channel
    of every pixel differs by 255 the result is 100; and the result is
    [100 * changedCount / totalPixels], where a pixel is changed iff one of
    its three colour channels differs by more than 10 and alpha is ignored. *)
Theorem calculateImageDifference_properties (a b : ImageData) :
  wf_image a -> wf_image b ->
  width a = width b -> height a = height b ->
  (calculateImageDifference a a == 0)%Q /\
  (calculateImageDifference a b == calculateImageDifference b a)%Q /\
  ((forall p : nat, (p < Z.to_nat (width a * height a))%nat ->
      channelDiff (data a) (data b) (4 * p) = Some 255) ->
   (calculateImageDifference a b == 100)%Q) /\
  (calculateImageDifference a b == diffPercent_spec a b)%Q.
Proof.
  intros Ha Hb Hw Hh.
  assert (Hlen : length (data a) = length (data b)).
  { destruct Ha as (_ & _ & ->), Hb as (_ & _ & ->). now rewrite Hw, Hh. }
  split; [apply calculateImageDifference_same|].
  split.
  { unfold calculateImageDifference, countDifferentPixels.
    rewrite <- Hw, <- Hh, <- Hlen, (diffLoop_sym _ _ _ _ _ Hlen). reflexivity. }
  split.
  - intros Hred. unfold calculateImageDifference.
    rewrite (countDifferentPixels_spec a b Ha). unfold changedCount_spec.
    set (n := Z.to_nat (width a * height a)) in *.
    assert (Hall : List.filter (pixelChanged_spec a b) (seq 0 n) = seq 0 n).
    { apply forallb_filter_id. apply forallb_forall. intros p Hp.
      apply in_seq in Hp. rewrite pixelChanged_spec_unfold, Hred by lia.
      reflexivity. }
    rewrite Hall, length_seq. unfold n.
    destruct Ha as (Hwa & Hha & _).
    rewrite Z2Nat.id by nia. apply percent_of_all. nia.
  - unfold calculateImageDifference, diffPercent_spec.
    rewrite (countDifferentPixels_spec a b Ha). unfold Qdiv. ring.
Qed.

(** Two 1 x 1 frames: an opaque black pixel and an opaque red one. *)
Lemma calculateImageDifference_properties_witness :
  let a := mkImageData 1 1 [0; 0; 0; 255] in
  let b := mkImageData 1 1 [255; 0; 0; 255] in
  (calculateImageDifference a a == 0)%Q /\
  (calculateImageDifference a b == calculateImageDifference b a)%Q /\
  (calculateImageDifference a b == 100)%Q.
Proof.
  set (a := mkImageData 1 1 [0; 0; 0; 255]).
  set (b := mkImageData 1 1 [255; 0; 0; 255]).
  assert (Ha : wf_image a) by (repeat split; reflexivity).
  assert (Hb : wf_image b) by (repeat split; reflexivity).
  destruct (calculateImageDifference_properties a b Ha Hb eq_refl eq_refl)
    as (Hsame & Hsym & Hred & _).
  split; [exact Hsame|]. split; [exact Hsym|].
  apply Hred. intros p Hp. cbn in Hp.
  destruct p as [|p]; [reflexivity | lia].
Defined.

(** ** Masking Engine *)

Lemma length_blackoutPixel (d : list Z) (idx : Z) :
  length (blackoutPixel d idx) = length d.
Proof. unfold blackoutPixel. now rewrite !length_insert. Qed.



Section MaskFold.

Variable idxOf : Z -> Z.

Let body (d : list Z) (x : Z) : list Z := blackoutPixel d (idxOf x).

Lemma foldl_blackout_length (xs : list Z) (d : list Z) :
  length (foldl body d xs) = length d.
Proof.
  revert d. induction xs as [|x xs IH]; intros d; [reflexivity|].
  cbn [foldl]. rewrite IH. apply length_blackoutPixel.
Qed.



End MaskFold.

Lemma length_detectAndMaskPopup (d : list Z) (w h : Z) :
  length (detectAndMaskPopup d w h) = length d.
Proof.
  unfold detectAndMaskPopup.
  destruct (bannerRect w h) as [[[startX endX] startY] endY].
  generalize (seqZ startY (endY - startY)). intros ys. revert d.
  induction ys as [|y ys IH]; intros d; [reflexivity|].
  cbn [foldl]. rewrite IH. apply foldl_blackout_length.
Qed.




(** ** Change-Detection Loop: [stopChangeDetection] *)

(** Stopping twice is stopping once. *)
Lemma stopChangeDetection_idempotent (s : ScreenShare) :
  stopChangeDetection (stopChangeDetection s) = stopChangeDetection s.
Proof.
  unfold stopChangeDetection.
  destruct s as [st sh en pa an [id|] prev tmp ts nt vids hs nv calls];
    reflexivity.
Qed.

(** What [stopChangeDetection] leaves behind: no loop timer, no baseline,
    both flags down, no hidden video. *)
Lemma stopChangeDetection_stopped (s : ScreenShare) :
  changeDetectionTimer (stopChangeDetection s) = None /\
  previousImageData (stopChangeDetection s) = None /\
  changeDetectionEnabled (stopChangeDetection s) = false /\
  isChangeDetectionPaused (stopChangeDetection s) = false /\
  hiddenVideos (stopChangeDetection s) = [] /\
  (forall id, changeDetectionTimer s = Some id ->
              timers (stopChangeDetection s) !! id = None).
Proof.
  unfold stopChangeDetection.
  destruct s as [st sh en pa an [id|] prev tmp ts nt vids hs nv calls];
    cbn; repeat split; try discriminate.
  intros id' [= ->]. apply lookup_delete_eq.
Qed.

(** [stopChangeDetection] clears the loop timer only: every other pending
    timer, the one of a temporary pause included, stays pending. *)
Lemma stopChangeDetection_keeps_other_timers (s : ScreenShare) (id : nat) :
  changeDetectionTimer s <> Some id ->
  timers (stopChangeDetection s) !! id = timers s !! id /\
  temporaryPauseTimer (stopChangeDetection s) = temporaryPauseTimer s.
Proof.
  unfold stopChangeDetection.
  destruct s as [st sh en pa an [id'|] prev tmp ts nt vids hs nv calls];
    cbn; intros Hne; split; try reflexivity.
  apply lookup_delete_ne. congruence.
Qed.

(** C2 (the code departs from the claim). A temporary pause is armed and
    detection is stopped: the pause timer is still pending after
    [stopChangeDetection]. Detection is then started again, records a
    baseline and is paused by the caller; when the old timer fires it lifts
    that pause and drops the baseline of the new loop. *)
Theorem stale_pause_timer_fires_after_stop :
  let stopped := Examples.runExample Examples.pauseThenStop initialStore in
  let restarted := Examples.runExample Examples.restartAndPause stopped in
  let later :=
    Examples.runExample [Fire 2 (Examples.showing Examples.whiteVideo None)]
                        restarted in
  changeDetectionEnabled stopped = false /\
  temporaryPauseTimer stopped = Some 2%nat /\
  timers stopped !! 2%nat = Some (TemporaryResume, 2000) /\
  isChangeDetectionPaused restarted = true /\
  previousImageData restarted <> None /\
  isChangeDetectionPaused later = false /\
  previousImageData later = None.
Proof. vm_compute. repeat split; discriminate. Qed.

(** ** Change-Detection Loop: the capture window and the polling ticks *)

Section ChangeDetectionProperties.

Variable platform : Platform.

Lemma maskOverlay_shape (canvas : ImageData) (pip : option PipDetails) (w h : Z) :
  keepsShape platform ->
  width (maskOverlay platform canvas pip w h) = width canvas /\
  height (maskOverlay platform canvas pip w h) = height canvas /\
  length (data (maskOverlay platform canvas pip w h))
  = length (data canvas).
Proof.
  intros Hshape. unfold maskOverlay, maskPipWindow.
  destruct pip as [p|]; [|auto].
  destruct (negb (isActive p) || negb (isVisible p)); [auto|]. apply Hshape.
Qed.






End ChangeDetectionProperties.

(** The reference rasteriser paints inside the canvas. *)
Lemma fillRectPixels_keepsShape : keepsShape Examples.browser.
Proof.
  intros canvas x y w h. cbn [fillRect Examples.browser].
  unfold Examples.fillRectPixels. cbn [width height data].
  split; [reflexivity|]. split; [reflexivity|].
  generalize (seqZ 0 (height canvas)) as ys. generalize (data canvas) as d.
  intros d ys. revert d. induction ys as [|py ys IH]; intros d; [reflexivity|].
  cbn [foldl]. rewrite IH. clear IH.
  generalize (seqZ 0 (width canvas)) as xs. intros xs. revert d.
  induction xs as [|px xs IH]; intros d; [reflexivity|].
  cbn [foldl]. rewrite IH.
  match goal with |- context [if ?b then _ else _] => destruct b end;
    [apply length_blackoutPixel | reflexivity].
Qed.



(** ** Change-Detection Loop: a source that does not change *)

Section IdenticalFrames.

Variable platform : Platform.
Variable F : ImageData.
Variable fed : Snapshot -> Prop.

Ltac quiet_intro := split; [|split; [|split]]; cbn.

Lemma quiet_initial : quiet platform F fed initialStore.
Proof.
  quiet_intro;
    [reflexivity | discriminate | apply map_Forall_empty | apply map_Forall_empty].
Qed.

Lemma quiet_arm (callback : TimerCallback) (ms : Z) (s : ScreenShare) :
  quiet platform F fed s -> goodCallback platform F fed (callback, ms) ->
  quiet platform F fed (armDetectionTimer callback ms s).
Proof.
  intros (Hc & Hp & Ht & Hm) Hgood. unfold armDetectionTimer, setTimeout.
  quiet_intro; [assumption | assumption | | assumption].
  now apply map_Forall_insert_2.
Qed.

Lemma quiet_clearTimeout (id : nat) (s : ScreenShare) :
  quiet platform F fed s -> quiet platform F fed (clearTimeout id s).
Proof.
  intros (Hc & Hp & Ht & Hm). unfold clearTimeout.
  quiet_intro; [assumption | assumption | | assumption].
  now apply map_Forall_delete.
Qed.

Lemma quiet_stop (s : ScreenShare) :
  quiet platform F fed s -> quiet platform F fed (stopChangeDetection s).
Proof.
  intros Hq. unfold stopChangeDetection.
  assert (Hq' : quiet platform F fed (match changeDetectionTimer s with
                       | Some id => set_changeDetectionTimer None (clearTimeout id s)
                       | None => s
                       end)).
  { destruct (changeDetectionTimer s) as [id|]; [|exact Hq].
    destruct (quiet_clearTimeout id s Hq) as (Hc & Hp & Ht & Hm).
    quiet_intro; assumption. }
  destruct Hq' as (Hc & Hp & Ht & Hm).
  quiet_intro; [assumption | discriminate | assumption | assumption].
Qed.

(** A tick that samples [F] against the baseline [F] detects nothing. *)
Lemma no_change_on_same (loop : DetectionLoop) (previous : option ImageData) :
  (0 < threshold loop)%Q ->
  (forall p, previous = Some p -> p = F) ->
  changeDetectedBetween loop previous F = false.
Proof.
  intros Hpos Hprev. unfold changeDetectedBetween.
  destruct previous as [p|]; [|reflexivity].
  rewrite (Hprev p eq_refl).
  destruct (Qle_bool (threshold loop) (calculateImageDifference F F)) eqn:Hle;
    [|reflexivity].
  apply Qle_bool_iff in Hle. rewrite calculateImageDifference_same in Hle.
  exfalso. now apply (Qlt_not_le _ _ Hpos).
Qed.

Lemma quiet_runDetection (loop : DetectionLoop) (env : Snapshot) (s : ScreenShare) :
  quiet platform F fed s -> goodLoop platform F fed loop -> fed env ->
  quiet platform F fed (runDetection platform loop env s).
Proof.
  intros Hq Hloop Hfed. unfold runDetection.
  destruct (negb (changeDetectionEnabled s)); [exact Hq|].
  destruct (isChangeDetectionPaused s); [now apply quiet_arm|].
  destruct (negb (snap_ctx env)); [now apply quiet_arm|].
  destruct (grabMasked _ _ _ _ _) as [current|] eqn:Hgrab; [|exact Hq].
  pose proof Hloop as [Hpos Hsample].
  assert (current = F) as -> by (apply (Hsample env); assumption).
  destruct Hq as (Hc & Hp & Ht & Hm).
  rewrite (no_change_on_same loop _ Hpos Hp).
  apply quiet_arm; [|exact Hloop].
  quiet_intro; [assumption | | assumption | assumption].
  now intros p [= <-].
Qed.

(** Every step on a good event keeps the store quiet. *)
Lemma quiet_step (s : ScreenShare) (e : Event) :
  quiet platform F fed s -> goodEvent platform F fed e ->
  quiet platform F fed (step platform s e).
Proof.
  intros Hq He.
  destruct e as [ns| |opts| | | |d|v|video|timer env]; cbn [step].
  - destruct Hq as (Hc & Hp & Ht & Hm). quiet_intro; assumption.
  - destruct (quiet_stop s Hq) as (Hc & Hp & Ht & Hm).
    unfold stopSharing. quiet_intro; assumption.
  - unfold startChangeDetection. destruct (stream s); [|exact Hq].
    destruct (quiet_stop s Hq) as (Hc & Hp & Ht & Hm).
    quiet_intro; [assumption | assumption | assumption |].
    apply map_Forall_insert_2; [apply He | exact Hm].
  - now apply quiet_stop.
  - unfold pauseChangeDetection.
    destruct (negb (changeDetectionEnabled s)); [exact Hq|].
    destruct Hq as (Hc & Hp & Ht & Hm). quiet_intro; assumption.
  - unfold resumeChangeDetection.
    destruct (negb (changeDetectionEnabled s)); [exact Hq|].
    destruct Hq as (Hc & Hp & Ht & Hm).
    quiet_intro; [assumption | discriminate | assumption | assumption].
  - unfold pauseChangeDetectionTemporarily.
    destruct (negb (changeDetectionEnabled s)); [exact Hq|].
    assert (Hq' : quiet platform F fed (match temporaryPauseTimer s with
                         | Some id => clearTimeout id s
                         | None => s
                         end)).
    { destruct (temporaryPauseTimer s); [now apply quiet_clearTimeout | exact Hq]. }
    destruct Hq' as (Hc & Hp & Ht & Hm).
    quiet_intro; [assumption | assumption | | assumption].
    now apply map_Forall_insert_2.
  - destruct Hq as (Hc & Hp & Ht & Hm). quiet_intro; assumption.
  - unfold onloadedmetadata.
    destruct (awaitingMetadata s !! video) as [loop|] eqn:Hloop; [|exact Hq].
    destruct Hq as (Hc & Hp & Ht & Hm).
    apply quiet_arm; [|exact (Hm video loop Hloop)].
    quiet_intro; [assumption | assumption | assumption |].
    now apply map_Forall_delete.
  - unfold fire.
    destruct (timers s !! timer) as [[callback delay]|] eqn:Htimer; [|exact Hq].
    destruct Hq as (Hc & Hp & Ht & Hm).
    pose proof (Ht timer _ Htimer) as Hgood.
    assert (Hq' : quiet platform F fed
                    (set_timers (delete timer (timers s)) (nextTimer s) s)).
    { quiet_intro; [assumption | assumption | | assumption].
      now apply map_Forall_delete. }
    destruct callback as [loop|loop w h pip|].
    + now apply quiet_runDetection.
    + destruct Hgood.
    + destruct Hq' as (Hc' & Hp' & Ht' & Hm').
      unfold temporaryResume.
      quiet_intro; [assumption | discriminate | assumption | assumption].
Qed.

Lemma quiet_run (events : list Event) (s : ScreenShare) :
  quiet platform F fed s -> Forall (goodEvent platform F fed) events ->
  quiet platform F fed (run platform events s).
Proof.
  unfold run. revert s.
  induction events as [|e events IH]; intros s Hq Hgood; [exact Hq|].
  inversion Hgood; subst. cbn [foldl]. apply IH; [|assumption].
  now apply quiet_step.
Qed.

End IdenticalFrames.

(** C6. A run of the store in which every loop that is started has a
    positive threshold and every analysis frame a tick can sample is the same
    frame [F] never invokes the change callback: no capture timer is ever
    pending at its end and the baseline, when there is one, is [F]. *)
Theorem identical_frames_never_fire
    (platform : Platform)
    (F : ImageData) (events : list Event) :
  (forall options, StartChangeDetection options ∈ events ->
     (0 < default 1%Q (opt_threshold options))%Q) ->
  (forall options video timer env img,
     StartChangeDetection options ∈ events -> Fire timer env ∈ events ->
     analysisFrame platform (loopOf video options) env
     = Some img -> img = F) ->
  let final := run platform events initialStore in
  onChangeCalls final = [] /\
  (forall id loop w h pip delay,
     timers final !! id <> Some (CaptureAfterChange loop w h pip, delay)) /\
  (forall p, previousImageData final = Some p -> p = F).
Proof.
  intros Hthreshold Hframes final.
  set (fed := fun env => exists timer, Fire timer env ∈ events).
  assert (Hquiet : quiet platform F fed final).
  { apply quiet_run; [apply quiet_initial|].
    apply Forall_forall. intros e He.
    destruct e as [ns| |opts| | | |d|v|video|timer env]; cbn; auto.
    - intros video. split; [now apply Hthreshold|].
      intros env img [timer Hfire]. now apply (Hframes opts video timer).
    - now exists timer. }
  destruct Hquiet as (Hc & Hp & Ht & Hm).
  split; [exact Hc|]. split; [|exact Hp].
  intros id loop w h pip delay Hlookup.
  exact (Ht id _ Hlookup).
Qed.

(** The still scenario: five ticks, a pause and a resume on a white source. *)
Lemma identical_frames_never_fire_witness :
  let final := Examples.runExample Examples.stillScenario initialStore in
  onChangeCalls final = [] /\
  (forall id loop w h pip delay,
     timers final !! id <> Some (CaptureAfterChange loop w h pip, delay)) /\
  (forall p, previousImageData final = Some p ->
     p = maskBanner (maskOverlay Examples.browser
                       (drawImage Examples.whiteVideo 2 2)
                       (Some Examples.overlay) 2 2)).
Proof.
  apply (identical_frames_never_fire Examples.browser).
  - intros options Hin. unfold Examples.stillScenario in Hin.
    repeat (apply elem_of_cons in Hin as [Hin|Hin]);
      try discriminate; try (now apply elem_of_nil in Hin).
    injection Hin as ->. reflexivity.
  - intros options video timer env img Hstart Hfire.
    unfold Examples.stillScenario in Hstart, Hfire.
    repeat (apply elem_of_cons in Hstart as [Hstart|Hstart]);
      try discriminate; try (now apply elem_of_nil in Hstart).
    injection Hstart as ->.
    repeat (apply elem_of_cons in Hfire as [Hfire|Hfire]);
      try discriminate; try (now apply elem_of_nil in Hfire);
      injection Hfire as _ ->; vm_compute; now intros [= <-].
Defined.

(** ** Task orchestrator: one action-generation cycle *)

Section GenerationCycle.

Variable isUsingLocalProvider : bool.
Variable osName : string.

Ltac async_eval :=
  unfold releaseGeneration, perform, modify, gets, whenever, returnIf,
         mbind, Async_bind, mret, Async_ret;
  cbn.

(** A generation that is refused by its guard does nothing. *)
Lemma trigger_skipped (exceeded : bool) (r : GenerationReplies) (st : TaskProvider) :
  exceeded || isTriggeringRef st = true ->
  triggerGenerateTaskDescription isUsingLocalProvider osName exceeded r st
  = (Normal tt, st).
Proof.
  intros H. unfold triggerGenerateTaskDescription, function.
  unfold mbind, Async_bind, gets, returnIf.
  rewrite H. reflexivity.
Qed.

(** A [catch] block that only logs lets nothing escape. *)
Lemma tryCatch_perform_caught (body : Async unit) (e : Effect) (st : TaskProvider) :
  fst (tryCatch body (perform e) st) <> Thrown.
Proof.
  unfold tryCatch. destruct (body st) as [[[]| |] st1]; cbn; congruence.
Qed.

(** A generation that passes its guard runs the [try] block, catches what
    it throws and runs the [finally] block. *)
Lemma trigger_run (r : GenerationReplies) (st : TaskProvider) :
  isTriggeringRef st = false ->
  triggerGenerateTaskDescription isUsingLocalProvider osName false r st
  = (Normal tt,
     snd (releaseGeneration
            (snd (tryCatch
                    (captured ← await (CaptureImageFromStream isUsingLocalProvider)
                                      (reply_capture r);
                     generateStep osName captured r)
                    (perform ConsoleError)
                    (set_isLoading true (set_isTriggeringRef true st)))))).
Proof.
  intros H. unfold triggerGenerateTaskDescription, function, tryFinally.
  unfold mbind at 1 2 3 4. unfold Async_bind at 1 2 3 4.
  unfold gets, returnIf, modify at 1 2. rewrite H. cbn [orb].
  match goal with
  | |- context [tryCatch ?body ?handler ?st0] =>
      pose proof (tryCatch_perform_caught body ConsoleError st0) as Hcaught;
      destruct (tryCatch body handler st0) as [[[]| |] st1]
  end; [reflexivity | exfalso; apply Hcaught; reflexivity | reflexivity].
Qed.

(** When the capture resolves the [try] block goes on with [generateStep]. *)
Lemma trigger_started (captured : CapturedImage) (r : GenerationReplies)
    (st : TaskProvider) :
  isTriggeringRef st = false ->
  reply_capture r = Resolved captured ->
  triggerGenerateTaskDescription isUsingLocalProvider osName false r st
  = (Normal tt,
     snd (releaseGeneration (attempt isUsingLocalProvider osName captured r st))).
Proof.
  intros H Hc. rewrite (trigger_run r st H). unfold attempt.
  unfold tryCatch, mbind at 1, Async_bind at 1, await at 1.
  rewrite Hc. reflexivity.
Qed.

(** Whatever the collaborators answer, a generation that passes its guard
    completes normally and leaves the three busy flags down. *)
Lemma trigger_completes (r : GenerationReplies) (st : TaskProvider) :
  isTriggeringRef st = false ->
  let result := triggerGenerateTaskDescription isUsingLocalProvider osName false r st in
  fst result = Normal tt /\
  isTriggeringRef (snd result) = false /\
  isLoading (snd result) = false /\
  isLoadingPreviewImage (snd result) = false.
Proof.
  intros H result. subst result. rewrite (trigger_run r st H).
  async_eval. repeat split.
Qed.

(** What [mergePendingFollowUp] does, by its condition. *)
Lemma mergePendingFollowUp_cases (st : TaskProvider) :
  if mergesFollowUp st then
    exists currentTask,
      last (tasksRef st) = Some currentTask /\
      mergePendingFollowUp st =
      (Normal (Some (mkFollowUpContext (lastScreenshotRef st) (text currentTask)
                                       (pendingFollowUpRef st))),
       set_totalTaskCount (Z.max 0 (totalTaskCount st - 1))
         (set_tasks (removelast (tasksRef st))
            (set_tasksRef (removelast (tasksRef st))
               (set_pendingFollowUpRef "" st))))
  else mergePendingFollowUp st = (Normal None, st).
Proof.
  unfold mergesFollowUp, mergePendingFollowUp.
  unfold mbind, Async_bind, gets.
  destruct (last (tasksRef st)) as [currentTask|] eqn:Hlast.
  - rewrite bool_decide_eq_true_2 by eauto. rewrite andb_true_r.
    destruct (truthy (pendingFollowUpRef st) && truthy (lastScreenshotRef st)).
    + exists currentTask. split; reflexivity.
    + reflexivity.
  - rewrite bool_decide_eq_false_2 by (intros [? [=]]).
    rewrite andb_false_r. reflexivity.
Qed.

(** The merge always completes; it touches the history, the public counter
    and the pending follow-up only, as [mergesFollowUp] tells. *)
Lemma mergePendingFollowUp_fields (st : TaskProvider) :
  let merged := snd (mergePendingFollowUp st) in
  (exists context, fst (mergePendingFollowUp st) = Normal context) /\
  tasksRef merged = retractedHistory st /\
  tasks merged = (if mergesFollowUp st then removelast (tasksRef st) else tasks st) /\
  totalTaskCount merged =
    (if mergesFollowUp st then Z.max 0 (totalTaskCount st - 1) else totalTaskCount st) /\
  pendingFollowUpRef merged =
    (if mergesFollowUp st then "" else pendingFollowUpRef st) /\
  totalTaskGeneration merged = totalTaskGeneration st /\
  lastScreenshotRef merged = lastScreenshotRef st /\
  goal merged = goal st /\
  trace merged = trace st /\
  isTriggeringRef merged = isTriggeringRef st /\
  isLoading merged = isLoading st /\
  isLoadingPreviewImage merged = isLoadingPreviewImage st /\
  changeDetectionStartedRef merged = changeDetectionStartedRef st.
Proof.
  pose proof (mergePendingFollowUp_cases st) as H. unfold retractedHistory.
  destruct (mergesFollowUp st).
  - destruct H as (currentTask & _ & ->). cbn. repeat split; eauto.
  - rewrite H. cbn. repeat split; eauto.
Qed.

Lemma generateStep_rejected (captured : CapturedImage) (r : GenerationReplies)
    (st : TaskProvider) :
  reply_action r = Rejected ->
  exists calls,
    generateStep osName captured r st
    = (Thrown, set_trace calls (snd (mergePendingFollowUp st))).
Proof.
  intros Ha. unfold generateStep.
  destruct (mergePendingFollowUp_fields st) as ([context Hc] & _).
  unfold mbind at 1. unfold Async_bind at 1.
  destruct (mergePendingFollowUp st) as [c merged]. cbn in Hc. subst c.
  unfold mbind, Async_bind, gets, await. rewrite Ha. cbn [snd].
  eexists. reflexivity.
Qed.

Lemma generateStep_resolved (captured : CapturedImage) (r : GenerationReplies)
    (action : string) (st : TaskProvider) :
  reply_action r = Resolved action ->
  exists context,
    fst (mergePendingFollowUp st) = Normal context /\
    generateStep osName captured r st
    = announceStep (trim action) (nonScaledImageDataUrl captured) r
        (appended osName captured action context (snd (mergePendingFollowUp st))).
Proof.
  intros Ha. unfold generateStep.
  destruct (mergePendingFollowUp_fields st) as ([context Hc] & _).
  exists context. split; [exact Hc|].
  unfold mbind at 1. unfold Async_bind at 1.
  destruct (mergePendingFollowUp st) as [c merged]. cbn in Hc. subst c.
  unfold mbind at 1 2 3. unfold Async_bind at 1 2 3. unfold gets at 1 2, await.
  rewrite Ha. reflexivity.
Qed.

(** A blank instruction has no preview and does not start change
    detection. *)
Lemma announceStep_blank (image : string) (r : GenerationReplies) (st : TaskProvider) :
  announceStep "" image r st = (Normal tt, set_isLoadingPreviewImage false st).
Proof.
  unfold announceStep, whenever, mbind, Async_bind, gets, modify. cbn.
  destruct st as [? ? ? ? ? ? ? ? ? ? ? [|] ? ? ?]; reflexivity.
Qed.

(** The preview step leaves the steps and counters alone unless a snapshot
    comes back, and never touches the counters. *)
Lemma announceStep_rejected_preview (actionText image : string)
    (r : GenerationReplies) (st : TaskProvider) :
  reply_coordinate r = Rejected \/ reply_snapshot r = Rejected ->
  let st' := snd (announceStep actionText image r st) in
  tasksRef st' = tasksRef st /\ tasks st' = tasks st /\
  totalTaskCount st' = totalTaskCount st /\
  totalTaskGeneration st' = totalTaskGeneration st.
Proof.
  intros Hrej. unfold announceStep, requestPreview, whenever.
  unfold mbind, Async_bind, gets, modify, await, perform, mret, Async_ret.
  destruct (negb (startsWith actionText "https://") && _ && _); cbn.
  - destruct (reply_coordinate r) as [[coordinates|]|]; cbn.
    + destruct (truthy coordinates && coordinatePattern (trim coordinates)); cbn.
      * destruct Hrej as [Hrej|Hrej]; [discriminate|]. rewrite Hrej. cbn.
        repeat split.
      * destruct (negb _ && _ && _ && _); cbn; repeat split.
    + destruct (negb _ && _ && _ && _); cbn; repeat split.
    + repeat split.
  - destruct (negb _ && _ && _ && _); cbn; repeat split.
Qed.


Lemma elem_of_removelast {A} (l : list A) (x : A) :
  x ∈ removelast l -> x ∈ l.
Proof.
  destruct l as [|y l _] using rev_ind; [auto|].
  rewrite removelast_last. intros H. apply elem_of_app. now left.
Qed.

Lemma length_removelast_last {A} (l : list A) (x : A) :
  last l = Some x -> length (removelast l) = (length l - 1)%nat.
Proof.
  intros H. destruct (exists_last (l:=l)) as (l' & y & ->).
  { intros ->. discriminate. }
  rewrite removelast_last, length_app. cbn. lia.
Qed.

(** C3 (amended). In a generation that passes its guard and has its frame:
    every rejection is caught and the busy flags are reset; when
    [generateAction] rejects, nothing is appended and the generation counter
    is unchanged, so the history is the one the cycle started with if no
    pending follow-up was merged, and that history without its last step
    (public counter decremented, pending follow-up cleared) if one was; when
    the preview calls reject, the step just appended stays in the history. *)
Theorem failed_generation_history (r : GenerationReplies)
    (captured : CapturedImage) (st : TaskProvider) :
  isTriggeringRef st = false ->
  reply_capture r = Resolved captured ->
  let result := triggerGenerateTaskDescription isUsingLocalProvider osName false r st in
  let st' := snd result in
  (fst result = Normal tt /\ isTriggeringRef st' = false /\
   isLoading st' = false /\ isLoadingPreviewImage st' = false) /\
  (reply_action r = Rejected ->
     tasksRef st' = retractedHistory st /\
     tasks st' = (if mergesFollowUp st then removelast (tasksRef st) else tasks st) /\
     totalTaskGeneration st' = totalTaskGeneration st /\
     totalTaskCount st' =
       (if mergesFollowUp st then Z.max 0 (totalTaskCount st - 1)
        else totalTaskCount st) /\
     pendingFollowUpRef st' =
       (if mergesFollowUp st then "" else pendingFollowUpRef st) /\
     (mergesFollowUp st = false -> tasksRef st' = tasksRef st /\ tasks st' = tasks st)) /\
  (forall action,
     reply_action r = Resolved action ->
     reply_coordinate r = Rejected \/ reply_snapshot r = Rejected ->
     tasksRef st' =
       List.filter (fun item => truthy (text item))
                   (retractedHistory st ++ [mkTask (trim action) None None]) /\
     tasks st' = tasksRef st').
Proof.
  intros Hguard Hcapture result st'.
  split; [exact (trigger_completes r st Hguard)|].
  subst st' result. rewrite (trigger_started captured r st Hguard Hcapture).
  cbn [snd]. unfold attempt.
  set (st0 := set_trace _ (set_isLoading true (set_isTriggeringRef true st))).
  pose proof (mergePendingFollowUp_fields st0) as Hmerged. cbv zeta in Hmerged.
  destruct Hmerged as (_ & Hh & Ht & Hcount & Hp & Hg & _).
  change (retractedHistory st0) with (retractedHistory st) in Hh.
  change (mergesFollowUp st0) with (mergesFollowUp st) in Ht, Hcount, Hp.
  cbn [tasksRef tasks totalTaskCount totalTaskGeneration pendingFollowUpRef
       st0 set_trace set_isLoading set_isTriggeringRef] in Ht, Hcount, Hp, Hg.
  split.
  - intros Haction.
    destruct (generateStep_rejected captured r st0 Haction) as [calls Hstep].
    unfold tryCatch. rewrite Hstep.
    set (merged := snd (mergePendingFollowUp st0)) in *. clearbody merged.
    async_eval. rewrite Hh, Ht, Hcount, Hp, Hg.
    repeat (split; [reflexivity|]).
    intros Hm. unfold retractedHistory. rewrite Hm. split; reflexivity.
  - intros action Haction Hpreview.
    destruct (generateStep_resolved captured r action st0 Haction)
      as (context & _ & Hstep).
    unfold tryCatch. rewrite Hstep.
    set (merged := snd (mergePendingFollowUp st0)) in *. clearbody merged.
    set (st2 := appended osName captured action context _).
    pose proof (announceStep_rejected_preview (trim action)
                  (nonScaledImageDataUrl captured) r st2 Hpreview) as Hann.
    cbv zeta in Hann. destruct Hann as (Hr & Hs & _).
    assert (Hfinal : forall st3,
              tasksRef st3 = tasksRef st2 -> tasks st3 = tasks st2 ->
              tasksRef st3 =
                List.filter (fun item => truthy (text item))
                  (retractedHistory st ++ [mkTask (trim action) None None]) /\
              tasks st3 = tasksRef st3).
    { intros st3 H1 H2. rewrite H2, H1. subst st2. cbn. rewrite Hh. auto. }
    destruct (announceStep _ _ r st2) as [[[]| |] st3]; async_eval;
      apply Hfinal; assumption.
Qed.

(** C9. When [generateAction] resolves to a string that trims to the empty
    string, no step is appended (the history is the merged history filtered
    of empty items, itself when it has none), while the generation counter
    and the public step counter both grow by one: a public counter that was
    not below the history length is above it afterwards. *)
Theorem blank_action_counts_without_step (r : GenerationReplies)
    (captured : CapturedImage) (action : string) (st : TaskProvider) :
  isTriggeringRef st = false ->
  reply_capture r = Resolved captured ->
  reply_action r = Resolved action ->
  trim action = "" ->
  let st' := snd (triggerGenerateTaskDescription isUsingLocalProvider osName false r st) in
  tasksRef st' = List.filter (fun item => truthy (text item)) (retractedHistory st) /\
  tasks st' = tasksRef st' /\
  totalTaskGeneration st' = totalTaskGeneration st + 1 /\
  totalTaskCount st' =
    (if mergesFollowUp st then Z.max 0 (totalTaskCount st - 1)
     else totalTaskCount st) + 1 /\
  (Forall (fun item => truthy (text item) = true) (tasksRef st) ->
   tasksRef st' = retractedHistory st) /\
  (Z.of_nat (length (tasksRef st)) <= totalTaskCount st ->
   Z.of_nat (length (tasksRef st')) < totalTaskCount st').
Proof.
  intros Hguard Hcapture Haction Hblank st'.
  subst st'. rewrite (trigger_started captured r st Hguard Hcapture).
  cbn [snd]. unfold attempt.
  set (st0 := set_trace _ (set_isLoading true (set_isTriggeringRef true st))).
  pose proof (mergePendingFollowUp_fields st0) as Hmerged. cbv zeta in Hmerged.
  destruct Hmerged as (_ & Hh & _ & Hcount & _ & Hg & _).
  change (retractedHistory st0) with (retractedHistory st) in Hh.
  change (mergesFollowUp st0) with (mergesFollowUp st) in Hcount.
  cbn [totalTaskCount totalTaskGeneration
       st0 set_trace set_isLoading set_isTriggeringRef] in Hcount, Hg.
  destruct (generateStep_resolved captured r action st0 Haction)
    as (context & _ & Hstep).
  unfold tryCatch. rewrite Hstep, Hblank, announceStep_blank.
  set (merged := snd (mergePendingFollowUp st0)) in *. clearbody merged.
  async_eval. rewrite Hblank, Hh, Hcount, Hg.
  rewrite List.filter_app. cbn. rewrite app_nil_r.
  assert (Hlen : (length (List.filter (fun item => truthy (text item))
                                      (retractedHistory st))
                  <= length (retractedHistory st))%nat) by apply List.filter_length_le.
  split; [reflexivity|]. split; [reflexivity|]. split; [reflexivity|].
  split; [reflexivity|]. split.
  - intros Hall. apply forallb_filter_id. apply forallb_forall.
    intros item Hin. rewrite Forall_forall in Hall. apply Hall.
    apply list_elem_of_In in Hin. unfold retractedHistory in Hin.
    destruct (mergesFollowUp st); [now apply elem_of_removelast | exact Hin].
  - intros Hcounter. unfold retractedHistory in *.
    destruct (mergesFollowUp st) eqn:Hm; [|lia].
    unfold mergesFollowUp in Hm. apply andb_prop in Hm as [_ Hm].
    apply bool_decide_eq_true in Hm as [x Hx].
    rewrite (length_removelast_last _ x Hx) in Hlen.
    assert (0 < length (tasksRef st))%nat; [|lia].
    destruct (tasksRef st); [discriminate | cbn; lia].
Qed.

End GenerationCycle.

(** ** Task orchestrator: the step ceiling *)

Section Ceiling.

Variable isUsingLocalProvider : bool.
Variable osName : string.






































End Ceiling.

(** ** Task orchestrator: follow-up questions *)

Section FollowUps.

Variable isUsingLocalProvider : bool.
Variable osName : string.





Lemma sameHistory_withFollowUps (l0 : list TaskHistoryItem) (t : TaskHistoryItem) :
  sameHistory (l0 ++ [withFollowUps t (followUpsOf t)]) (l0 ++ [t]).
Proof. unfold sameHistory. rewrite !map_app. reflexivity. Qed.








(** C10. Called without a question, or with the empty string,
    [sendFollowUpMessage] returns at once: the state is untouched (no busy
    flag raised, history as it was) and the trace of external calls has not
    grown (no capture, no call to a collaborator). *)
Theorem sendFollowUpMessage_without_question (r : FollowUpReplies)
    (st : TaskProvider) :
  sendFollowUpMessage isUsingLocalProvider osName None r st = (Normal tt, st) /\
  sendFollowUpMessage isUsingLocalProvider osName (Some "") r st = (Normal tt, st).
Proof. split; reflexivity. Qed.

End FollowUps.

(** ** Task orchestrator: the properties on concrete runs *)

(** The component after one generated step, asked "I do not see a gear":
    the regeneration that follows is refused by the model. *)
Lemma failed_generation_history_witness :
  let st :=
    set_pendingFollowUpRef "I do not see a gear"
      (snd (runOps false "macOS" [OnNextTask OrchestratorExamples.gearReplies])) in
  let st' :=
    snd (triggerGenerateTaskDescription false "macOS" false
           OrchestratorExamples.failingReplies st) in
  mergesFollowUp st = true /\
  isTriggeringRef st' = false /\ isLoading st' = false /\
  tasksRef st' = removelast (tasksRef st) /\ pendingFollowUpRef st' = "".
Proof.
  intros st st'.
  destruct (failed_generation_history false "macOS"
              OrchestratorExamples.failingReplies
              OrchestratorExamples.capturedFrame st eq_refl eq_refl)
    as ((_ & Htrig & Hload & _) & Hrejected & _).
  destruct (Hrejected eq_refl) as (Hhistory & _ & _ & _ & Hpending & _).
  split; [reflexivity|]. split; [exact Htrig|]. split; [exact Hload|].
  split; [exact Hhistory | exact Hpending].
Defined.

(** C3 (counterexample). One step is generated; the user asks a follow-up,
    the help answer is "Regenerate", and the regeneration it starts fails at
    [generateAction]. The history held the step when the cycle started and
    is empty once the failure is caught. *)
Lemma failed_regeneration_loses_step :
  let before :=
    snd (runOps false "macOS" [OnNextTask OrchestratorExamples.gearReplies]) in
  let after :=
    snd (runOps false "macOS"
           [OnNextTask OrchestratorExamples.gearReplies;
            SendFollowUpMessage (Some "I do not see a gear")
              (OrchestratorExamples.regenerateReplies
                 OrchestratorExamples.failingReplies)]) in
  tasksRef before = [mkTask "Click the gear icon" (Some "preview") None] /\
  tasksRef after = [] /\ tasks after = [] /\
  tasksRef after <> tasksRef before /\
  last (trace after) = Some ConsoleError /\
  isTriggeringRef after = false /\ isLoading after = false.
Proof. vm_compute. repeat split; discriminate. Qed.

(** A blank answer on a fresh component. *)
Lemma blank_action_counts_without_step_witness :
  let st' :=
    snd (triggerGenerateTaskDescription false "macOS" false
           OrchestratorExamples.blankReplies initialTaskProvider) in
  tasksRef st' = [] /\ totalTaskGeneration st' = 1 /\ totalTaskCount st' = 1 /\
  Z.of_nat (length (tasksRef st')) < totalTaskCount st'.
Proof.
  intros st'.
  destruct (blank_action_counts_without_step false "macOS"
              OrchestratorExamples.blankReplies
              OrchestratorExamples.capturedFrame "   " initialTaskProvider
              eq_refl eq_refl eq_refl eq_refl)
    as (Hhistory & _ & Hgeneration & Hcount & _ & Hexceeds).
  split; [exact Hhistory|]. split; [exact Hgeneration|]. split; [exact Hcount|].
  apply Hexceeds. cbn. lia.
Defined.



(* ===================================================================== *)
(** * Part III. Further properties of the code                            *)
(* ===================================================================== *)

(** ** Strings *)

Lemma trimStartChars_fixed (l : list ascii) :
  match l with
  | c :: _ => isWhiteSpace c = false
  | [] => True
  end ->
  trimStartChars l = l.
Proof. destruct l as [|c l]; [reflexivity|]. cbn. now intros ->. Qed.

Lemma trimStartChars_head (l : list ascii) :
  match trimStartChars l with
  | c :: _ => isWhiteSpace c = false
  | [] => True
  end.
Proof.
  induction l as [|c l IH]; [exact I|]. cbn.
  destruct (isWhiteSpace c) eqn:Hc; [exact IH | exact Hc].
Qed.

(** Trimming the end of a list that starts with a character that is not
    white space leaves such a list. *)
Lemma trimEnd_head (l : list ascii) :
  match l with
  | c :: _ => isWhiteSpace c = false
  | [] => True
  end ->
  match rev (trimStartChars (rev l)) with
  | c :: _ => isWhiteSpace c = false
  | [] => True
  end.
Proof.
  destruct l as [|c l]; [intros _; exact I|]. intros Hc.
  cbn [rev].
  assert (H : exists l', trimStartChars (rev l ++ [c]) = l' ++ [c]).
  { induction (rev l) as [|x xs IH]; cbn.
    - rewrite Hc. now exists [].
    - destruct (isWhiteSpace x); [exact IH|]. now exists (x :: xs). }
  destruct H as [l' ->]. rewrite rev_app_distr. cbn. exact Hc.
Qed.

(** [s.trim().trim() === s.trim()]. *)
Lemma trim_idempotent (s : string) : trim (trim s) = trim s.
Proof.
  unfold trim. rewrite list_ascii_of_string_of_list_ascii.
  set (l1 := trimStartChars (list_ascii_of_string s)).
  pose proof (trimStartChars_head (list_ascii_of_string s)) as H1. fold l1 in H1.
  pose proof (trimEnd_head l1 H1) as H2.
  rewrite (trimStartChars_fixed _ H2), rev_involutive.
  rewrite (trimStartChars_fixed (trimStartChars (rev l1))
             (trimStartChars_head (rev l1))).
  reflexivity.
Qed.

(** ** Invariants of the component *)

Section Keeping.

Import Session.

Variable I : TaskProvider -> Prop.

Lemma keeps_ret {A} (a : A) : keeps I (mret a : Async A).
Proof. intros st H. exact H. Qed.

Lemma keeps_gets {A} (f : TaskProvider -> A) : keeps I (gets f).
Proof. intros st H. exact H. Qed.

Lemma keeps_returnNow {A} : keeps I (@returnNow A).
Proof. intros st H. exact H. Qed.

Lemma keeps_returnIf (b : bool) : keeps I (returnIf b).
Proof. intros st H. unfold returnIf. now destruct b. Qed.

Lemma keeps_settle {A} (o : Outcome A) : keeps I (settle o).
Proof. intros st H. unfold settle. now destruct o. Qed.

Lemma keeps_modify (f : TaskProvider -> TaskProvider) :
  (forall st, I st -> I (f st)) -> keeps I (modify f).
Proof. intros Hf st H. now apply Hf. Qed.

Lemma keeps_bind {A B} (m : Async A) (f : A -> Async B) :
  keeps I m -> (forall a, keeps I (f a)) -> keeps I (m ≫= f).
Proof.
  intros Hm Hf st H. unfold mbind, Async_bind.
  specialize (Hm st H). destruct (m st) as [[a| |] st1]; cbn in *; auto.
  now apply Hf.
Qed.

(** The continuation of a [gets] may depend on what was read. *)
Lemma keeps_gets_bind {A B} (g : TaskProvider -> A) (f : A -> Async B) :
  (forall st, I st -> I (snd (f (g st) st))) -> keeps I (gets g ≫= f).
Proof. intros Hf st H. unfold mbind, Async_bind, gets. now apply Hf. Qed.

Lemma keeps_at_bind {A B} (m : Async A) (f : A -> Async B) (st : TaskProvider) :
  I (snd (m st)) -> (forall a, keeps I (f a)) -> I (snd ((m ≫= f) st)).
Proof.
  intros Hm Hf. unfold mbind, Async_bind.
  destruct (m st) as [[a| |] st1]; cbn in *; auto. now apply Hf.
Qed.

Lemma keeps_tryCatch {A} (body handler : Async A) :
  keeps I body -> keeps I handler -> keeps I (tryCatch body handler).
Proof.
  intros Hb Hh st H. unfold tryCatch. specialize (Hb st H).
  destruct (body st) as [[a| |] st1]; cbn in *; auto.
Qed.

Lemma keeps_tryFinally {A} (body : Async A) (cleanup : Async unit) :
  keeps I body -> keeps I cleanup -> keeps I (tryFinally body cleanup).
Proof.
  intros Hb Hc st H. unfold tryFinally. specialize (Hb st H).
  destruct (body st) as [c st1]. specialize (Hc st1 Hb).
  destruct (cleanup st1) as [[[]| |] st2]; exact Hc.
Qed.

Lemma keeps_function (body : Async unit) : keeps I body -> keeps I (function body).
Proof.
  intros Hb st H. unfold function. specialize (Hb st H).
  destruct (body st) as [[[]| |] st1]; exact Hb.
Qed.

Lemma keeps_whenever (b : bool) (m : Async unit) :
  keeps I m -> keeps I (whenever b m).
Proof. intros Hm. unfold whenever. destruct b; [exact Hm | apply keeps_ret]. Qed.

(** What is left to show for code that only logs calls. *)
Hypothesis I_trace : forall st calls, I st -> I (set_trace calls st).

Lemma keeps_perform (e : Effect) : keeps I (perform e).
Proof. intros st H. now apply I_trace. Qed.

Lemma keeps_await {A} (e : Effect) (o : Outcome A) : keeps I (await e o).
Proof. intros st H. unfold await. destruct o; now apply I_trace. Qed.

End Keeping.

(** ** Chat messages *)

Section MessagesProperties.

Import Messages.

Lemma foldl_push_map {A B} (f : A -> B) (l : list A) (acc : list B) :
  foldl (fun acc x => acc ++ [f x]) acc l = acc ++ map f l.
Proof.
  revert acc. induction l as [|x l IH]; intros acc; cbn.
  - now rewrite app_nil_r.
  - rewrite IH, <- app_assoc. reflexivity.
Qed.

Lemma convertToOpenAIMessages_map (messages : list ClientMessage) :
  convertToOpenAIMessages messages = map convertMessage messages.
Proof. unfold convertToOpenAIMessages. now rewrite foldl_push_map. Qed.

(** X1. The conversion answers one message per message, in the same order
    and with the same roles; a conversation converted in two pieces is the
    conversation converted at once. *)
Theorem convertToOpenAIMessages_roles (messages more : list ClientMessage) :
  map paramRole (convertToOpenAIMessages messages) = map role messages /\
  length (convertToOpenAIMessages messages) = length messages /\
  convertToOpenAIMessages (messages ++ more)
  = convertToOpenAIMessages messages ++ convertToOpenAIMessages more.
Proof.
  rewrite !convertToOpenAIMessages_map. split; [|split].
  - rewrite map_map. reflexivity.
  - apply length_map.
  - apply map_app.
Qed.

Lemma contentPayload_proper (l : list MessagePart) : properPayload (contentPayload l).
Proof.
  unfold contentPayload.
  destruct l as [|[t|u] [|p l]]; cbn; auto; try (left; lia).
  right. eauto.
Qed.

(** X2. The payload of every converted message is a string, or an array
    that holds at least two parts or exactly one image: the conversion never
    answers an empty array nor an array of one text part. *)
Theorem convertToOpenAIMessages_payload (messages : list ClientMessage) :
  Forall (fun m => properPayload (paramContent m)) (convertToOpenAIMessages messages).
Proof.
  rewrite convertToOpenAIMessages_map. apply Forall_map, Forall_forall.
  intros m _. apply contentPayload_proper.
Qed.

(** X3. A conversation of plain messages [{role, content}] goes through
    unchanged: each keeps its role and its content as a string, the empty
    string included. *)
Theorem convertToOpenAIMessages_plain (conversation : list (string * string)) :
  convertToOpenAIMessages (map plainMessage conversation)
  = map (fun m => mkParam (fst m) (PayloadText (snd m))) conversation.
Proof.
  rewrite convertToOpenAIMessages_map, map_map. apply map_ext.
  intros [r c]. unfold convertMessage, plainMessage, messagePartsOf, contentPayload.
  cbn. f_equal. unfold truthy. destruct (String.eqb_spec c ""); cbn; congruence.
Qed.

Lemma imageUrls_payload (l : list MessagePart) :
  imageUrls (contentPayload l) = imageUrls (PayloadParts l).
Proof. destruct l as [|[t|u] [|p l]]; reflexivity. Qed.

Lemma pushPart_images (ps : list ClientMessagePart) (acc : list MessagePart) :
  imageUrls (PayloadParts (foldl pushPart acc ps))
  = imageUrls (PayloadParts acc) ++ omap imageFile ps.
Proof.
  revert acc. induction ps as [|part ps IH]; intros acc.
  - cbn. now rewrite app_nil_r.
  - change (foldl pushPart acc (part :: ps)) with (foldl pushPart (pushPart acc part) ps).
    rewrite IH.
    change (omap imageFile (part :: ps))
      with (match imageFile part with
            | Some u => u :: omap imageFile ps
            | None => omap imageFile ps
            end).
    assert (Hpart : imageUrls (PayloadParts (pushPart acc part))
                    = imageUrls (PayloadParts acc)
                      ++ match imageFile part with Some u => [u] | None => [] end).
    { unfold pushPart, imageFile, truthyOption, orEmpty. cbn [imageUrls].
      destruct (String.eqb (type part) "text") eqn:Htext.
      - apply String.eqb_eq in Htext. rewrite Htext. cbn [String.eqb Ascii.eqb Bool.eqb andb].
        rewrite omap_app. cbn. destruct (url part); reflexivity.
      - destruct (String.eqb (type part) "file"); cbn [andb].
        + destruct (url part) as [u|]; [|rewrite andb_false_r; now rewrite app_nil_r].
          destruct (truthy u) eqn:Hu; cbn [andb];
            [|rewrite andb_false_r; now rewrite app_nil_r].
          rewrite andb_true_r.
          destruct (_ || _); rewrite ?omap_app; cbn; now rewrite ?app_nil_r.
        + destruct (url part); now rewrite app_nil_r. }
    rewrite Hpart, <- app_assoc. destruct (imageFile part); reflexivity.
Qed.

(** X4. The images of a message that has [parts] are the image files among
    its parts that have an address, in their order: the conversion drops no
    such image and adds none. *)
Theorem convertMessage_images (r : string) (c : option string)
    (ps : list ClientMessagePart) (attachments : option (list ClientAttachment)) :
  imageUrls (paramContent (convertMessage (mkMessage r c (Some ps) attachments)))
  = omap imageFile ps.
Proof.
  unfold convertMessage, messagePartsOf. cbn [parts paramContent].
  rewrite imageUrls_payload, pushPart_images. reflexivity.
Qed.

End MessagesProperties.

(** ** Product analytics *)

Section AnalyticsProperties.

Import Analytics.

Lemma replay_app (open : SessionProperties) (l1 l2 : list Capture) :
  replay open (l1 ++ l2) = replay open l1 ≫= fun open' => replay open' l2.
Proof.
  revert open. induction l1 as [|e l1 IH]; intros open; [reflexivity|].
  destruct e; cbn [app replay]; try (destruct (sameSession _ _); [apply IH|reflexivity]).
  destruct open; [reflexivity | apply IH].
Qed.

Lemma sameSession_refl (s : SessionProperties) : sameSession s s = true.
Proof. unfold sameSession. now apply bool_decide_eq_true. Qed.

Lemma replay_capture (event : Capture) (a : Analytics) :
  filedUnder event = Some (getSessionProperties a) ->
  replay None (captured a) = Some (getSessionProperties a) ->
  replay None (captured (capture event a)) = Some (getSessionProperties a).
Proof.
  intros Hfiled H. cbn [capture captured]. rewrite replay_app, H. cbn.
  destruct event; try discriminate; cbn in Hfiled |- *;
    injection Hfiled as ->; now rewrite sameSession_refl.
Qed.

Lemma replay_end (outcome : SessionOutcome) (now : Z) (a : Analytics) :
  replay None (captured a) = Some (getSessionProperties a) ->
  replay None (captured (endQuestionSession outcome now a)) = Some None /\
  sessionRef (endQuestionSession outcome now a) = None.
Proof.
  intros H. unfold endQuestionSession, getSessionProperties in *.
  destruct (sessionRef a) as [session|] eqn:Href.
  - cbn. rewrite replay_app, H. cbn. now rewrite sameSession_refl.
  - rewrite Href. auto.
Qed.

Lemma replay_call (a : Analytics) (c : Call) :
  replay None (captured a) = Some (getSessionProperties a) ->
  replay None (captured (call a c)) = Some (getSessionProperties (call a c)).
Proof.
  intros H.
  destruct c; cbn [call];
    try (apply (replay_capture _ a); [reflexivity | exact H]).
  - (* startQuestionSession *)
    unfold startQuestionSession. cbn [snd].
    assert (Hended : exists a', replay None (captured a') = Some None /\
              (match sessionRef a with
               | Some _ => endQuestionSession started_over nowEnded a
               | None => a
               end) = a').
    { destruct (sessionRef a) eqn:Href.
      - eexists. split; [|reflexivity]. now apply replay_end.
      - exists a. split; [|reflexivity]. rewrite H.
        unfold getSessionProperties. now rewrite Href. }
    destruct Hended as (a' & Ha' & ->).
    cbn. rewrite replay_app, Ha'. reflexivity.
  - destruct (replay_end outcome now a H) as [H1 H2].
    unfold getSessionProperties. now rewrite H2.
  - (* trackTaskCompleted *)
    unfold trackTaskCompleted.
    destruct (sessionRef a) as [session|] eqn:Href.
    + match goal with |- context [capture ?e ?b] => apply (replay_capture e b) end;
        [reflexivity|].
      cbn. rewrite H. unfold getSessionProperties. now rewrite Href.
    + apply (replay_capture _ a); [reflexivity | exact H].
  - unfold trackAllTasksCompleted.
    match goal with |- context [endQuestionSession ?o ?n ?b] =>
      destruct (replay_end o n b) as [H1 H2] end.
    { apply (replay_capture _ a); [reflexivity | exact H]. }
    unfold getSessionProperties at 2. now rewrite H2.
  - unfold trackMaxStepsExceeded.
    match goal with |- context [endQuestionSession ?o ?n ?b] =>
      destruct (replay_end o n b) as [H1 H2] end.
    { apply (replay_capture _ a); [reflexivity | exact H]. }
    unfold getSessionProperties at 2. now rewrite H2.
  - unfold trackStartOverClicked.
    match goal with |- context [endQuestionSession ?o ?n ?b] =>
      destruct (replay_end o n b) as [H1 H2] end.
    { apply (replay_capture _ a); [reflexivity | exact H]. }
    unfold getSessionProperties at 2. now rewrite H2.
  - unfold handleBeforeUnload. destruct (sessionRef a) eqn:Href; [|exact H].
    destruct (replay_end abandoned now a H) as [H1 H2].
    unfold getSessionProperties. now rewrite H2.
Qed.

(** X5. Whatever the consumers call and in whatever order, the captured
    events replay as sessions that never overlap: a session is started only
    when none is open, every end names the open session, every other event
    carries the identifier and text of the session open when it was captured
    (or none outside a session), and the session left open is the one the
    provider holds. *)
Theorem analytics_sessions_replay (cs : list Call) :
  replay None (captured (calls cs)) = Some (getSessionProperties (calls cs)).
Proof.
  unfold calls. induction cs as [|c cs IH] using rev_ind; [reflexivity|].
  rewrite foldl_app. cbn [foldl]. now apply replay_call.
Qed.

Lemma recount_app (count : option Z) (l1 l2 : list Capture) :
  recount count (l1 ++ l2) = recount count l1 ≫= fun count' => recount count' l2.
Proof.
  revert count. induction l1 as [|e l1 IH]; intros count; [reflexivity|].
  cbn [app recount].
  destruct (match reportedSteps e with Some _ => _ | None => _ end); [|reflexivity].
  destruct e; apply IH.
Qed.

(** The count the provider holds for the open session. *)
Lemma recount_capture (event : Capture) (a : Analytics) :
  match reportedSteps event with
  | Some steps => steps = stepsSoFar a
  | None => True
  end ->
  match event with
  | question_session_started _ _ | question_session_ended _ _ _ _ _
  | task_completed _ _ _ => False
  | _ => True
  end ->
  recount None (captured a) = Some (stepsCompleted <$> sessionRef a) ->
  recount None (captured (capture event a)) = Some (stepsCompleted <$> sessionRef a).
Proof.
  intros Hsteps Hkind H. cbn [capture captured]. rewrite recount_app, H. cbn.
  assert (Hsofar : default 0 (stepsCompleted <$> sessionRef a) = stepsSoFar a).
  { unfold stepsSoFar. now destruct (sessionRef a). }
  rewrite Hsofar.
  destruct event; cbn in Hsteps, Hkind |- *; try contradiction;
    try reflexivity; subst; now rewrite Z.eqb_refl.
Qed.

Lemma recount_end (outcome : SessionOutcome) (now : Z) (a : Analytics) :
  recount None (captured a) = Some (stepsCompleted <$> sessionRef a) ->
  recount None (captured (endQuestionSession outcome now a)) = Some None /\
  sessionRef (endQuestionSession outcome now a) = None.
Proof.
  intros H. unfold endQuestionSession.
  destruct (sessionRef a) as [session|] eqn:Href.
  - cbn. rewrite recount_app, H. cbn. now rewrite Z.eqb_refl.
  - rewrite Href, H. auto.
Qed.

Lemma recount_call (a : Analytics) (c : Call) :
  recount None (captured a) = Some (stepsCompleted <$> sessionRef a) ->
  recount None (captured (call a c)) = Some (stepsCompleted <$> sessionRef (call a c)).
Proof.
  intros H.
  destruct c; cbn [call];
    try (apply (recount_capture _ a); [exact I | exact I | exact H]).
  - unfold startQuestionSession. cbn [snd].
    assert (Hended : exists a', recount None (captured a') = Some None /\
              (match sessionRef a with
               | Some _ => endQuestionSession started_over nowEnded a
               | None => a
               end) = a').
    { destruct (recount_end started_over nowEnded a H) as [Hend _].
      destruct (sessionRef a) eqn:Href.
      - eexists. split; [exact Hend | reflexivity].
      - exists a. split; [|reflexivity]. now rewrite H. }
    destruct Hended as (a' & Ha' & ->).
    cbn. rewrite recount_app, Ha'. reflexivity.
  - destruct (recount_end outcome now a H) as [H1 H2]. now rewrite H2.
  - unfold trackTaskCompleted.
    destruct (sessionRef a) as [session|] eqn:Href.
    + cbn. rewrite recount_app, H. reflexivity.
    + cbn. rewrite recount_app, H, Href. reflexivity.
  - unfold trackAllTasksCompleted.
    match goal with |- context [endQuestionSession ?o ?n ?b] =>
      destruct (recount_end o n b) as [H1 H2] end.
    { apply (recount_capture _ a); [reflexivity | exact I | exact H]. }
    now rewrite H2.
  - unfold trackMaxStepsExceeded.
    match goal with |- context [endQuestionSession ?o ?n ?b] =>
      destruct (recount_end o n b) as [H1 H2] end.
    { apply (recount_capture _ a); [reflexivity | exact I | exact H]. }
    now rewrite H2.
  - unfold trackStartOverClicked.
    match goal with |- context [endQuestionSession ?o ?n ?b] =>
      destruct (recount_end o n b) as [H1 H2] end.
    { apply (recount_capture _ a); [reflexivity | exact I | exact H]. }
    now rewrite H2.
  - unfold handleBeforeUnload.
    destruct (recount_end abandoned now a H) as [H1 H2].
    destruct (sessionRef a) eqn:Href.
    + now rewrite H2.
    + now rewrite Href.
Qed.

(** X6. Every step count the provider reports (when a session ends, when
    all tasks are completed, at the step ceiling, on starting over) is the
    number of [task_completed] events captured since that session started,
    and 0 outside a session; the count held for the open session is that
    number too. *)
Theorem analytics_steps_recount (cs : list Call) :
  recount None (captured (calls cs)) = Some (stepsCompleted <$> sessionRef (calls cs)).
Proof.
  unfold calls. induction cs as [|c cs IH] using rev_ind; [reflexivity|].
  rewrite foldl_app. cbn [foldl]. now apply recount_call.
Qed.

End AnalyticsProperties.

(** ** One-off captures *)

Section CaptureProperties.

Import Capture.

Variable platform : Platform.

Lemma maxPixelsOf_cases (options : option CaptureImageOptions) :
  maxPixelsOf options = 800000 \/ maxPixelsOf options = 1000000 \/
  maxPixelsOf options = 1500000.
Proof.
  unfold maxPixelsOf, imagePixelSize.
  destruct options as [[w [[| |]|] [[|]|]]|]; cbn; auto.
Qed.


(** A side of at most the budget keeps at least one pixel when scaled. *)
Lemma floorMulSqrt_positive (x y b : Z) :
  0 < x -> 0 < y -> y <= b -> 0 < floorMulSqrt x b (x * y).
Proof.
  intros Hx Hy Hb. unfold floorMulSqrt.
  assert (H1 : 1 <= x * x * b / (x * y)).
  { apply Z.div_le_lower_bound; nia. }
  assert (H2 : Z.sqrt 1 <= Z.sqrt (x * x * b / (x * y))) by now apply Z.sqrt_le_mono.
  change (Z.sqrt 1) with 1 in H2. lia.
Qed.

(** X8. The promise of a capture settles for every video whose sides are
    positive and at most 800000 pixels: it resolves when a canvas context is
    to be had and rejects otherwise or when the video fails to load; it is
    never left pending by an exception inside the timer callback. *)
Theorem captureImageFromStream_settles (options : option CaptureImageOptions)
    (outcome : VideoOutcome) (s : ScreenShare) :
  keepsShape platform ->
  (forall env, outcome = MetadataLoaded env ->
     0 < videoWidth (snap_video env) <= 800000 /\
     0 < videoHeight (snap_video env) <= 800000) ->
  match fst (captureImageFromStream platform options outcome s) with
  | Resolves _ _ =>
      stream s = None \/ exists env, outcome = MetadataLoaded env /\ snap_ctx env = true
  | Rejects =>
      outcome = VideoError \/ exists env, outcome = MetadataLoaded env /\ snap_ctx env = false
  | NeverSettles => False
  end.
Proof.
  intros Hshape Hsides. unfold captureImageFromStream.
  destruct (stream s) as [st|]; [|cbn; auto].
  destruct outcome as [env|]; [|cbn; auto].
  destruct (Hsides env eq_refl) as [Hw Hh].
  destruct (getScaledDimensions _ _ _) as [w h] eqn:Hdims.
  destruct (snap_ctx env) eqn:Hctx; cbn [negb]; [|cbn; eauto].
  assert (Hpos : 0 < w /\ 0 < h).
  { unfold getScaledDimensions in Hdims.
    pose proof (maxPixelsOf_cases options) as Hbudget.
    destruct (Z.ltb_spec (maxPixelsOf options)
                (videoWidth (snap_video env) * videoHeight (snap_video env)));
      injection Hdims as <- <-; [|lia].
    split.
    - apply floorMulSqrt_positive; lia.
    - rewrite (Z.mul_comm (videoWidth _)). apply floorMulSqrt_positive; lia. }
  unfold grabMasked, getImageData.
  destruct (maskOverlay_shape platform (drawImage (snap_video env) w h)
              (snap_pip env) w h Hshape) as (Hwidth & Hheight & _).
  rewrite Hwidth, Hheight. cbn [drawImage width height].
  destruct (Z.ltb_spec 0 w); [|lia]. destruct (Z.ltb_spec 0 h); [|lia].
  cbn. eauto.
Qed.

End CaptureProperties.


Lemma captureImageFromStream_settles_witness :
  match fst (Capture.captureImageFromStream Examples.browser None
               (Capture.MetadataLoaded StoreExamples.whiteScreen)
               StoreExamples.sharing) with
  | Capture.Resolves _ _ =>
      stream StoreExamples.sharing = None \/
      exists env, Capture.MetadataLoaded StoreExamples.whiteScreen
                  = Capture.MetadataLoaded env /\ snap_ctx env = true
  | Capture.Rejects =>
      Capture.MetadataLoaded StoreExamples.whiteScreen = Capture.VideoError \/
      exists env, Capture.MetadataLoaded StoreExamples.whiteScreen
                  = Capture.MetadataLoaded env /\ snap_ctx env = false
  | Capture.NeverSettles => False
  end.
Proof.
  apply (captureImageFromStream_settles Examples.browser).
  - exact fillRectPixels_keepsShape.
  - intros env [= <-]. cbn. lia.
Defined.

(** ** Invariants of the store *)

Section StoreInvariants.

Variable platform : Platform.

Lemma pauseTimersKept_refl (s : ScreenShare) : pauseTimersKept s s.
Proof. split; auto. Qed.

Lemma pauseTimersKept_trans (s1 s2 s3 : ScreenShare) :
  pauseTimersKept s1 s2 -> pauseTimersKept s2 s3 -> pauseTimersKept s1 s3.
Proof. intros [H1 H2] [H3 H4]. split; [congruence | eauto]. Qed.

Lemma pauseTimersKept_known (s s' : ScreenShare) :
  pauseTimersKept s s' -> pauseTimerKnown s -> pauseTimerKnown s'.
Proof.
  intros [H1 H2] H id ms Hid. rewrite H1. eapply H, H2, Hid.
Qed.

Lemma kept_clearTimeout (id : nat) (s : ScreenShare) :
  pauseTimersKept s (clearTimeout id s).
Proof.
  split; [reflexivity|]. cbn. intros id' ms H.
  apply lookup_delete_Some in H. tauto.
Qed.

Lemma kept_arm (callback : TimerCallback) (ms : Z) (s : ScreenShare) :
  callback <> TemporaryResume ->
  pauseTimersKept s (armDetectionTimer callback ms s).
Proof.
  intros Hcb. split; [reflexivity|]. cbn. intros id' ms' H.
  apply lookup_insert_Some in H as [[_ [= ? ?]]|[_ H]]; [congruence | exact H].
Qed.

Lemma kept_stop (s : ScreenShare) : pauseTimersKept s (stopChangeDetection s).
Proof.
  unfold stopChangeDetection. destruct (changeDetectionTimer s) as [id|].
  - split; [reflexivity|]. cbn. intros id' ms H.
    apply lookup_delete_Some in H. tauto.
  - split; [reflexivity | auto].
Qed.

Lemma kept_runDetection (loop : DetectionLoop) (env : Snapshot) (s : ScreenShare) :
  pauseTimersKept s (runDetection platform loop env s).
Proof.
  unfold runDetection.
  repeat match goal with
         | |- pauseTimersKept _ (if ?b then _ else _) => destruct b
         | |- pauseTimersKept _ (match ?x with _ => _ end) => destruct x
         end;
    try apply pauseTimersKept_refl;
    try (apply kept_arm; discriminate).
  - eapply pauseTimersKept_trans; [|apply kept_arm; discriminate].
    split; [reflexivity | auto].
  - eapply pauseTimersKept_trans; [|apply kept_arm; discriminate].
    split; [reflexivity | auto].
Qed.

Lemma kept_captureAfterChange (loop : DetectionLoop) (w h : Z)
    (pip : option PipDetails) (env : Snapshot) (s : ScreenShare) :
  pauseTimersKept s (captureAfterChange platform loop w h pip env s).
Proof.
  unfold captureAfterChange.
  assert (Hfields : forall s0, pauseTimersKept s s0 ->
            pauseTimersKept s
              (match (if snap_resetCtx env
                      then match grabMasked platform (snap_video env) pip w h with
                           | Some newSmallData =>
                               Some (set_previousImageData (Some newSmallData) s0)
                           | None => None
                           end
                      else Some s0) with
               | Some s1 => armDetectionTimer (RunDetection loop) (captureDelayMs loop) s1
               | None => s0
               end)).
  { intros s0 H0. destruct (snap_resetCtx env).
    - destruct (grabMasked _ _ pip w h); [|exact H0].
      eapply pauseTimersKept_trans; [|apply kept_arm; discriminate].
      eapply pauseTimersKept_trans; [exact H0|]. split; [reflexivity | auto].
    - eapply pauseTimersKept_trans; [exact H0 | apply kept_arm; discriminate]. }
  destruct (snap_ctx env).
  - destruct (confirmationFrame platform env); [|apply pauseTimersKept_refl].
    apply Hfields. split; [reflexivity | auto].
  - apply Hfields, pauseTimersKept_refl.
Qed.

Lemma known_step (s : ScreenShare) (e : Event) :
  pauseTimerKnown s -> pauseTimerKnown (step platform s e).
Proof.
  intros H. destruct e; cbn [step].
  - exact H.
  - eapply pauseTimersKept_known; [|exact H].
    eapply pauseTimersKept_trans; [apply kept_stop|]. split; [reflexivity | auto].
  - unfold startChangeDetection. destruct (stream s); [|exact H].
    eapply pauseTimersKept_known; [|exact H].
    eapply pauseTimersKept_trans; [apply kept_stop|]. split; [reflexivity | auto].
  - eapply pauseTimersKept_known; [apply kept_stop | exact H].
  - unfold pauseChangeDetection. destruct (negb _); exact H.
  - unfold resumeChangeDetection. destruct (negb _); exact H.
  - (* pauseChangeDetectionTemporarily *)
    unfold pauseChangeDetectionTemporarily. destruct (negb _); [exact H|].
    intros id ms. cbn. intros Hid.
    apply lookup_insert_Some in Hid as [[<- _]|[Hne Hid]].
    + destruct (temporaryPauseTimer s); reflexivity.
    + exfalso. destruct (temporaryPauseTimer s) as [old|] eqn:Hold; cbn in Hid.
      * apply lookup_delete_Some in Hid as [Hne' Hid].
        apply H in Hid. congruence.
      * apply H in Hid. congruence.
  - exact H.
  - unfold onloadedmetadata. destruct (awaitingMetadata s !! video); [|exact H].
    eapply pauseTimersKept_known; [|exact H].
    eapply pauseTimersKept_trans; [|apply kept_arm; discriminate].
    split; [reflexivity | auto].
  - (* a timer fires *)
    unfold fire. destruct (timers s !! timer) as [[callback ms]|] eqn:Htimer;
      [|exact H].
    assert (Hdel : pauseTimersKept s
                     (set_timers (delete timer (timers s)) (nextTimer s) s))
      by apply kept_clearTimeout.
    destruct callback.
    + eapply pauseTimersKept_known; [|exact H].
      eapply pauseTimersKept_trans; [exact Hdel | apply kept_runDetection].
    + eapply pauseTimersKept_known; [|exact H].
      eapply pauseTimersKept_trans; [exact Hdel | apply kept_captureAfterChange].
    + intros id ms'. cbn. intros Hid.
      apply lookup_delete_Some in Hid as [Hne Hid].
      apply H in Hid. apply H in Htimer. congruence.
Qed.

(** X9. Whatever happens to the store, at most one timer that ends a
    temporary pause is pending, and it is the one the store remembers:
    pausing again cancels the timer of the pause before. *)
Theorem one_temporary_pause_timer (events : list Event) :
  let s := run platform events initialStore in
  (forall id ms,
     timers s !! id = Some (TemporaryResume, ms) -> temporaryPauseTimer s = Some id) /\
  (forall id1 id2 ms1 ms2,
     timers s !! id1 = Some (TemporaryResume, ms1) ->
     timers s !! id2 = Some (TemporaryResume, ms2) -> id1 = id2).
Proof.
  assert (H : pauseTimerKnown (run platform events initialStore)).
  { unfold run. induction events as [|e events IH] using rev_ind.
    - intros id ms. cbn. now rewrite lookup_empty.
    - rewrite foldl_app. cbn [foldl]. now apply known_step. }
  split; [exact H|].
  intros id1 id2 ms1 ms2 H1 H2. apply H in H1, H2. congruence.
Qed.

Lemma sharingConsistent_stop (s : ScreenShare) :
  sharingConsistent s -> sharingConsistent (stopChangeDetection s).
Proof.
  intros [H1 H2]. unfold stopChangeDetection.
  destruct (changeDetectionTimer s); split; cbn; auto; discriminate.
Qed.

Lemma sharingConsistent_fields (s s' : ScreenShare) :
  stream s' = stream s -> isSharing s' = isSharing s ->
  (changeDetectionEnabled s' = true -> changeDetectionEnabled s = true) ->
  sharingConsistent s -> sharingConsistent s'.
Proof.
  intros Hs Hi He [H1 H2]. split; rewrite Hs; [congruence | auto].
Qed.

Lemma runDetection_fields (loop : DetectionLoop) (env : Snapshot) (s : ScreenShare) :
  let s' := runDetection platform loop env s in
  stream s' = stream s /\ isSharing s' = isSharing s /\
  changeDetectionEnabled s' = changeDetectionEnabled s.
Proof.
  unfold runDetection.
  repeat match goal with
         | |- context [if ?b then _ else _] => destruct b
         | |- context [match ?x with _ => _ end] => destruct x
         end; cbn; auto.
Qed.

Lemma captureAfterChange_fields (loop : DetectionLoop) (w h : Z)
    (pip : option PipDetails) (env : Snapshot) (s : ScreenShare) :
  let s' := captureAfterChange platform loop w h pip env s in
  stream s' = stream s /\ isSharing s' = isSharing s /\
  changeDetectionEnabled s' = changeDetectionEnabled s.
Proof.
  unfold captureAfterChange.
  destruct (snap_ctx env); [destruct (confirmationFrame platform env)|];
    destruct (snap_resetCtx env); try destruct (grabMasked _ _ pip w h);
    cbn; auto.
Qed.

Lemma sharingConsistent_step (s : ScreenShare) (e : Event) :
  sharingConsistent s -> sharingConsistent (step platform s e).
Proof.
  intros H. destruct e; cbn [step].
  - split; cbn; [reflexivity | eauto].
  - split; cbn; [reflexivity | discriminate].
  - unfold startChangeDetection. destruct (stream s) eqn:Hs; [|exact H].
    apply sharingConsistent_stop in H. destruct H as [H1 H2].
    assert (Hstream : stream (stopChangeDetection s) = Some n).
    { unfold stopChangeDetection. destruct (changeDetectionTimer s); exact Hs. }
    split; [exact H1 | intros _].
    change (is_Some (stream (stopChangeDetection s))). rewrite Hstream. eauto.
  - now apply sharingConsistent_stop.
  - unfold pauseChangeDetection. destruct (negb _); [exact H|].
    eapply sharingConsistent_fields; [..|exact H]; cbn; auto.
  - unfold resumeChangeDetection. destruct (negb _); [exact H|].
    eapply sharingConsistent_fields; [..|exact H]; cbn; auto.
  - unfold pauseChangeDetectionTemporarily. destruct (negb _); [exact H|].
    eapply sharingConsistent_fields; [..|exact H];
      destruct (temporaryPauseTimer s); cbn; auto.
  - eapply sharingConsistent_fields; [..|exact H]; cbn; auto.
  - unfold onloadedmetadata. destruct (awaitingMetadata s !! video); [|exact H].
    eapply sharingConsistent_fields; [..|exact H]; cbn; auto.
  - unfold fire. destruct (timers s !! timer) as [[callback ms]|]; [|exact H].
    set (s0 := set_timers _ _ s).
    assert (H0 : sharingConsistent s0)
      by (eapply sharingConsistent_fields; [..|exact H]; cbn; auto).
    destruct callback as [loop|loop w h pip|].
    + destruct (runDetection_fields loop env s0) as (A & B & C).
      eapply sharingConsistent_fields; [exact A | exact B | | exact H0]. congruence.
    + destruct (captureAfterChange_fields loop w h pip env s0) as (A & B & C).
      eapply sharingConsistent_fields; [exact A | exact B | | exact H0]. congruence.
    + eapply sharingConsistent_fields; [..|exact H0]; cbn; auto.
Qed.

(** X10. Whatever happens to the store, [isSharing] is set exactly when a
    stream is held, and change detection is enabled only while a stream is
    held: stopping the share disables it, and it cannot be started without a
    stream. *)
Theorem detection_only_while_sharing (events : list Event) :
  let s := run platform events initialStore in
  isSharing s = bool_decide (is_Some (stream s)) /\
  (changeDetectionEnabled s = true -> is_Some (stream s)).
Proof.
  unfold run. induction events as [|e events IH] using rev_ind.
  - split; [reflexivity | discriminate].
  - rewrite foldl_app. cbn [foldl]. now apply sharingConsistent_step.
Qed.

Lemma dormant_step (s : ScreenShare) (e : Event) :
  isStartSharing e = false -> dormant s -> dormant (step platform s e).
Proof.
  intros He (Hs & Hen & Hp & Ht & Ha & Hv & Hc & Hprev).
  assert (Hstop : dormant (stopChangeDetection s)).
  { unfold dormant, stopChangeDetection.
    destruct (changeDetectionTimer s); cbn; rewrite ?Ht, ?delete_empty;
      repeat split; auto. }
  destruct e; cbn [step]; try discriminate.
  - unfold stopSharing. destruct Hstop as (? & ? & ? & ? & ? & ? & ? & ?).
    repeat split; auto.
  - unfold startChangeDetection. rewrite Hs. repeat split; auto.
  - exact Hstop.
  - unfold pauseChangeDetection. rewrite Hen. repeat split; auto.
  - unfold resumeChangeDetection. rewrite Hen. repeat split; auto.
  - unfold pauseChangeDetectionTemporarily. rewrite Hen. repeat split; auto.
  - repeat split; auto.
  - unfold onloadedmetadata. rewrite Ha, lookup_empty. repeat split; auto.
  - unfold fire. rewrite Ht, lookup_empty. repeat split; auto.
Qed.

(** X11. Until a stream is handed to the store nothing can be set going:
    whatever else is called or fires, detection stays disabled and not
    paused, no timer is pending, no video element is created and the change
    callback is never invoked. *)
Theorem nothing_before_sharing (events : list Event) :
  forallb (fun e => negb (isStartSharing e)) events = true ->
  let s := run platform events initialStore in
  stream s = None /\ changeDetectionEnabled s = false /\
  isChangeDetectionPaused s = false /\ timers s = ∅ /\
  awaitingMetadata s = ∅ /\ hiddenVideos s = [] /\ onChangeCalls s = [] /\
  previousImageData s = None.
Proof.
  intros Hevents. cbv zeta. change (dormant (run platform events initialStore)).
  unfold run. induction events as [|e events IH] using rev_ind.
  - repeat split.
  - rewrite forallb_app in Hevents. apply andb_prop in Hevents as [H1 H2].
    cbn in H2. rewrite andb_true_r in H2. apply negb_true_iff in H2.
    rewrite foldl_app. cbn [foldl]. apply dormant_step; auto.
Qed.

End StoreInvariants.

Lemma nothing_before_sharing_witness :
  let s := run Examples.browser StoreExamples.neverShared initialStore in
  stream s = None /\ changeDetectionEnabled s = false /\
  isChangeDetectionPaused s = false /\ timers s = ∅ /\
  awaitingMetadata s = ∅ /\ hiddenVideos s = [] /\ onChangeCalls s = [] /\
  previousImageData s = None.
Proof.
  apply (nothing_before_sharing Examples.browser StoreExamples.neverShared).
  reflexivity.
Defined.

(** ** Step-completion checks *)

Section WatchProperties.

Import Watch.

(** While a check is awaited, a frame handed to [handleScreenChange] is
    queued and nothing else happens. *)
Lemma handleScreenChange_busy (replies : list CheckReply) (image : string)
    (w : Watcher) :
  isCheckingStepRef (provider w) = true ->
  handleScreenChange replies image w = Settled (queueFrame image w) /\
  isCheckingStepRef (provider (queueFrame image w)) = true.
Proof. intros H. unfold handleScreenChange. rewrite H. auto. Qed.

Lemma queueFrames_fields (frames : list string) (w : Watcher) :
  let w' := foldl (fun w image => queueFrame image w) w frames in
  besidesCheck (provider w') = besidesCheck (provider w) /\
  isCheckingStepRef (provider w') = isCheckingStepRef (provider w) /\
  autoCompleteTriggered w' = autoCompleteTriggered w /\
  watchCalls w' = watchCalls w /\
  pendingCheckImageRef (provider w')
  = match last frames with
    | Some image => Some image
    | None => pendingCheckImageRef (provider w)
    end.
Proof.
  revert w. induction frames as [|image frames IH] using rev_ind; intros w.
  - cbn. auto.
  - cbv zeta. rewrite foldl_app, last_snoc. cbn [foldl].
    destruct (IH w) as (H1 & H2 & H3 & H4 & _).
    repeat split; cbn; auto.
Qed.

(** One step of [processScreenChange] when no check can be made. *)
Lemma processScreenChange_uncheckable (replies : list CheckReply) (image : string)
    (w : Watcher) :
  checkable (provider w) = false ->
  exists w0,
    processScreenChange replies image w = Settled (analysisOver w0) /\
    besidesCheck (provider w0) = besidesCheck (provider w) /\
    (isCheckingStepRef (provider w) = false -> isCheckingStepRef (provider w0) = false) /\
    autoCompleteTriggered w0 = autoCompleteTriggered w /\
    watchCalls w0 = watchCalls w.
Proof.
  intros H. unfold checkable in H.
  destruct replies as [|reply rest]; cbn [processScreenChange];
    (destruct (currentTaskTextOf (provider w)) as [t|]; [|exists w; auto];
     destruct (truthy t); cbn [negb orb andb] in *; [|exists w; auto];
     destruct (isTriggeringRef (provider w)); cbn [negb orb andb] in *;
       [exists w; auto|];
     destruct (String.eqb (toLowerCase t) "done" || String.eqb (toLowerCase t) "done.");
       cbn [negb orb andb] in *; [exists w; auto|];
     rewrite H; cbn [negb];
     exists (setChecking false (setChecking true w)); repeat split; auto).
Qed.

(** One step of [processScreenChange] when a check can be made. *)
Lemma processScreenChange_checkable (reply : CheckReply) (rest : list CheckReply)
    (image : string) (w : Watcher) :
  checkable (provider w) = true ->
  exists t,
    currentTaskTextOf (provider w) = Some t /\
    processScreenChange (reply :: rest) image w
    = let w1 := foldl (fun w image => queueFrame image w)
                      (log (CheckStepCompletion (taskDescriptionOf t)
                              (lastScreenshotRef (provider w)) image)
                           (setChecking true w))
                      (arrivals reply) in
      match verdict reply with
      | Rejected => Settled (analysisOver (setChecking false (log ConsoleErrorCall w1)))
      | Resolved isCompleted =>
          let w2 := setPending None (setChecking false w1) in
          if isCompleted then
            Settled (mkWatcher (provider w2) (autoCompleteTriggered w2 + 1)
                               (watchCalls w2 ++ [SetIsAnalyzingScreenChange false]))
          else
            match pendingCheckImageRef (provider w1) with
            | Some pending =>
                if truthy pending then processScreenChange rest pending w2
                else Settled (analysisOver w2)
            | None => Settled (analysisOver w2)
            end
      end.
Proof.
  intros H. unfold checkable in H. cbn [processScreenChange].
  destruct (currentTaskTextOf (provider w)) as [t|]; [|discriminate].
  exists t. split; [reflexivity|].
  destruct (truthy t); [|discriminate]. cbn [negb orb andb] in *.
  destruct (isTriggeringRef (provider w)); [discriminate|]. cbn [negb orb andb] in *.
  destruct (String.eqb (toLowerCase t) "done" || String.eqb (toLowerCase t) "done.");
    [discriminate|]. cbn [negb orb andb] in *.
  rewrite H. cbn [negb]. reflexivity.
Qed.

Lemma processScreenChange_released (replies : list CheckReply) :
  forall (image : string) (w : Watcher),
    isCheckingStepRef (provider w) = false ->
    pendingCheckImageRef (provider w) = None ->
    (exists r, last replies = Some r /\ arrivals r = []) ->
    exists w', processScreenChange replies image w = Settled w' /\ released w w'.
Proof.
  induction replies as [|reply rest IH]; intros image w Hfree Hnone Hlast.
  { destruct Hlast as (r & [=] & _). }
  destruct (checkable (provider w)) eqn:Hcheck.
  - destruct (processScreenChange_checkable reply rest image w Hcheck)
      as (t & _ & ->).
    set (w0 := log _ (setChecking true w)).
    destruct (queueFrames_fields (arrivals reply) w0) as (F1 & F2 & F3 & F4 & F5).
    cbv zeta in F1, F2, F3, F4, F5 |- *.
    set (w1 := foldl _ w0 (arrivals reply)) in *.
    assert (Hb : besidesCheck (provider w1) = besidesCheck (provider w))
      by (rewrite F1; reflexivity).
    destruct (verdict reply) as [[|]|].
    + eexists. split; [reflexivity|]. unfold released. cbn.
      split; [reflexivity|]. split; [apply last_snoc|]. split; [exact Hb|].
      right. rewrite F3. reflexivity.
    + assert (Hover : exists w',
                Settled (analysisOver (setPending None (setChecking false w1)))
                = Settled w' /\ released w w').
      { eexists. split; [reflexivity|]. unfold released. cbn.
        split; [reflexivity|]. split; [apply last_snoc|]. split; [exact Hb|].
        left. rewrite F3. reflexivity. }
      destruct (pendingCheckImageRef (provider w1)) as [pending|] eqn:Hpending;
        [|exact Hover].
      destruct (truthy pending); [|exact Hover].
      destruct rest as [|reply' rest'].
      { exfalso. destruct Hlast as (r & [= <-] & Harr).
        rewrite Harr in F5. cbn in F5. rewrite Hnone in F5. congruence. }
      destruct (IH pending (setPending None (setChecking false w1)))
        as (w' & Hrun & Hrel).
      { reflexivity. }
      { reflexivity. }
      { destruct Hlast as (r & Hr & Harr). exists r. split; [|exact Harr].
        exact Hr. }
      exists w'. split; [exact Hrun|].
      destruct Hrel as (R1 & R2 & R3 & R4).
      split; [exact R1|]. split; [exact R2|]. split.
      * rewrite R3. exact Hb.
      * cbn in R4. rewrite F3 in R4. exact R4.
    + eexists. split; [reflexivity|]. unfold released. cbn.
      split; [reflexivity|]. split; [apply last_snoc|]. split; [exact Hb|].
      left. rewrite F3. reflexivity.
  - destruct (processScreenChange_uncheckable (reply :: rest) image w Hcheck)
      as (w0 & -> & G1 & G2 & G3 & G4).
    eexists. split; [reflexivity|]. unfold released. cbn.
    split; [auto|]. split; [apply last_snoc|]. split; [exact G1|]. left. exact G3.
Qed.

(** X12. A frame handed to [handleScreenChange] while no check is running
    and no frame is pending is dealt with to the end once the checks are
    answered (the last answer coming with no further frame): the function
    settles with the checking lock released, its last call clears the
    analysing flag, the completion counter has grown by one at most, and
    nothing else of the component has changed. *)
Theorem handleScreenChange_settles (replies : list CheckReply) (image : string)
    (w : Watcher) :
  isCheckingStepRef (provider w) = false ->
  pendingCheckImageRef (provider w) = None ->
  (exists r, last replies = Some r /\ arrivals r = []) ->
  exists w',
    handleScreenChange replies image w = Settled w' /\
    isCheckingStepRef (provider w') = false /\
    last (watchCalls w') = Some (SetIsAnalyzingScreenChange false) /\
    besidesCheck (provider w') = besidesCheck (provider w) /\
    (autoCompleteTriggered w' = autoCompleteTriggered w \/
     autoCompleteTriggered w' = autoCompleteTriggered w + 1).
Proof.
  intros Hfree Hnone Hlast. unfold handleScreenChange. rewrite Hfree.
  exact (processScreenChange_released replies image w Hfree Hnone Hlast).
Qed.

Lemma watcher_eq (a b : Watcher) :
  provider a = provider b -> autoCompleteTriggered a = autoCompleteTriggered b ->
  watchCalls a = watchCalls b -> a = b.
Proof. destruct a, b. cbn. congruence. Qed.

(** X13. Frames that arrive while a check is awaited are not queued one
    behind the other: when the check says "completed" the counter grows by
    one and none of them is ever checked; when it says "not completed" the
    function goes on exactly as if the latest of them had just been handed
    to it, whatever the earlier ones were. *)
Theorem frames_during_check_coalesce (reply : CheckReply) (rest : list CheckReply)
    (image : string) (w : Watcher) :
  isCheckingStepRef (provider w) = false ->
  pendingCheckImageRef (provider w) = None ->
  checkable (provider w) = true ->
  exists t,
    currentTaskTextOf (provider w) = Some t /\
    let checked :=
      log (CheckStepCompletion (taskDescriptionOf t)
             (lastScreenshotRef (provider w)) image) w in
    (verdict reply = Resolved true ->
     handleScreenChange (reply :: rest) image w
     = Settled (mkWatcher (provider w) (autoCompleteTriggered w + 1)
                          (watchCalls checked ++ [SetIsAnalyzingScreenChange false]))) /\
    (forall early latest,
       verdict reply = Resolved false ->
       arrivals reply = early ++ [latest] -> truthy latest = true ->
       handleScreenChange (reply :: rest) image w
       = handleScreenChange rest latest checked).
Proof.
  intros Hfree Hnone Hcheck. unfold handleScreenChange. rewrite Hfree.
  destruct (processScreenChange_checkable reply rest image w Hcheck)
    as (t & Ht & ->).
  exists t. split; [exact Ht|]. cbv zeta.
  set (w0 := log _ (setChecking true w)).
  destruct (queueFrames_fields (arrivals reply) w0) as (F1 & F2 & F3 & F4 & F5).
  cbv zeta in F1, F2, F3, F4, F5.
  set (w1 := foldl _ w0 (arrivals reply)) in *.
  assert (Hnext : setPending None (setChecking false w1)
                  = log (CheckStepCompletion (taskDescriptionOf t)
                           (lastScreenshotRef (provider w)) image) w).
  { apply watcher_eq; cbn.
    - change (besidesCheck (provider w1) = provider w). rewrite F1. cbn.
      destruct (provider w). cbn in Hfree, Hnone. subst. reflexivity.
    - rewrite F3. reflexivity.
    - rewrite F4. reflexivity. }
  split.
  - intros ->. rewrite Hnext. reflexivity.
  - intros early latest -> Harr Htruthy.
    rewrite Harr, last_snoc in F5. rewrite F5, Htruthy, Hnext.
    cbn [provider log]. rewrite Hfree. reflexivity.
Qed.

(** X14. No check is asked for when there is nothing to check: with an
    empty history, a blank or "done" step (in any letter case), a generation
    in flight or no screenshot of the step, a frame handed to
    [handleScreenChange] only has the analysing flag cleared. *)
Theorem no_check_without_step_in_progress (replies : list CheckReply)
    (image : string) (w : Watcher) :
  isCheckingStepRef (provider w) = false ->
  tasksRef (provider w) = [] \/
  (exists item, last (tasksRef (provider w)) = Some item /\
     (text item = "" \/ toLowerCase (text item) = "done"
      \/ toLowerCase (text item) = "done.")) \/
  isTriggeringRef (provider w) = true \/
  lastScreenshotRef (provider w) = "" ->
  handleScreenChange replies image w
  = Settled (log (SetIsAnalyzingScreenChange false) w).
Proof.
  intros Hfree Hcase. unfold handleScreenChange. rewrite Hfree.
  assert (Hcheck : checkable (provider w) = false).
  { unfold checkable, currentTaskTextOf.
    destruct Hcase as [H|[(item & -> & H)|[H|H]]].
    - rewrite H. reflexivity.
    - destruct H as [->|[->| ->]]; [reflexivity|..];
        destruct (truthy (text item) && negb (isTriggeringRef (provider w)));
        reflexivity.
    - rewrite H. destruct (last _); [|reflexivity].
      now rewrite andb_false_r.
    - rewrite H. destruct (last _); [|reflexivity]. now rewrite andb_false_r. }
  destruct replies as [|reply rest]; cbn [processScreenChange];
    unfold checkable in Hcheck;
    (destruct (currentTaskTextOf (provider w)) as [t|]; [|reflexivity];
     destruct (truthy t); cbn [negb orb andb] in *; [|reflexivity];
     destruct (isTriggeringRef (provider w)); cbn [negb orb andb] in *;
       [reflexivity|];
     destruct (String.eqb (toLowerCase t) "done" || String.eqb (toLowerCase t) "done.");
       cbn [negb orb andb] in *; [reflexivity|];
     rewrite Hcheck; cbn [negb]; unfold analysisOver; f_equal; f_equal;
     apply watcher_eq; cbn; [|reflexivity..];
     destruct (provider w); cbn in Hfree; subst; reflexivity).
Qed.

End WatchProperties.

(** The frame is checked, two more arrive, the later one is checked and
    completes the step. *)
Lemma handleScreenChange_settles_witness :
  exists w',
    Watch.handleScreenChange WatchExamples.twoChecks "frame 1" WatchExamples.oneStep
    = Watch.Settled w' /\
    isCheckingStepRef (Watch.provider w') = false /\
    last (Watch.watchCalls w') = Some (Watch.SetIsAnalyzingScreenChange false) /\
    Watch.besidesCheck (Watch.provider w')
    = Watch.besidesCheck (Watch.provider WatchExamples.oneStep) /\
    (Watch.autoCompleteTriggered w'
     = Watch.autoCompleteTriggered WatchExamples.oneStep \/
     Watch.autoCompleteTriggered w'
     = Watch.autoCompleteTriggered WatchExamples.oneStep + 1).
Proof.
  apply (handleScreenChange_settles WatchExamples.twoChecks "frame 1"
           WatchExamples.oneStep).
  - reflexivity.
  - reflexivity.
  - eexists. split; reflexivity.
Defined.

Lemma frames_during_check_coalesce_witness :
  exists t,
    Watch.currentTaskTextOf (Watch.provider WatchExamples.oneStep) = Some t /\
    let checked :=
      Watch.log (Watch.CheckStepCompletion (Watch.taskDescriptionOf t)
                   (lastScreenshotRef (Watch.provider WatchExamples.oneStep))
                   "frame 1") WatchExamples.oneStep in
    (Resolved false = Resolved true ->
     Watch.handleScreenChange WatchExamples.twoChecks "frame 1" WatchExamples.oneStep
     = Watch.Settled
         (Watch.mkWatcher (Watch.provider WatchExamples.oneStep)
            (Watch.autoCompleteTriggered WatchExamples.oneStep + 1)
            (Watch.watchCalls checked ++ [Watch.SetIsAnalyzingScreenChange false]))) /\
    (forall early latest,
       Resolved false = Resolved false ->
       ["frame 2"; "frame 3"] = early ++ [latest] -> truthy latest = true ->
       Watch.handleScreenChange WatchExamples.twoChecks "frame 1" WatchExamples.oneStep
       = Watch.handleScreenChange [Watch.mkCheckReply [] (Resolved true)] latest checked).
Proof.
  apply (frames_during_check_coalesce
           (Watch.mkCheckReply ["frame 2"; "frame 3"] (Resolved false))
           [Watch.mkCheckReply [] (Resolved true)] "frame 1" WatchExamples.oneStep);
    reflexivity.
Defined.

Lemma no_check_without_step_in_progress_witness :
  Watch.handleScreenChange WatchExamples.twoChecks "frame 1" WatchExamples.finished
  = Watch.Settled (Watch.log (Watch.SetIsAnalyzingScreenChange false)
                             WatchExamples.finished).
Proof.
  apply (no_check_without_step_in_progress WatchExamples.twoChecks "frame 1"
           WatchExamples.finished).
  - reflexivity.
  - right. left. eexists. split; [reflexivity|]. right. left. reflexivity.
Defined.

Section NeverReturning.

Import Session.

Lemma neverReturns_ret {A} (a : A) : neverReturns (mret a : Async A).
Proof. intros st. discriminate. Qed.

Lemma neverReturns_gets {A} (f : TaskProvider -> A) : neverReturns (gets f).
Proof. intros st. discriminate. Qed.

Lemma neverReturns_modify (f : TaskProvider -> TaskProvider) : neverReturns (modify f).
Proof. intros st. discriminate. Qed.

Lemma neverReturns_perform (e : Effect) : neverReturns (perform e).
Proof. intros st. discriminate. Qed.

Lemma neverReturns_await {A} (e : Effect) (o : Outcome A) : neverReturns (await e o).
Proof. intros st. unfold await. destruct o; discriminate. Qed.

Lemma neverReturns_settle {A} (o : Outcome A) : neverReturns (settle o).
Proof. intros st. unfold settle. destruct o; discriminate. Qed.

Lemma neverReturns_bind {A B} (m : Async A) (f : A -> Async B) :
  neverReturns m -> (forall a, neverReturns (f a)) -> neverReturns (m ≫= f).
Proof.
  intros Hm Hf st. unfold mbind, Async_bind. specialize (Hm st).
  destruct (m st) as [[a| |] st1]; cbn in *; [apply Hf | discriminate | congruence].
Qed.

Lemma neverReturns_tryCatch {A} (body handler : Async A) :
  neverReturns body -> neverReturns handler -> neverReturns (tryCatch body handler).
Proof.
  intros Hb Hh st. unfold tryCatch. specialize (Hb st).
  destruct (body st) as [[a| |] st1]; cbn in *; [discriminate | apply Hh | congruence].
Qed.

Lemma neverReturns_function (body : Async unit) : neverReturns (function body).
Proof.
  intros st. unfold function. destruct (body st) as [[[]| |] st1]; discriminate.
Qed.

Lemma neverReturns_whenever (b : bool) (m : Async unit) :
  neverReturns m -> neverReturns (whenever b m).
Proof. intros Hm. unfold whenever. destruct b; [exact Hm | apply neverReturns_ret]. Qed.

(** *** Triples *)

Lemma triple_bind {A B} (P : TaskProvider -> Prop) (m : Async A) (f : A -> Async B)
    (Q1 : Completion A -> TaskProvider -> Prop)
    (Q : Completion B -> TaskProvider -> Prop) :
  triple P m Q1 ->
  (forall a, triple (Q1 (Normal a)) (f a) Q) ->
  (forall st, Q1 Thrown st -> Q Thrown st) ->
  (forall st, Q1 Returned st -> Q Returned st) ->
  triple P (m ≫= f) Q.
Proof.
  intros Hm Hf Ht Hr st H. unfold mbind, Async_bind. specialize (Hm st H).
  destruct (m st) as [[a| |] st1]; cbn in *; auto. apply Hf, Hm.
Qed.

(** Code that keeps [I] and does not return, followed by more code. *)
Lemma triple_then {A B} (I : TaskProvider -> Prop) (m : Async A) (f : A -> Async B)
    (Q : Completion B -> TaskProvider -> Prop) :
  keeps I m -> neverReturns m ->
  (forall a, triple I (f a) Q) ->
  (forall st, I st -> Q Thrown st) ->
  triple I (m ≫= f) Q.
Proof.
  intros Hk Hn Hf Ht st H. unfold mbind, Async_bind.
  specialize (Hk st H). specialize (Hn st).
  destruct (m st) as [[a| |] st1]; cbn in *; [now apply Hf | auto | congruence].
Qed.

(** An assignment, followed by more code. *)
Lemma triple_modify_then {B} (P P' : TaskProvider -> Prop)
    (g : TaskProvider -> TaskProvider) (k : Async B)
    (Q : Completion B -> TaskProvider -> Prop) :
  (forall st, P st -> P' (g st)) -> triple P' k Q -> triple P (modify g;; k) Q.
Proof. intros Hg Hk st H. unfold mbind, Async_bind, modify. apply Hk, Hg, H. Qed.

Lemma triple_straight {A} (I : TaskProvider -> Prop) (m : Async A)
    (Q : Completion A -> TaskProvider -> Prop) :
  keeps I m -> neverReturns m ->
  (forall c st, I st -> c <> Returned -> Q c st) ->
  triple I m Q.
Proof. intros Hk Hn HQ st H. apply HQ; [now apply Hk | apply Hn]. Qed.

Lemma triple_tryCatch {A} (P : TaskProvider -> Prop) (body handler : Async A)
    (Q1 Q : Completion A -> TaskProvider -> Prop) :
  triple P body Q1 ->
  triple (Q1 Thrown) handler Q ->
  (forall a st, Q1 (Normal a) st -> Q (Normal a) st) ->
  (forall st, Q1 Returned st -> Q Returned st) ->
  triple P (tryCatch body handler) Q.
Proof.
  intros Hb Hh Hn Hr st H. unfold tryCatch. specialize (Hb st H).
  destruct (body st) as [[a| |] st1]; cbn in *; auto.
Qed.

End NeverReturning.

Ltac straight :=
  repeat lazymatch goal with
    | |- Session.neverReturns (mret _) => apply neverReturns_ret
    | |- Session.neverReturns (gets _) => apply neverReturns_gets
    | |- Session.neverReturns (modify _) => apply neverReturns_modify
    | |- Session.neverReturns (perform _) => apply neverReturns_perform
    | |- Session.neverReturns (await _ _) => apply neverReturns_await
    | |- Session.neverReturns (settle _) => apply neverReturns_settle
    | |- Session.neverReturns (function _) => apply neverReturns_function
    | |- Session.neverReturns (whenever _ _) => apply neverReturns_whenever
    | |- Session.neverReturns (tryCatch _ _) => apply neverReturns_tryCatch
    | |- Session.neverReturns (mbind _ _) => apply neverReturns_bind; [|intros ?]
    | |- Session.neverReturns (match ?x with _ => _ end) => destruct x
    | |- Session.neverReturns (if ?b then _ else _) => destruct b
    | |- Session.neverReturns (let '(_, _) := ?x in _) => destruct x
    end.

(** [keeping_by known leaf] goes through the structure of the code: [known]
    is tried first on every piece, [leaf] is run on what a [modify] and a
    logged call leave to show. *)
Ltac keeping_by known leaf :=
  repeat first
    [ known
    | lazymatch goal with
      | |- Session.keeps _ (mret _) => apply keeps_ret
      | |- Session.keeps _ (gets _) => apply keeps_gets
      | |- Session.keeps _ returnNow => apply keeps_returnNow
      | |- Session.keeps _ (returnIf _) => apply keeps_returnIf
      | |- Session.keeps _ (settle _) => apply keeps_settle
      | |- Session.keeps _ (perform _) => apply keeps_perform; solve [leaf]
      | |- Session.keeps _ (await _ _) => apply keeps_await; solve [leaf]
      | |- Session.keeps _ (modify _) => apply keeps_modify; solve [leaf]
      | |- Session.keeps _ (whenever _ _) => apply keeps_whenever
      | |- Session.keeps _ (tryCatch _ _) => apply keeps_tryCatch
      | |- Session.keeps _ (tryFinally _ _) => apply keeps_tryFinally
      | |- Session.keeps _ (function _) => apply keeps_function
      | |- Session.keeps _ (mbind _ _) => apply keeps_bind; [|intros ?]
      | |- Session.keeps _ (match ?x with _ => _ end) => destruct x
      | |- Session.keeps _ (if ?b then _ else _) => destruct b
      | |- Session.keeps _ (let '(_, _) := ?x in _) => destruct x
      end ].

Ltac keeping leaf := keeping_by fail leaf.

Section FollowUpStraight.

Import Session.

Variable isUsingLocalProvider : bool.
Variable osName : string.

Lemma neverReturns_updateLastFollowUps (guard : list FollowUpItem -> bool)
    (f : list FollowUpItem -> list FollowUpItem) :
  neverReturns (updateLastFollowUps guard f).
Proof. unfold updateLastFollowUps, publishTasks. straight. Qed.

Lemma neverReturns_streamPartials (question : string) (stream : list string)
    (locals : bool * bool) :
  neverReturns (streamPartials question locals stream).
Proof.
  revert locals. induction stream as [|message stream IH]; intros locals.
  - apply neverReturns_ret.
  - cbn [streamPartials]. apply neverReturns_bind; [|intros ?; apply IH].
    unfold onStreamedMessage, removeLastFollowUpFromCurrentTask,
           addFollowUpToCurrentTask, updateCurrentFollowUpAnswer.
    destruct locals as [hasAdded isRegenerating].
    straight; apply neverReturns_updateLastFollowUps.
Qed.

End FollowUpStraight.

Section AtRest.

Import Session.

Variable isUsingLocalProvider : bool.
Variable osName : string.

Ltac same := intros; assumption.

Ltac flags :=
  intros;
  repeat match goal with
         | H : atRest _ |- _ => destruct H as (? & ? & ? & ?)
         | H : generationAtRest _ |- _ => destruct H as (? & ? & ?)
         end;
  unfold atRest, generationAtRest; cbn; auto.

Lemma keeps_updateLastFollowUps (I : TaskProvider -> Prop)
    (guard : list FollowUpItem -> bool) (f : list FollowUpItem -> list FollowUpItem) :
  (forall st l, I st -> I (set_tasksRef l st)) ->
  (forall st l, I st -> I (set_tasks l st)) ->
  keeps I (updateLastFollowUps guard f).
Proof.
  intros H1 H2. unfold updateLastFollowUps, publishTasks.
  keeping ltac:(intros; first [apply H1 | apply H2]; assumption).
Qed.

Lemma keeps_streamPartials (I : TaskProvider -> Prop) (question : string)
    (stream : list string) (locals : bool * bool) :
  (forall guard f, keeps I (updateLastFollowUps guard f)) ->
  keeps I (streamPartials question locals stream).
Proof.
  intros Hupdate. revert locals.
  induction stream as [|message stream IH]; intros locals.
  - apply keeps_ret.
  - cbn [streamPartials]. apply keeps_bind; [|intros ?; apply IH].
    unfold onStreamedMessage, removeLastFollowUpFromCurrentTask,
           addFollowUpToCurrentTask, updateCurrentFollowUpAnswer.
    destruct locals as [hasAdded isRegenerating].
    keeping_by ltac:(apply Hupdate) fail.
Qed.

(** A generation leaves the flag of the follow-up as it is. *)
Lemma trigger_keeps_followUpFlag (v exceeded : bool) (r : GenerationReplies) :
  keeps (fun st => isLoadingFollowUp st = v)
        (triggerGenerateTaskDescription isUsingLocalProvider osName exceeded r).
Proof.
  unfold triggerGenerateTaskDescription, generateStep, announceStep,
         requestPreview, attachPreviewImage, mergePendingFollowUp, publishTasks,
         releaseGeneration.
  keeping same.
Qed.

Lemma trigger_generationAtRest (exceeded : bool) (r : GenerationReplies) :
  keeps generationAtRest
        (triggerGenerateTaskDescription isUsingLocalProvider osName exceeded r).
Proof.
  intros st (H1 & H2 & H3). destruct exceeded.
  - rewrite trigger_skipped by reflexivity. repeat split; assumption.
  - destruct (trigger_completes isUsingLocalProvider osName r st H1)
      as (_ & A & B & C).
    repeat split; assumption.
Qed.

Lemma trigger_atRest (exceeded : bool) (r : GenerationReplies) :
  keeps atRest
        (triggerGenerateTaskDescription isUsingLocalProvider osName exceeded r).
Proof.
  intros st (H1 & H2 & H3 & H4).
  destruct (trigger_generationAtRest exceeded r st) as (A & B & C);
    [repeat split; assumption|].
  pose proof (trigger_keeps_followUpFlag false exceeded r st H4) as D.
  repeat split; assumption.
Qed.

(** The inner [try] statement of [sendFollowUpMessage]: it leaves by
    [return] only after a regeneration, with the flag of the follow-up
    down. *)
Lemma followUp_answer_settled (question : string) (exceeded hasAddedFollowUp : bool)
    (r : FollowUpReplies) :
  triple generationAtRest
    (tryCatch
       (helpText ← settle (reply_help r);
        if String.eqb (trim helpText) "Regenerate" then
          whenever hasAddedFollowUp removeLastFollowUpFromCurrentTask;;
          modify (set_pendingFollowUpRef question);;
          modify (set_isLoadingFollowUp false);;
          triggerGenerateTaskDescription isUsingLocalProvider osName exceeded
            (reply_regeneration r);;
          returnNow
        else
          whenever (negb hasAddedFollowUp)
            (addFollowUpToCurrentTask (mkFollowUp question helpText));;
          perform (TrackFollowupResponseReceived question))
       (perform ConsoleError;;
        whenever hasAddedFollowUp removeLastFollowUpFromCurrentTask))
    (fun c st => generationAtRest st /\ (c = Returned -> isLoadingFollowUp st = false)).
Proof.
  set (Q := fun (c : Completion unit) st =>
              generationAtRest st /\ (c = Returned -> isLoadingFollowUp st = false)).
  assert (Hstraight : forall c st, generationAtRest st -> c <> Returned -> Q c st).
  { intros c st H Hc. split; [exact H | congruence]. }
  assert (Hhandler : keeps generationAtRest
                       (perform ConsoleError;;
                        whenever hasAddedFollowUp removeLastFollowUpFromCurrentTask))
    by keeping_by ltac:(apply keeps_updateLastFollowUps; flags) flags.
  assert (Hquiet : neverReturns
                     (perform ConsoleError;;
                      whenever hasAddedFollowUp removeLastFollowUpFromCurrentTask))
    by (straight; apply neverReturns_updateLastFollowUps).
  apply (triple_tryCatch _ _ _ Q Q); [| |auto|auto].
  - apply triple_then;
      [apply keeps_settle | apply neverReturns_settle | intros helpText
      | intros st H; apply Hstraight; [exact H | discriminate]].
    destruct (String.eqb (trim helpText) "Regenerate").
    + apply triple_then;
        [keeping_by ltac:(apply keeps_updateLastFollowUps; flags) flags
        | straight; apply neverReturns_updateLastFollowUps | intros _
        | intros st H; apply Hstraight; [exact H | discriminate]].
      apply triple_then;
        [keeping flags | straight | intros _
        | intros st H; apply Hstraight; [exact H | discriminate]].
      apply (triple_modify_then _
               (fun st => generationAtRest st /\ isLoadingFollowUp st = false));
        [flags|].
      apply triple_then.
      * intros st [H1 H2]. split.
        -- now apply trigger_generationAtRest.
        -- now apply trigger_keeps_followUpFlag.
      * apply neverReturns_function.
      * intros _ st [H1 H2]. split; [exact H1 | intros _; exact H2].
      * intros st [H1 H2]. split; [exact H1 | discriminate].
    + apply triple_straight;
        [keeping_by ltac:(apply keeps_updateLastFollowUps; flags) flags
        | straight; apply neverReturns_updateLastFollowUps
        | exact Hstraight].
  - intros st [H _]. apply Hstraight; [now apply Hhandler | apply Hquiet].
Qed.

Lemma triple_function_keeps (I : TaskProvider -> Prop) (body : Async unit) :
  triple I body (fun _ st => I st) -> keeps I (function body).
Proof.
  intros Hb st H. unfold function. specialize (Hb st H).
  destruct (body st) as [[[]| |] st1]; exact Hb.
Qed.

Lemma sendFollowUpMessage_atRest (question : option string) (r : FollowUpReplies) :
  keeps atRest (sendFollowUpMessage isUsingLocalProvider osName question r).
Proof.
  unfold sendFollowUpMessage. apply triple_function_keeps.
  destruct question as [question|]; [|intros st H; exact H].
  destruct (negb (truthy question)); [intros st H; exact H|].
  apply triple_then; [apply keeps_returnIf | intros st; discriminate | intros _
                     | intros st H; exact H].
  apply triple_then; [apply keeps_gets | apply neverReturns_gets | intros exceeded
                     | intros st H; exact H].
  apply triple_then; [keeping flags | straight | intros _ | intros st H; exact H].
  apply (triple_modify_then _ generationAtRest); [flags|].
  apply (triple_bind _ _ _ followUpSettled).
  - (* the [try] statement *)
    apply (triple_tryCatch _ _ _
             (fun c st => generationAtRest st /\
                          (c = Returned -> isLoadingFollowUp st = false))).
    + apply triple_then; [keeping flags | straight | intros captured
                         | intros st H; split; [exact H | discriminate]].
      apply triple_then; [keeping flags | straight | intros history
                         | intros st H; split; [exact H | discriminate]].
      apply triple_then; [keeping flags | straight | intros currentGoal
                         | intros st H; split; [exact H | discriminate]].
      apply triple_then; [keeping flags | straight | intros _
                         | intros st H; split; [exact H | discriminate]].
      apply triple_then; [apply keeps_streamPartials; intros;
                            apply keeps_updateLastFollowUps; flags
                         | apply neverReturns_streamPartials
                         | intros [hasAddedFollowUp isRegenerating]
                         | intros st H; split; [exact H | discriminate]].
      apply followUp_answer_settled.
    + intros st [H _]. cbn. split; [flags|]. split; discriminate.
    + intros a st [H1 H2]. split; [exact H1|]. split; [discriminate | exact H2].
    + intros st [H1 H2]. split; [exact H1|]. split; [discriminate | exact H2].
  - intros [] st (H & _ & _). cbn. flags.
  - intros st (_ & H & _). congruence.
  - intros st ((H1 & H2 & H3) & _ & H4). repeat split; auto.
Qed.

Lemma handler_atRest (op : Op) :
  keeps atRest (handler isUsingLocalProvider osName op).
Proof.
  destruct op; cbn [handler].
  - unfold onNextTask. keeping_by ltac:(apply trigger_atRest) flags.
  - unfold onRefreshTask, publishTasks.
    keeping_by ltac:(apply trigger_atRest) flags.
  - unfold triggerFirstTask. keeping_by ltac:(apply trigger_atRest) flags.
  - unfold returnToTask. keeping flags.
  - apply sendFollowUpMessage_atRest.
Qed.

End AtRest.

Section SessionRuns.

Import Watch Session.

Variable isUsingLocalProvider : bool.
Variable osName : string.

(** A check, answered or not, touches the two references of the check, the
    completion counter and the log of its own calls only, and never stops
    the detection. *)
Lemma processScreenChange_frame (replies : list CheckReply) :
  forall (image : string) (w : Watcher),
    let w' := watcherOf (processScreenChange replies image w) in
    besidesCheck (provider w') = besidesCheck (provider w) /\
    detectionStops w' = detectionStops w.
Proof.
  assert (Hlog : forall c w, c <> StopChangeDetection ->
            detectionStops (log c w) = detectionStops w).
  { intros c w Hc. unfold detectionStops, log. cbn.
    rewrite List.filter_app, length_app. destruct c; cbn; congruence || lia. }
  induction replies as [|reply rest IH]; intros image w; cbv zeta.
  - cbn [processScreenChange].
    destruct (currentTaskTextOf (provider w)) as [t|];
      [|split; [reflexivity | now apply Hlog]].
    destruct (negb (truthy t) || isTriggeringRef (provider w));
      [split; [reflexivity | now apply Hlog]|].
    destruct (String.eqb (toLowerCase t) "done" || String.eqb (toLowerCase t) "done.");
      [split; [reflexivity | now apply Hlog]|].
    destruct (negb (truthy (lastScreenshotRef (provider w)))); cbn [watcherOf];
      (split; [reflexivity|]); unfold analysisOver;
      rewrite Hlog by discriminate; reflexivity.
  - destruct (checkable (provider w)) eqn:Hcheck.
    + destruct (processScreenChange_checkable reply rest image w Hcheck)
        as (t & _ & ->).
      set (w0 := log _ (setChecking true w)).
      destruct (queueFrames_fields (arrivals reply) w0) as (F1 & _ & _ & F4 & _).
      cbv zeta in F1, F4 |- *.
      set (w1 := foldl _ w0 (arrivals reply)) in *.
      assert (Hb : besidesCheck (provider w1) = besidesCheck (provider w))
        by (rewrite F1; reflexivity).
      assert (Hs : detectionStops w1 = detectionStops w).
      { unfold detectionStops. rewrite F4. now apply (Hlog _ (setChecking true w)). }
      assert (Hover : forall w2,
                besidesCheck (provider w2) = besidesCheck (provider w) ->
                detectionStops w2 = detectionStops w ->
                besidesCheck (provider (analysisOver w2)) = besidesCheck (provider w) /\
                detectionStops (analysisOver w2) = detectionStops w).
      { intros w2 H1 H2. split; [exact H1|]. unfold analysisOver.
        now rewrite Hlog. }
      destruct (verdict reply) as [[|]|].
      * cbn [watcherOf provider]. split; [exact Hb|].
        change (detectionStops (analysisOver (setPending None (setChecking false w1)))
                = detectionStops w).
        now apply Hover.
      * destruct (pendingCheckImageRef (provider w1)) as [pending|];
          [|now apply Hover].
        destruct (truthy pending); [|now apply Hover].
        destruct (IH pending (setPending None (setChecking false w1))) as [H1 H2].
        split; [rewrite H1; exact Hb | rewrite H2; exact Hs].
      * cbn [watcherOf]. apply Hover; [exact Hb|].
        change (detectionStops (log ConsoleErrorCall w1) = detectionStops w).
        now rewrite Hlog.
    + destruct (processScreenChange_uncheckable (reply :: rest) image w Hcheck)
        as (w0 & -> & G1 & _ & _ & G4).
      cbn [watcherOf]. split; [exact G1|]. unfold analysisOver.
      rewrite Hlog by discriminate. unfold detectionStops. now rewrite G4.
Qed.

Lemma handleScreenChange_frame (replies : list CheckReply) (image : string)
    (w : Watcher) :
  let w' := watcherOf (handleScreenChange replies image w) in
  besidesCheck (provider w') = besidesCheck (provider w) /\
  detectionStops w' = detectionStops w.
Proof.
  unfold handleScreenChange. destruct (isCheckingStepRef (provider w)).
  - split; reflexivity.
  - apply processScreenChange_frame.
Qed.

Lemma commitRender_keeps (I : TaskProvider -> Prop) (previous : option (bool * Z))
    (st : TaskProvider) :
  (forall st calls, I st -> I (set_trace calls st)) ->
  I st -> I (snd (commitRender previous st)).
Proof.
  intros Htrace H. unfold commitRender. cbn [snd].
  destruct (match previous with Some _ => _ | None => _ end); [|exact H].
  revert st H. change (keeps I maxStepsEffect). unfold maxStepsEffect.
  keeping ltac:(intros; now apply Htrace).
Qed.

(** An invariant of the component that every handler keeps, that holds
    after [reset], and that reads neither the trace nor the references of the
    check, holds all along a run. *)
Lemma runActions_invariant (I : TaskProvider -> Prop) (actions : list Action) :
  (forall st calls, I st -> I (set_trace calls st)) ->
  (forall st, I st <-> I (besidesCheck st)) ->
  (forall op, keeps I (handler isUsingLocalProvider osName op)) ->
  I initialTaskProvider ->
  I (provider (runActions isUsingLocalProvider osName actions)).
Proof.
  intros Htrace Hcheck Hhandler Hinit. unfold runActions.
  induction actions as [|a actions IH] using rev_ind.
  - cbn [foldl snd provider]. now apply commitRender_keeps.
  - rewrite foldl_app. cbn [foldl]. unfold act at 1. cbn [snd provider].
    apply commitRender_keeps; [exact Htrace|].
    set (w := snd (foldl _ _ actions)) in *.
    destruct a as [op| |image replies]; cbn [dispatch].
    + cbn. now apply Hhandler.
    + cbn. now apply Htrace with (st := initialTaskProvider).
    + destruct (handleScreenChange_frame replies image w) as [H _].
      cbv zeta in H. apply (proj2 (Hcheck _)). rewrite H.
      apply (proj1 (Hcheck _)). exact IH.
Qed.

(** X15. Between two actions nothing is left busy: whatever the consumers
    call, whatever the change detector hands in and whatever the
    collaborators answer or refuse, the generation lock is free and the
    flags [isLoading], [isLoadingPreviewImage] and [isLoadingFollowUp] are
    down. *)
Theorem component_at_rest (actions : list Action) :
  let st := provider (runActions isUsingLocalProvider osName actions) in
  isTriggeringRef st = false /\ isLoading st = false /\
  isLoadingPreviewImage st = false /\ isLoadingFollowUp st = false.
Proof.
  cbv zeta. apply (runActions_invariant atRest).
  - intros st calls H. exact H.
  - intros st. split; intros H; exact H.
  - apply handler_atRest.
  - repeat split.
Qed.

End SessionRuns.

Section History.

Import Session.

Variable isUsingLocalProvider : bool.
Variable osName : string.

Ltac same := intros; assumption.

Ltac run_async :=
  unfold publishTasks, whenever, returnIf, perform, modify, gets,
         mbind, Async_bind, mret, Async_ret;
  cbn.

Lemma Forall_removelast {A} (P : A -> Prop) (l : list A) :
  Forall P l -> Forall P (removelast l).
Proof.
  rewrite !Forall_forall. intros H x Hx. apply H. now apply elem_of_removelast.
Qed.

Lemma length_removelast_le {A} (l : list A) :
  (length (removelast l) <= length l)%nat /\
  (l <> [] -> length (removelast l) = (length l - 1)%nat).
Proof.
  destruct l as [|x l _] using rev_ind; [cbn; split; [lia | congruence]|].
  rewrite removelast_last, length_app. cbn. split; [lia | intros _; lia].
Qed.

(** The history with its last step replaced by one of the same text. *)
Lemma historyInvariant_replace_last (st : TaskProvider) (i : nat)
    (item new : TaskHistoryItem) :
  historyInvariant st -> tasksRef st !! i = Some item -> text new = text item ->
  historyInvariant (set_tasks (<[i := new]> (tasksRef st))
                      (set_tasksRef (<[i := new]> (tasksRef st)) st)).
Proof.
  intros (H1 & H2 & H3) Hi Htext. split; [reflexivity|]. cbn. split.
  - apply Forall_insert; [exact H2|]. rewrite Htext.
    exact (proj1 (Forall_lookup _ _) H2 i item Hi).
  - rewrite length_insert. exact H3.
Qed.

Lemma attachPreviewImage_history (image : string) :
  keeps historyInvariant (attachPreviewImage image).
Proof.
  intros st H. unfold attachPreviewImage. run_async.
  destruct (0 <=? Z.of_nat (length (tasksRef st)) - 1); [|exact H].
  destruct (tasksRef st !! _) as [item|] eqn:Hitem; [|exact H].
  cbn. now apply (historyInvariant_replace_last st _ item).
Qed.

Lemma updateLastFollowUps_history (guard : list FollowUpItem -> bool)
    (f : list FollowUpItem -> list FollowUpItem) :
  keeps historyInvariant (updateLastFollowUps guard f).
Proof.
  intros st H. unfold updateLastFollowUps. run_async.
  destruct (0 <=? Z.of_nat (length (tasksRef st)) - 1); [|exact H].
  destruct (tasksRef st !! _) as [item|] eqn:Hitem; [|exact H].
  destruct (guard (followUpsOf item)); [|exact H].
  cbn. now apply (historyInvariant_replace_last st _ item).
Qed.

(** The history without its last step, the public counter one lower. *)
Lemma historyInvariant_retract (st : TaskProvider) :
  historyInvariant st -> tasksRef st <> [] ->
  historyInvariant
    (set_totalTaskCount (Z.max 0 (totalTaskCount st - 1))
       (set_tasks (removelast (tasksRef st))
          (set_tasksRef (removelast (tasksRef st)) st))).
Proof.
  intros (H1 & H2 & H3) Hne. split; [reflexivity|]. cbn. split.
  - now apply Forall_removelast.
  - destruct (length_removelast_le (tasksRef st)) as [_ Hlen].
    rewrite (Hlen Hne).
    assert (0 < length (tasksRef st))%nat; [|lia].
    destruct (tasksRef st); [congruence | cbn; lia].
Qed.

Lemma mergePendingFollowUp_history :
  keeps historyInvariant mergePendingFollowUp.
Proof.
  intros st H. pose proof (mergePendingFollowUp_cases st) as Hcases.
  destruct (mergesFollowUp st).
  - destruct Hcases as (currentTask & Hlast & ->). cbn [snd].
    assert (Hne : tasksRef st <> []) by (intros Heq; rewrite Heq in Hlast; discriminate).
    pose proof (historyInvariant_retract st H Hne) as Hr.
    exact Hr.
  - rewrite Hcases. exact H.
Qed.

Lemma announceStep_history (actionText image : string) (r : GenerationReplies) :
  keeps historyInvariant (announceStep actionText image r).
Proof.
  unfold announceStep, requestPreview.
  keeping_by ltac:(apply attachPreviewImage_history) same.
Qed.

Lemma appended_history (captured : CapturedImage) (action : string)
    (context : option FollowUpContext) (merged : TaskProvider) :
  historyInvariant merged ->
  historyInvariant (appended osName captured action context merged).
Proof.
  intros (H1 & H2 & H3). unfold appended. split; [reflexivity|]. cbn. split.
  - apply Forall_forall. intros item Hitem.
    apply list_elem_of_In, List.filter_In in Hitem as [Hin Htruthy].
    apply List.in_app_or in Hin as [Hin|[<-|[]]].
    + apply list_elem_of_In in Hin. exact (proj1 (Forall_forall _ _) H2 item Hin).
    + split; [exact Htruthy | apply trim_idempotent].
  - pose proof (List.filter_length_le (fun item => truthy (text item))
                  (tasksRef merged ++ [mkTask (trim action) None None])) as Hlen.
    rewrite length_app in Hlen. cbn in Hlen. lia.
Qed.

Lemma generateStep_history (captured : CapturedImage) (r : GenerationReplies) :
  keeps historyInvariant (generateStep osName captured r).
Proof.
  intros st H. pose proof (mergePendingFollowUp_history st H) as Hmerged.
  destruct (reply_action r) as [action|] eqn:Haction.
  - destruct (generateStep_resolved osName captured r action st Haction)
      as (context & _ & ->).
    apply announceStep_history. now apply appended_history.
  - destruct (generateStep_rejected osName captured r st Haction) as (calls & ->).
    exact Hmerged.
Qed.

Lemma trigger_history (exceeded : bool) (r : GenerationReplies) :
  keeps historyInvariant
        (triggerGenerateTaskDescription isUsingLocalProvider osName exceeded r).
Proof.
  unfold triggerGenerateTaskDescription, releaseGeneration.
  keeping_by ltac:(apply generateStep_history) same.
Qed.

Lemma handler_history (op : Op) :
  keeps historyInvariant (handler isUsingLocalProvider osName op).
Proof.
  destruct op; cbn [handler].
  - unfold onNextTask. keeping_by ltac:(apply trigger_history) same.
  - unfold onRefreshTask. apply keeps_function.
    apply keeps_bind; [apply keeps_gets | intros exceeded].
    apply keeps_bind; [apply keeps_returnIf | intros _].
    apply keeps_gets_bind. intros st H.
    apply keeps_at_bind; [|intros _; apply trigger_history].
    destruct (0 <? length (tasksRef st))%nat eqn:Hlen; run_async; [|exact H].
    apply historyInvariant_retract; [exact H|].
    intros Heq. rewrite Heq in Hlen. discriminate.
  - unfold triggerFirstTask. keeping_by ltac:(apply trigger_history) same.
  - unfold returnToTask. apply keeps_function.
    apply keeps_bind; [apply keeps_gets | intros exceeded].
    apply keeps_bind; [apply keeps_returnIf | intros _].
    apply keeps_gets_bind. intros st H. run_async.
    destruct ((taskIndex <? 0) || (Z.of_nat (length (tasksRef st)) <=? taskIndex));
      [exact H|].
    cbn. destruct H as (H1 & H2 & H3). split; [reflexivity|]. cbn.
    split; [now apply Forall_take | lia].
  - unfold sendFollowUpMessage, removeLastFollowUpFromCurrentTask,
           addFollowUpToCurrentTask.
    keeping_by ltac:(first [ apply updateLastFollowUps_history
                           | apply keeps_streamPartials; intros;
                             apply updateLastFollowUps_history
                           | apply trigger_history ]) same.
Qed.

End History.

(** X16. All along the life of the component the history that consumers
    render is the one the component works on, every step in it has a text
    that is neither empty nor padded with white space, and the public step
    counter is never below the number of steps. *)
Theorem history_well_formed (isUsingLocalProvider : bool) (osName : string)
    (actions : list Session.Action) :
  let st := Watch.provider
              (Session.runActions isUsingLocalProvider osName actions) in
  tasks st = tasksRef st /\
  Forall (fun item => truthy (text item) = true /\ trim (text item) = text item)
         (tasksRef st) /\
  Z.of_nat (length (tasksRef st)) <= totalTaskCount st.
Proof.
  cbv zeta.
  apply (runActions_invariant isUsingLocalProvider osName Session.historyInvariant).
  - intros st calls H. exact H.
  - intros st. split; intros H; exact H.
  - apply handler_history.
  - split; [reflexivity|]. split; [constructor | reflexivity].
Qed.

Section DetectionStarts.

Import Watch Session.

Variable isUsingLocalProvider : bool.
Variable osName : string.

Ltac same := intros; assumption.

Lemma detectionStarts_call (e : Effect) (st : TaskProvider) :
  detectionStarts (set_trace (trace st ++ [e]) st)
  = (detectionStarts st + match e with StartChangeDetectionCall => 1 | _ => 0 end)%nat.
Proof.
  unfold detectionStarts. cbn. rewrite List.filter_app, length_app.
  destruct e; reflexivity.
Qed.

Lemma starts_perform (k : nat) (e : Effect) :
  e <> StartChangeDetectionCall -> keeps (startedWithin k) (perform e).
Proof.
  intros He st H. unfold startedWithin in *.
  unfold perform, modify. cbn [snd]. rewrite detectionStarts_call.
  cbn [changeDetectionStartedRef set_trace]. destruct e; try congruence; lia.
Qed.

Lemma starts_await {A} (k : nat) (e : Effect) (o : Outcome A) :
  e <> StartChangeDetectionCall -> keeps (startedWithin k) (await e o).
Proof.
  intros He st H. pose proof (starts_perform k e He st H) as Hp.
  unfold await. destruct o; exact Hp.
Qed.

Ltac logged :=
  idtac;
  lazymatch goal with
  | |- Session.keeps _ (perform _) => apply starts_perform; discriminate
  | |- Session.keeps _ (await _ _) => apply starts_await; discriminate
  end.

Lemma announceStep_starts (k : nat) (actionText image : string)
    (r : GenerationReplies) :
  keeps (startedWithin k) (announceStep actionText image r).
Proof.
  unfold announceStep.
  apply keeps_bind; [keeping same | intros _].
  apply keeps_bind;
    [unfold requestPreview, attachPreviewImage, publishTasks;
     keeping_by logged same | intros _].
  apply keeps_bind; [keeping same | intros _].
  apply keeps_gets_bind. intros st H. unfold startedWithin in *.
  destruct (changeDetectionStartedRef st) eqn:Hstarted; cbn [negb andb whenever].
  - cbn. now rewrite Hstarted.
  - destruct (truthy actionText && _ && _); [|cbn; now rewrite Hstarted].
    unfold mbind, Async_bind, modify, perform, detectionStarts in *. cbn.
    rewrite List.filter_app, length_app. cbn. lia.
Qed.

Ltac announced :=
  idtac;
  lazymatch goal with
  | |- Session.keeps _ (announceStep _ _ _) => apply announceStep_starts
  end.

Lemma trigger_starts (k : nat) (exceeded : bool) (r : GenerationReplies) :
  keeps (startedWithin k)
        (triggerGenerateTaskDescription isUsingLocalProvider osName exceeded r).
Proof.
  unfold triggerGenerateTaskDescription, releaseGeneration, generateStep,
         mergePendingFollowUp, publishTasks.
  keeping_by ltac:(first [logged | announced]) same.
Qed.

Lemma updateLastFollowUps_starts (k : nat) (guard : list FollowUpItem -> bool)
    (f : list FollowUpItem -> list FollowUpItem) :
  keeps (startedWithin k) (updateLastFollowUps guard f).
Proof. unfold updateLastFollowUps, publishTasks. keeping same. Qed.

Ltac triggered :=
  idtac;
  lazymatch goal with
  | |- Session.keeps _ (triggerGenerateTaskDescription _ _ _ _) =>
      apply trigger_starts
  | |- Session.keeps _ (updateLastFollowUps _ _) =>
      apply updateLastFollowUps_starts
  | |- Session.keeps _ (streamPartials _ _ _) =>
      apply keeps_streamPartials; intros; apply updateLastFollowUps_starts
  end.

Lemma handler_starts (k : nat) (op : Op) :
  keeps (startedWithin k) (handler isUsingLocalProvider osName op).
Proof.
  destruct op; cbn [handler].
  - unfold onNextTask. keeping_by triggered same.
  - unfold onRefreshTask, publishTasks. keeping_by triggered same.
  - unfold triggerFirstTask. keeping_by triggered same.
  - unfold returnToTask. keeping_by logged same.
  - unfold sendFollowUpMessage, removeLastFollowUpFromCurrentTask,
           addFollowUpToCurrentTask.
    keeping_by ltac:(first [logged | triggered]) same.
Qed.

Lemma commitRender_starts (k : nat) (previous : option (bool * Z))
    (st : TaskProvider) :
  startedWithin k st -> startedWithin k (snd (commitRender previous st)).
Proof.
  intros H. unfold commitRender. cbn [snd].
  destruct (match previous with Some _ => _ | None => _ end); [|exact H].
  revert st H. change (keeps (startedWithin k) maxStepsEffect).
  unfold maxStepsEffect. keeping_by logged same.
Qed.

(** X17. [startChangeDetection] is called at most once until [reset] stops
    the detection: all along the life of the component the number of its
    calls is at most the number of resets, plus one when the component
    remembers having started it. *)
Theorem detection_started_once (actions : list Action) :
  let w := runActions isUsingLocalProvider osName actions in
  (detectionStarts (provider w)
   <= detectionStops w
      + (if changeDetectionStartedRef (provider w) then 1 else 0))%nat.
Proof.
  cbv zeta. unfold runActions.
  induction actions as [|a actions IH] using rev_ind.
  - cbn [foldl snd provider].
    apply (commitRender_starts 0 None initialTaskProvider).
    unfold startedWithin. cbn. lia.
  - rewrite foldl_app. cbn [foldl]. unfold act at 1. cbn [snd provider].
    set (w := snd (foldl _ _ actions)) in *.
    change (detectionStops (mkWatcher _ _ (watchCalls (dispatch isUsingLocalProvider
                                                        osName a w))))
      with (detectionStops (dispatch isUsingLocalProvider osName a w)).
    apply (commitRender_starts
             (detectionStops (dispatch isUsingLocalProvider osName a w))).
    destruct a as [op| |image replies]; cbn [dispatch].
    + apply (handler_starts (detectionStops w) op (provider w)). exact IH.
    + unfold startedWithin, reset, detectionStops, detectionStarts in *. cbn.
      rewrite List.filter_app, length_app. cbn.
      destruct (changeDetectionStartedRef (provider w)); lia.
    + destruct (handleScreenChange_frame replies image w) as [H1 H2].
      cbv zeta in H1, H2. unfold startedWithin. rewrite H2.
      assert (Ht : trace (provider (watcherOf (handleScreenChange replies image w)))
                   = trace (provider w)) by exact (f_equal trace H1).
      assert (Hr : changeDetectionStartedRef
                     (provider (watcherOf (handleScreenChange replies image w)))
                   = changeDetectionStartedRef (provider w))
        by exact (f_equal changeDetectionStartedRef H1).
      unfold detectionStarts. rewrite Ht, Hr. exact IH.
Qed.

End DetectionStarts.

Section Appending.

Import Session.

Variable isUsingLocalProvider : bool.
Variable osName : string.

Ltac same := intros; assumption.

Lemma attachPreviewImage_appended (base : list TaskHistoryItem) (t : string)
    (count generation : Z) (screenshot image : string) :
  keeps (stepAppended base t count generation screenshot) (attachPreviewImage image).
Proof.
  intros st ([preview Hh] & Ht & Hc & Hg & Hs). unfold attachPreviewImage.
  unfold publishTasks, modify, gets, mbind, Async_bind, mret, Async_ret. cbn.
  rewrite Hh, length_app. cbn [length].
  replace (Z.of_nat (length base + 1) - 1) with (Z.of_nat (length base)) by lia.
  destruct (Z.leb_spec 0 (Z.of_nat (length base))); [|lia].
  rewrite Nat2Z.id.
  rewrite lookup_app_r, Nat.sub_diag by lia. cbn.
  repeat split; try assumption.
  exists (Some image). rewrite insert_app_r_alt, Nat.sub_diag by lia. reflexivity.
Qed.

Lemma announceStep_appended (base : list TaskHistoryItem) (t : string)
    (count generation : Z) (screenshot actionText image : string)
    (r : GenerationReplies) :
  keeps (stepAppended base t count generation screenshot)
        (announceStep actionText image r).
Proof.
  unfold announceStep, requestPreview.
  keeping_by ltac:(apply attachPreviewImage_appended) same.
Qed.

(** A generation whose capture and action resolve, the action not being
    blank, appends one step to the history the merge left. *)
Lemma trigger_appends (r : GenerationReplies) (captured : CapturedImage)
    (action : string) (st : TaskProvider) :
  isTriggeringRef st = false ->
  reply_capture r = Resolved captured ->
  reply_action r = Resolved action ->
  truthy (trim action) = true ->
  Forall (fun item => truthy (text item) = true) (tasksRef st) ->
  stepAppended (retractedHistory st) (trim action)
    ((if mergesFollowUp st then Z.max 0 (totalTaskCount st - 1)
      else totalTaskCount st) + 1)
    (totalTaskGeneration st + 1) (scaledImageDataUrl captured)
    (snd (triggerGenerateTaskDescription isUsingLocalProvider osName false r st)).
Proof.
  intros Hguard Hcapture Haction Htruthy Hall.
  rewrite (trigger_started isUsingLocalProvider osName captured r st Hguard Hcapture).
  cbn [snd]. unfold attempt.
  set (st0 := set_trace _ (set_isLoading true (set_isTriggeringRef true st))).
  pose proof (mergePendingFollowUp_fields st0) as Hmerged. cbv zeta in Hmerged.
  destruct Hmerged as (_ & Hh & _ & Hcount & _ & Hg & _).
  change (retractedHistory st0) with (retractedHistory st) in Hh.
  change (mergesFollowUp st0) with (mergesFollowUp st) in Hcount.
  cbn [totalTaskCount totalTaskGeneration
       st0 set_trace set_isLoading set_isTriggeringRef] in Hcount, Hg.
  destruct (generateStep_resolved osName captured r action st0 Haction)
    as (context & _ & Hstep).
  set (I := stepAppended (retractedHistory st) (trim action)
              ((if mergesFollowUp st then Z.max 0 (totalTaskCount st - 1)
                else totalTaskCount st) + 1)
              (totalTaskGeneration st + 1) (scaledImageDataUrl captured)).
  assert (Hretracted : Forall (fun item => truthy (text item) = true)
                              (retractedHistory st)).
  { unfold retractedHistory. destruct (mergesFollowUp st); [|exact Hall].
    rewrite Forall_forall in *. intros x Hx. apply Hall.
    now apply elem_of_removelast. }
  assert (Happended : I (appended osName captured action context
                           (snd (mergePendingFollowUp st0)))).
  { set (merged := snd (mergePendingFollowUp st0)) in *. clearbody merged.
    unfold I, stepAppended, appended. cbn. rewrite Hh, Hcount, Hg.
    assert (Hfilter : List.filter (fun item => truthy (text item))
                        (retractedHistory st ++ [mkTask (trim action) None None])
                      = retractedHistory st ++ [mkTask (trim action) None None]).
    { apply forallb_filter_id, forallb_forall. intros item Hin.
      apply List.in_app_or in Hin as [Hin|[<-|[]]]; [|exact Htruthy].
      apply list_elem_of_In in Hin.
      exact (proj1 (Forall_forall _ _) Hretracted item Hin). }
    rewrite Hfilter. repeat split; eauto. }
  unfold tryCatch. rewrite Hstep.
  pose proof (announceStep_appended (retractedHistory st) (trim action) _ _ _
                (trim action) (nonScaledImageDataUrl captured) r _ Happended)
    as Hannounced.
  fold I in Hannounced.
  destruct (announceStep _ _ r _) as [[[]| |] st3]; cbn [snd] in Hannounced |- *;
    unfold releaseGeneration, perform, modify, mbind, Async_bind; cbn;
    exact Hannounced.
Qed.

Lemma handler_guard_passed (r : GenerationReplies) (st : TaskProvider) :
  hasExceededMaxSteps st = false ->
  onNextTask isUsingLocalProvider osName r st
  = triggerGenerateTaskDescription isUsingLocalProvider osName false r st /\
  triggerFirstTask isUsingLocalProvider osName r st
  = triggerGenerateTaskDescription isUsingLocalProvider osName false r st.
Proof.
  intros Hc. unfold onNextTask, triggerFirstTask, function.
  unfold mbind, Async_bind, gets, returnIf. rewrite Hc.
  assert (Hn : fst (triggerGenerateTaskDescription isUsingLocalProvider osName
                      false r st) <> Returned)
    by (unfold triggerGenerateTaskDescription; apply neverReturns_function).
  destruct (triggerGenerateTaskDescription _ _ false r st) as [[[]| |] st1];
    cbn in *; try (split; reflexivity); congruence.
Qed.

(** X18. Below the step ceiling and with no generation in flight, when the
    capture and [generateAction] resolve and the action is not blank,
    [onNextTask] (and [triggerFirstTask] alike) appends exactly one step to
    the history the merge of a pending follow-up left: its text is the
    trimmed action, it has no follow-up, the earlier steps are untouched; the
    history is published, both counters grow by one and the capture becomes
    the last screenshot; this whatever the preview calls answer. *)
Theorem onNextTask_appends_step (r : GenerationReplies) (captured : CapturedImage)
    (action : string) (st : TaskProvider) :
  hasExceededMaxSteps st = false ->
  isTriggeringRef st = false ->
  reply_capture r = Resolved captured ->
  reply_action r = Resolved action ->
  truthy (trim action) = true ->
  Forall (fun item => truthy (text item) = true) (tasksRef st) ->
  let st' := snd (onNextTask isUsingLocalProvider osName r st) in
  (exists preview,
     tasksRef st' = retractedHistory st ++ [mkTask (trim action) preview None]) /\
  tasks st' = tasksRef st' /\
  totalTaskCount st'
  = (if mergesFollowUp st then Z.max 0 (totalTaskCount st - 1)
     else totalTaskCount st) + 1 /\
  totalTaskGeneration st' = totalTaskGeneration st + 1 /\
  lastScreenshotRef st' = scaledImageDataUrl captured /\
  triggerFirstTask isUsingLocalProvider osName r st
  = onNextTask isUsingLocalProvider osName r st.
Proof.
  intros Hceiling Hguard Hcapture Haction Htruthy Hall st'. subst st'.
  destruct (handler_guard_passed r st Hceiling) as [-> ->].
  destruct (trigger_appends r captured action st Hguard Hcapture Haction
              Htruthy Hall) as (H1 & H2 & H3 & H4 & H5).
  repeat split; assumption.
Qed.

(** X19. Below the step ceiling, with no generation in flight and no
    follow-up pending, a successful [onRefreshTask] replaces the last step:
    the steps before it stay, the new last step carries the trimmed action
    and no follow-up, and the generation counter grows by one. *)
Theorem onRefreshTask_replaces_last (r : GenerationReplies)
    (captured : CapturedImage) (action : string) (st : TaskProvider)
    (base : list TaskHistoryItem) (old : TaskHistoryItem) :
  hasExceededMaxSteps st = false ->
  isTriggeringRef st = false ->
  pendingFollowUpRef st = "" ->
  tasksRef st = base ++ [old] ->
  reply_capture r = Resolved captured ->
  reply_action r = Resolved action ->
  truthy (trim action) = true ->
  Forall (fun item => truthy (text item) = true) (tasksRef st) ->
  let st' := snd (onRefreshTask isUsingLocalProvider osName r st) in
  (exists preview, tasksRef st' = base ++ [mkTask (trim action) preview None]) /\
  tasks st' = tasksRef st' /\
  totalTaskCount st' = Z.max 0 (totalTaskCount st - 1) + 1 /\
  totalTaskGeneration st' = totalTaskGeneration st + 1.
Proof.
  intros Hceiling Hguard Hpending Hhistory Hcapture Haction Htruthy Hall st'.
  subst st'.
  set (st1 := set_totalTaskCount (Z.max 0 (totalTaskCount st - 1))
                (set_tasks base (set_tasksRef base st))).
  assert (Hrun : snd (onRefreshTask isUsingLocalProvider osName r st)
                 = snd (triggerGenerateTaskDescription isUsingLocalProvider osName
                          false r st1)).
  { unfold onRefreshTask, function, publishTasks, whenever.
    unfold mbind, Async_bind, gets, returnIf, modify. rewrite Hceiling.
    rewrite Hhistory, length_app. cbn [length].
    replace (0 <? length base + 1)%nat with true
      by (symmetry; apply Nat.ltb_lt; lia).
    rewrite removelast_last. cbn [snd fst].
    match goal with
    | |- context [triggerGenerateTaskDescription _ _ false r ?s] =>
        change s with st1
    end.
    destruct (triggerGenerateTaskDescription _ _ false r st1) as [[[]| |] st2];
      reflexivity. }
  rewrite Hrun.
  assert (Hno : mergesFollowUp st1 = false).
  { unfold mergesFollowUp. cbn. rewrite Hpending. reflexivity. }
  assert (Hall1 : Forall (fun item => truthy (text item) = true) (tasksRef st1)).
  { cbn. rewrite Hhistory in Hall. now apply Forall_app in Hall as [Hall _]. }
  destruct (trigger_appends r captured action st1 Hguard Hcapture Haction
              Htruthy Hall1) as (H1 & H2 & H3 & H4 & _).
  unfold retractedHistory in H1. rewrite Hno in H1, H3.
  repeat split; assumption.
Qed.

(** X20. [returnToTask] with an index outside the history changes nothing
    at all; with an index inside it keeps the steps up to that index, sets
    the public counter to their number, frees the generation lock and the
    checking lock, and asks the store to clear the analysing flag and to
    pause detection for 2000 ms. *)
Theorem returnToTask_truncates (taskIndex : Z) (st : TaskProvider) :
  hasExceededMaxSteps st = false ->
  let st' := snd (returnToTask taskIndex st) in
  if (0 <=? taskIndex) && (taskIndex <? Z.of_nat (length (tasksRef st))) then
    tasksRef st' = take (Z.to_nat taskIndex + 1) (tasksRef st) /\
    tasks st' = tasksRef st' /\
    totalTaskCount st' = taskIndex + 1 /\
    isTriggeringRef st' = false /\ isCheckingStepRef st' = false /\
    pendingCheckImageRef st' = None /\
    trace st' = trace st ++ [SetIsAnalyzingScreenChangeCall false;
                             PauseChangeDetectionTemporarilyCall 2000]
  else st' = st.
Proof.
  intros Hceiling st'. subst st'. unfold returnToTask, function.
  unfold mbind, Async_bind, gets, returnIf, modify, perform. rewrite Hceiling.
  destruct (Z.leb_spec 0 taskIndex) as [Hlo|Hlo];
    destruct (Z.ltb_spec taskIndex (Z.of_nat (length (tasksRef st)))) as [Hhi|Hhi];
    cbn [andb].
  - destruct (Z.ltb_spec taskIndex 0); [lia|].
    destruct (Z.leb_spec (Z.of_nat (length (tasksRef st))) taskIndex); [lia|].
    cbn. replace (Z.to_nat (taskIndex + 1)) with (Z.to_nat taskIndex + 1)%nat by lia.
    repeat split; try reflexivity.
    + rewrite length_take. lia.
    + now rewrite <- app_assoc.
  - destruct (Z.leb_spec (Z.of_nat (length (tasksRef st))) taskIndex); [|lia].
    rewrite orb_true_r. reflexivity.
  - destruct (Z.ltb_spec taskIndex 0); [|lia]. reflexivity.
  - destruct (Z.ltb_spec taskIndex 0); [|lia]. reflexivity.
Qed.

End Appending.

(** The first step of a session. *)
Lemma onNextTask_appends_step_witness :
  let st' := snd (onNextTask false "macOS" OrchestratorExamples.gearReplies
                             initialTaskProvider) in
  (exists preview,
     tasksRef st' = retractedHistory initialTaskProvider
                    ++ [mkTask (trim "Click the gear icon") preview None]) /\
  tasks st' = tasksRef st' /\
  totalTaskCount st'
  = (if mergesFollowUp initialTaskProvider
     then Z.max 0 (totalTaskCount initialTaskProvider - 1)
     else totalTaskCount initialTaskProvider) + 1 /\
  totalTaskGeneration st' = totalTaskGeneration initialTaskProvider + 1 /\
  lastScreenshotRef st' = scaledImageDataUrl OrchestratorExamples.capturedFrame /\
  triggerFirstTask false "macOS" OrchestratorExamples.gearReplies initialTaskProvider
  = onNextTask false "macOS" OrchestratorExamples.gearReplies initialTaskProvider.
Proof.
  apply (onNextTask_appends_step false "macOS" OrchestratorExamples.gearReplies
           OrchestratorExamples.capturedFrame "Click the gear icon"
           initialTaskProvider); try reflexivity.
  constructor.
Defined.

(** The one step of the history is generated again. *)
Lemma onRefreshTask_replaces_last_witness :
  let st' := snd (onRefreshTask false "macOS" OrchestratorExamples.gearReplies
                                SessionExamples.afterOneStep) in
  (exists preview,
     tasksRef st' = [] ++ [mkTask (trim "Click the gear icon") preview None]) /\
  tasks st' = tasksRef st' /\
  totalTaskCount st'
  = Z.max 0 (totalTaskCount SessionExamples.afterOneStep - 1) + 1 /\
  totalTaskGeneration st'
  = totalTaskGeneration SessionExamples.afterOneStep + 1.
Proof.
  apply (onRefreshTask_replaces_last false "macOS" OrchestratorExamples.gearReplies
           OrchestratorExamples.capturedFrame "Click the gear icon"
           SessionExamples.afterOneStep []
           (mkTask "Click the gear icon" (Some "preview") None));
    try reflexivity.
  repeat constructor.
Defined.

(** Back to the first of two steps. *)
Lemma returnToTask_truncates_witness :
  let st' := snd (returnToTask 0 SessionExamples.afterTwoSteps) in
  if (0 <=? 0) && (0 <? Z.of_nat (length (tasksRef SessionExamples.afterTwoSteps)))
  then
    tasksRef st' = take (Z.to_nat 0 + 1) (tasksRef SessionExamples.afterTwoSteps) /\
    tasks st' = tasksRef st' /\
    totalTaskCount st' = 0 + 1 /\
    isTriggeringRef st' = false /\ isCheckingStepRef st' = false /\
    pendingCheckImageRef st' = None /\
    trace st' = trace SessionExamples.afterTwoSteps
                ++ [SetIsAnalyzingScreenChangeCall false;
                    PauseChangeDetectionTemporarilyCall 2000]
  else st' = SessionExamples.afterTwoSteps.
Proof.
  apply (returnToTask_truncates 0 SessionExamples.afterTwoSteps). reflexivity.
Defined.

(** ** Settings *)

Section SettingsProperties.

Import Settings.

Lemma fetchModels_fields (p : Provider) (reply : FetchReply) (m : Modal) :
  let m' := fetchModels p reply m in
  settings m' = settings m /\ isSettingsOpen m' = isSettingsOpen m /\
  localSettings m' = localSettings m /\ isLoadingModels m' = false /\
  (connectionError m' <> None -> models m' = []).
Proof.
  unfold fetchModels. destruct (listModels p reply); cbn; repeat split; auto.
  congruence.
Qed.



Lemma settings_gesture (m : Modal) (g : Gesture) :
  settings (gesture m g) = settings m \/
  isUsingLocalProvider (settings (gesture m g)) = true.
Proof.
  destruct g; cbn [gesture].
  - left. destruct (isSettingsOpen m); [reflexivity|].
    unfold openedEffect.
    cbn [isSettingsOpen setContext settings setLocalSettings setConnectionError].
    destruct (provider (settings m)); [|reflexivity].
    match goal with |- settings (fetchModels ?a ?b ?c) = _ =>
      destruct (fetchModels_fields a b c) as (F1 & _) end.
    exact F1.
  - left. destruct (isSettingsOpen m); [|reflexivity].
    unfold handleProviderChange.
    match goal with |- settings (fetchModels ?a ?b ?c) = _ =>
      destruct (fetchModels_fields a b c) as (F1 & _) end.
    exact F1.
  - left. destruct (isSettingsOpen m && _); reflexivity.
  - destruct (isSettingsOpen m && canSave m) eqn:Hguard; [|now left].
    right. apply andb_prop in Hguard as [_ Hsave]. unfold canSave in Hsave.
    unfold handleSave, closeSettings, updateSettings, complete, isUsingLocalProvider.
    cbn. exact Hsave.
  - left. destruct (isSettingsOpen m); reflexivity.
  - left. destruct (isSettingsOpen m); reflexivity.
Qed.

(** X22. Through the modal the stored settings change only by a save, and
    a save is only possible with a provider and a model chosen: after any
    gestures the stored settings are the ones the modal found, or they name
    a provider and a model.  So settings that use a local provider keep
    doing so: clearing the form cannot be saved. *)
Theorem settings_saved_complete (initial : ApiSettings) (gs : list Gesture) :
  let m := gestures initial gs in
  (settings m = initial \/ isUsingLocalProvider (settings m) = true) /\
  (isUsingLocalProvider initial = true -> isUsingLocalProvider (settings m) = true).
Proof.
  cbv zeta.
  assert (H : settings (gestures initial gs) = initial \/
              isUsingLocalProvider (settings (gestures initial gs)) = true).
  { unfold gestures. induction gs as [|g gs IH] using rev_ind; [now left|].
    rewrite foldl_app. cbn [foldl].
    destruct (settings_gesture (foldl gesture (mount initial) gs) g) as [Hs|Hs];
      [rewrite Hs; exact IH | now right]. }
  split; [exact H|]. intros Hinitial. destruct H as [-> | H]; assumption.
Qed.

End SettingsProperties.

(** ** The "For Teams" form *)

Section ForTeamsProperties.

Import ForTeams.

Lemma sound_gesture (f : Form) (g : Gesture) : sound f -> sound (gesture f g).
Proof.
  intros H. pose proof H as (H1 & H2 & H3 & H4).
  destruct g; cbn [gesture].
  - destruct (isSubmitted f) eqn:Hs; [exact H|].
    unfold sound. cbn.
    split; [exact H1|]. split; [exact H2|]. split; [discriminate | exact H4].
  - destruct (isSubmitted f) eqn:Hs; [exact H|].
    unfold sound. cbn.
    split; [exact H1|]. split; [exact H2|]. split; [discriminate | exact H4].
  - destruct (negb (isSubmitted f) && canSubmit f) eqn:Hguard; [|exact H].
    apply andb_prop in Hguard as [_ Hcan]. unfold canSubmit in Hcan.
    apply andb_prop in Hcan as [Hcan Hidle]. apply andb_prop in Hcan as [He Hr].
    apply negb_true_iff in Hidle. unfold handleSubmit. rewrite He, Hr.
    cbn [negb orb]. rewrite Hidle in H2. unfold sound. cbn.
    split; [|split; [lia | split; intros _; now destruct (inquiries f)]].
    apply Forall_app. split; [exact H1|]. constructor; [|constructor].
    unfold wellFormed. cbn [inquiryEmail inquiryRole].
    rewrite !trim_idempotent. auto.
  - unfold sound, handleClose. cbn.
    split; [exact H1|]. split; [exact H2|]. split; [discriminate | exact H4].
  - destruct (pendingTimers f) as [|n] eqn:Hp; [exact H|].
    assert (Hne : inquiries f <> []) by (apply H4; discriminate).
    unfold sound, submitted. cbn. rewrite Hp.
    destruct (isSubmitting f); [|discriminate]. injection H2 as ->.
    split; [exact H1|]. split; [reflexivity|]. split; [auto | intros []; reflexivity].
Qed.

(** X23. Whatever is typed and clicked in the "For Teams" form, every
    inquiry it has sent carries an e-mail address and a role that are not
    blank and have no white space at their ends; a 500 ms timer is pending
    exactly while the form reads as submitting, and never more than one; and
    the thanks are shown only after an inquiry was sent. *)
Theorem for_teams_inquiries (gs : list Gesture) :
  let f := gestures gs in
  Forall (fun i => truthy (inquiryEmail i) = true /\
                   trim (inquiryEmail i) = inquiryEmail i /\
                   truthy (inquiryRole i) = true /\
                   trim (inquiryRole i) = inquiryRole i) (inquiries f) /\
  pendingTimers f = (if isSubmitting f then 1 else 0)%nat /\
  (isSubmitted f = true -> inquiries f <> []).
Proof.
  cbv zeta.
  assert (H : sound (gestures gs)).
  { unfold gestures. induction gs as [|g gs IH] using rev_ind.
    - unfold sound. cbn. repeat split; auto; congruence.
    - rewrite foldl_app. cbn [foldl]. now apply sound_gesture. }
  destruct H as (H1 & H2 & H3 & _). repeat split; assumption.
Qed.

End ForTeamsProperties.
